(** * ai-database-chat: the query-generation-and-safety pipeline

    A shallow embedding of the Python sources

      - [src/utils/helpers.py]        (safety validators, text helpers)
      - [src/config.py]               (denylist, row cap)
      - [src/agent/sql_generator.py]  (relational generator)
      - [src/agent/mongo_generator.py](document generator)
      - [src/agent/database_agent.py] (router and orchestrator)
      - [src/mcp/*.py]                (tool dispatch and its own safety checks)
      - [src/database/*_connector.py] (query, find, aggregate and its [$limit])
      - [src/observability/*.py]      (tracer wrappers)
      - [src/agent/query_router.py]   (model-backed router)
      - [src/visualization/auto_chart.py] (chart selection)

    Conventions of the embedding.

    - A Python [str] is a [string].  On ASCII text ([PyStr.isascii])
      [PyStr.upper], [PyStr.lower] and [PyStr.strip] are [str.upper],
      [str.lower] and [str.strip]; text beyond ASCII is held in UTF-8, and
      what Python makes of its letters is not in [PyStr]: the functions
      that depend on it also come with the case mapping as a parameter
      ([Helpers.validate_sql_safety_with], [Router._fast_route_with]).
    - A decoded JSON document is a [json] tree; a Python [dict] is an
      association list in insertion order (the order of iteration decides
      which offending key a validator reports).
    - Exceptions are values of [exn]; every exception modelled is a subclass
      of Python's [Exception].
    - A recursive function of the source is a structural [Fixpoint]; the
      walks of the document validators also come with the room left on
      the interpreter's stack as a parameter ([check_dict_within]), which
      is where their [RecursionError] is.
    - The language model, the JSON decoder, the database drivers and the
      tracing SDK are not code of the repository: they are fields of an
      environment record over which every theorem is quantified. *)

From Stdlib Require Import Ascii String List ZArith Lia Bool DecimalString.
From Stdlib Require Import Floats.SpecFloat.
From Stdlib Require QArith.
From stdpp Require Import base option list gmap strings.

Local Open Scope Z_scope.

(** ** Python string primitives *)

Module PyStr.

Definition nl : ascii := Ascii.ascii_of_nat 10.
Definition semicolon : ascii := Ascii.ascii_of_nat 59.

(** [str.upper] and [str.lower] on one ASCII character. *)
Definition upper_char (c : ascii) : ascii :=
  let n := Ascii.nat_of_ascii c in
  if (Nat.leb 97 n && Nat.leb n 122)%bool then Ascii.ascii_of_nat (n - 32) else c.

Definition lower_char (c : ascii) : ascii :=
  let n := Ascii.nat_of_ascii c in
  if (Nat.leb 65 n && Nat.leb n 90)%bool then Ascii.ascii_of_nat (n + 32) else c.

Fixpoint map_chars (f : ascii -> ascii) (s : string) : string :=
  match s with
  | EmptyString => EmptyString
  | String c s' => String (f c) (map_chars f s')
  end.

Definition upper (s : string) : string := map_chars upper_char s.
Definition lower (s : string) : string := map_chars lower_char s.

(** [s.startswith(p)] *)
Fixpoint startswith (p s : string) : bool :=
  match p, s with
  | EmptyString, _ => true
  | String _ _, EmptyString => false
  | String a p', String b s' => if Ascii.eqb a b then startswith p' s' else false
  end.

(** [sub in s] for two strings. *)
Fixpoint contains (sub s : string) : bool :=
  if startswith sub s then true
  else match s with
       | EmptyString => false
       | String _ s' => contains sub s'
       end.

(** [s.count(c)] for a one-character needle. *)
Fixpoint count (c : ascii) (s : string) : nat :=
  match s with
  | EmptyString => 0%nat
  | String a s' => ((if Ascii.eqb a c then 1 else 0) + count c s')%nat
  end.

(** [str.isspace] on an ASCII character: TAB, LF, VT, FF, CR, FS, GS, RS,
    US and the blank. *)
Definition isspace (c : ascii) : bool :=
  let n := Ascii.nat_of_ascii c in
  ((Nat.leb 9 n && Nat.leb n 13) || (Nat.leb 28 n && Nat.leb n 32))%bool.

Fixpoint lstrip (s : string) : string :=
  match s with
  | EmptyString => EmptyString
  | String c s' => if isspace c then lstrip s' else s
  end.

Fixpoint rstrip (s : string) : string :=
  match s with
  | EmptyString => EmptyString
  | String c s' =>
      match rstrip s' with
      | EmptyString => if isspace c then EmptyString else String c EmptyString
      | r => String c r
      end
  end.

(** [s.strip()] *)
Definition strip (s : string) : string := rstrip (lstrip s).

(** [s.split("\n")]: never empty, [""] splits to [[""]]. *)
Fixpoint split_nl (s : string) : list string :=
  match s with
  | EmptyString => [EmptyString]
  | String c s' =>
      if Ascii.eqb c nl then EmptyString :: split_nl s'
      else match split_nl s' with
           | [] => [String c EmptyString]
           | l :: ls => String c l :: ls
           end
  end.

(** ["\n".join(lines)] *)
Fixpoint join_nl (lines : list string) : string :=
  match lines with
  | [] => EmptyString
  | [l] => l
  | l :: ls => l +:+ String nl (join_nl ls)
  end.

(** [xs[1:-1]] *)
Definition slice_1_m1 {A} (xs : list A) : list A :=
  removelast (tl xs).

(** [s[n:]] *)
Fixpoint drop (n : nat) (s : string) : string :=
  match n, s with
  | O, _ => s
  | S _, EmptyString => EmptyString
  | S n', String _ s' => drop n' s'
  end.

(** [str(n)] for a non-negative integer. *)
Definition of_nat (n : nat) : string :=
  NilZero.string_of_uint (Nat.to_uint n).

(** Truthiness of a [str]. *)
Definition nonempty (s : string) : bool :=
  match s with EmptyString => false | _ => true end.

(** [s.isascii()]: every character is below 128. *)
Fixpoint isascii (s : string) : bool :=
  match s with
  | EmptyString => true
  | String c s' => (Nat.ltb (Ascii.nat_of_ascii c) 128 && isascii s')%bool
  end.

End PyStr.

(** ** Letters beyond ASCII whose case is an ASCII letter

    [str.upper] maps U+0131 (dotless i) to [I] and U+017F (long s) to
    [S]; [str.lower] maps U+212A (the Kelvin sign) to [k].  [upper] and
    [lower] below are [str.upper] and [str.lower] on UTF-8 text whose
    characters beyond ASCII are among these three. *)

Module Unicode.

Definition byte (n : nat) : ascii := Ascii.ascii_of_nat n.

(** U+0131, U+017F and U+212A in UTF-8. *)
Definition dotless_i : string := String (byte 196) (String (byte 177) EmptyString).
Definition long_s : string := String (byte 197) (String (byte 191) EmptyString).
Definition kelvin : string :=
  String (byte 226) (String (byte 132) (String (byte 170) EmptyString)).

Definition two (a b : ascii) (x y : nat) : bool :=
  (Ascii.eqb a (byte x) && Ascii.eqb b (byte y))%bool.

Fixpoint upper (s : string) : string :=
  match s with
  | EmptyString => EmptyString
  | String a s1 =>
      match s1 with
      | String b s2 =>
          if two a b 196 177 then String "I" (upper s2)
          else if two a b 197 191 then String "S" (upper s2)
          else String (PyStr.upper_char a) (upper s1)
      | EmptyString => String (PyStr.upper_char a) EmptyString
      end
  end.

Fixpoint lower (s : string) : string :=
  match s with
  | EmptyString => EmptyString
  | String a s1 =>
      match s1 with
      | String b (String c s3) =>
          if (two a b 226 132 && Ascii.eqb c (byte 170))%bool
          then String "k" (lower s3)
          else String (PyStr.lower_char a) (lower s1)
      | _ => String (PyStr.lower_char a) (lower s1)
      end
  end.

End Unicode.


(** ** Exceptions and results of fallible code *)

Inductive exn_class : Type :=
| JSONDecodeError
| AttributeError
| TypeError
| RecursionError
| OtherException.

Record exn : Type := Exn { exn_cls : exn_class; exn_msg : string }.

(** [str(e)] *)
Definition str_of_exn (e : exn) : string := exn_msg e.

Inductive outcome (A : Type) : Type :=
| Ok (a : A)
| Raise (e : exn).
Arguments Ok {A} a.
Arguments Raise {A} e.

Definition returns {A} (o : outcome A) : Prop := exists a, o = Ok a.
Definition raises {A} (o : outcome A) : Prop := exists e, o = Raise e.

(** ** Decoded JSON values *)

#[warnings="-register-all"]
Inductive json : Type :=
| JNull
| JBool (b : bool)
| JInt (n : Z)
| JFloat (f : spec_float)
| JStr (s : string)
| JList (xs : list json)
| JDict (items : list (string * json)).

Abbreviation dict := (list (string * json)).

Section JsonInduction.
Variable P : json -> Prop.
Hypothesis Hnull : P JNull.
Hypothesis Hbool : forall b, P (JBool b).
Hypothesis Hint : forall n, P (JInt n).
Hypothesis Hfloat : forall f, P (JFloat f).
Hypothesis Hstr : forall s, P (JStr s).
Hypothesis Hlist : forall xs, Forall P xs -> P (JList xs).
Hypothesis Hdict : forall items, Forall (fun kv => P (snd kv)) items -> P (JDict items).

Fixpoint json_nested_ind (j : json) : P j :=
  match j with
  | JNull => Hnull
  | JBool b => Hbool b
  | JInt n => Hint n
  | JFloat f => Hfloat f
  | JStr s => Hstr s
  | JList xs =>
      Hlist xs
        ((fix go (l : list json) : Forall P l :=
            match l with
            | [] => @List.Forall_nil _ P
            | x :: l' => @List.Forall_cons _ P x l' (json_nested_ind x) (go l')
            end) xs)
  | JDict items =>
      Hdict items
        ((fix go (l : dict) : Forall (fun kv => P (snd kv)) l :=
            match l with
            | [] => @List.Forall_nil _ _
            | kv :: l' =>
                @List.Forall_cons _ (fun kv => P (snd kv)) kv l'
                  (json_nested_ind (snd kv)) (go l')
            end) items)
  end.
End JsonInduction.

Module Py.

(** [type(v).__name__] *)
Definition type_name (v : json) : string :=
  match v with
  | JNull => "NoneType"
  | JBool _ => "bool"
  | JInt _ => "int"
  | JFloat _ => "float"
  | JStr _ => "str"
  | JList _ => "list"
  | JDict _ => "dict"
  end.

(** The [AttributeError] of [v.attr] on a value without that attribute. *)
Definition no_attribute (v : json) (attr : string) : exn :=
  Exn AttributeError
      ("'" +:+ type_name v +:+ "' object has no attribute '" +:+ attr +:+ "'").

(** The [RecursionError] of a call that the interpreter's stack has no
    room for. *)
Definition recursion_error : exn :=
  Exn RecursionError "maximum recursion depth exceeded".

(** Truthiness, as [if v:] and [not v] see it. *)
Definition truthy (v : json) : bool :=
  match v with
  | JNull => false
  | JBool b => b
  | JInt n => negb (Z.eqb n 0)
  | JFloat f => match f with S754_zero _ => false | _ => true end
  | JStr s => PyStr.nonempty s
  | JList xs => match xs with [] => false | _ => true end
  | JDict items => match items with [] => false | _ => true end
  end.

(** [k in d] for a dict. *)
Fixpoint has_key (d : dict) (k : string) : bool :=
  match d with
  | [] => false
  | (k', _) :: d' => if String.eqb k' k then true else has_key d' k
  end.

Fixpoint lookup (d : dict) (k : string) : option json :=
  match d with
  | [] => None
  | (k', v) :: d' => if String.eqb k' k then Some v else lookup d' k
  end.

(** [d.get(k, dflt)] and [d.get(k)] *)
Definition get_default (d : dict) (k : string) (dflt : json) : json :=
  match lookup d k with Some v => v | None => dflt end.

Definition get (d : dict) (k : string) : json := get_default d k JNull.

(** [d[k] = v]: an existing key keeps its place, a new key goes last. *)
Fixpoint set (d : dict) (k : string) (v : json) : dict :=
  match d with
  | [] => [(k, v)]
  | (k', v') :: d' =>
      if String.eqb k' k then (k', v) :: d' else (k', v') :: set d' k v
  end.

(** [x in xs] for a list of strings. *)
Fixpoint mem (x : string) (xs : list string) : bool :=
  match xs with
  | [] => false
  | y :: ys => if String.eqb x y then true else mem x ys
  end.

End Py.

(** ** [src/config.py] *)

Module Settings.

Definition blocked_sql_keywords : list string :=
  [ "DROP"; "DELETE"; "TRUNCATE"; "UPDATE"; "INSERT";
    "ALTER"; "CREATE"; "GRANT"; "REVOKE"; "EXEC";
    "EXECUTE"; "MERGE"; "CALL" ].

(** The default of [max_query_rows]; the environment may override it. *)
Definition default_max_query_rows : Z := 1000.

End Settings.

(** ** [src/utils/helpers.py]: the safety validators *)

Record verdict : Type := Verdict { safe : bool; reason : option string }.

Module Helpers.

(** The loop over [blocked_keywords]: the first keyword whose upper-cased
    text occurs in the upper-cased statement. *)
Fixpoint first_blocked (sql_upper : string) (blocked_keywords : list string)
  : option string :=
  match blocked_keywords with
  | [] => None
  | keyword :: rest =>
      if PyStr.contains (PyStr.upper keyword) sql_upper then Some keyword
      else first_blocked sql_upper rest
  end.

(** [validate_sql_safety] on ASCII text. *)
Definition validate_sql_safety (sql : string) (blocked_keywords : list string)
  : verdict :=
  let sql_upper := PyStr.upper sql in
  match first_blocked sql_upper blocked_keywords with
  | Some keyword =>
      Verdict false (Some ("Query contains blocked keyword: " +:+ keyword))
  | None =>
      if Nat.ltb 1 (PyStr.count PyStr.semicolon sql)
      then Verdict false (Some "Multiple SQL statements not allowed")
      else Verdict true None
  end.

(** The same function with [str.upper] as a parameter: what the validator
    does on any text, once [upper] is the interpreter's mapping.
    [validate_sql_safety] above is this one on ASCII text. *)
Fixpoint first_blocked_with (upper : string -> string) (sql_upper : string)
         (blocked_keywords : list string) : option string :=
  match blocked_keywords with
  | [] => None
  | keyword :: rest =>
      if PyStr.contains (upper keyword) sql_upper then Some keyword
      else first_blocked_with upper sql_upper rest
  end.

Definition validate_sql_safety_with (upper : string -> string) (sql : string)
           (blocked_keywords : list string) : verdict :=
  let sql_upper := upper sql in
  match first_blocked_with upper sql_upper blocked_keywords with
  | Some keyword =>
      Verdict false (Some ("Query contains blocked keyword: " +:+ keyword))
  | None =>
      if Nat.ltb 1 (PyStr.count PyStr.semicolon sql)
      then Verdict false (Some "Multiple SQL statements not allowed")
      else Verdict true None
  end.

Definition dangerous_operators : list string := ["$where"; "$function"].

(** Truthiness of an [Optional[str]]. *)
Definition some_text (r : option string) : bool :=
  match r with Some s => PyStr.nonempty s | None => false end.

(** The inner [check_dict] of [validate_mongo_safety], with the operator
    list as a parameter.  [d.items()] raises on anything but a dict. *)
Fixpoint check_dict (ops : list string) (d : json) : outcome (option string) :=
  match d with
  | JDict items =>
      (fix loop (l : dict) : outcome (option string) :=
         match l with
         | [] => Ok None
         | (key, value) :: l' =>
             if Py.mem key ops
             then Ok (Some ("Query contains dangerous operator: " +:+ key))
             else
               match value with
               | JDict _ =>
                   match check_dict ops value with
                   | Raise e => Raise e
                   | Ok result => if some_text result then Ok result else loop l'
                   end
               | JList xs =>
                   (fix each (ys : list json) : outcome (option string) :=
                      match ys with
                      | [] => loop l'
                      | item :: ys' =>
                          match item with
                          | JDict _ =>
                              match check_dict ops item with
                              | Raise e => Raise e
                              | Ok result =>
                                  if some_text result then Ok result else each ys'
                              end
                          | _ => each ys'
                          end
                      end) xs
               | _ => loop l'
               end
         end) items
  | _ => Raise (Py.no_attribute d "items")
  end.

Definition validate_mongo_safety (query : json) : outcome verdict :=
  match check_dict dangerous_operators query with
  | Raise e => Raise e
  | Ok reason =>
      if some_text reason then Ok (Verdict false reason)
      else Ok (Verdict true None)
  end.

(** [check_dict] under the interpreter's recursion limit.  [room] is the
    number of nested calls of [check_dict] the stack still takes: a call
    made with no room left raises [RecursionError], and every call leaves
    one less to the calls it makes.  [check_dict] above is this function
    with room to spare. *)
Fixpoint check_dict_within (room : nat) (ops : list string) (d : json) {struct d}
  : outcome (option string) :=
  match room with
  | O => Raise Py.recursion_error
  | S room' =>
      match d with
      | JDict items =>
          (fix loop (l : dict) : outcome (option string) :=
             match l with
             | [] => Ok None
             | (key, value) :: l' =>
                 if Py.mem key ops
                 then Ok (Some ("Query contains dangerous operator: " +:+ key))
                 else
                   match value with
                   | JDict _ =>
                       match check_dict_within room' ops value with
                       | Raise e => Raise e
                       | Ok result => if some_text result then Ok result else loop l'
                       end
                   | JList xs =>
                       (fix each (ys : list json) : outcome (option string) :=
                          match ys with
                          | [] => loop l'
                          | item :: ys' =>
                              match item with
                              | JDict _ =>
                                  match check_dict_within room' ops item with
                                  | Raise e => Raise e
                                  | Ok result =>
                                      if some_text result then Ok result else each ys'
                                  end
                              | _ => each ys'
                              end
                          end) xs
                   | _ => loop l'
                   end
             end) items
      | _ => Raise (Py.no_attribute d "items")
      end
  end.


End Helpers.

(** ** [src/agent/database_agent.py]: the keyword router *)

(** A confidence is a decimal constant of the source; it is kept as the
    exact fraction the literal denotes. *)
Record routing : Type := Routing { database : string; confidence : QArith_base.Q }.

Module Router.

Definition mongo_keywords : list string :=
  [ "event"; "events"; "log"; "logs"; "session"; "sessions";
    "click"; "clicks"; "page view"; "pageview"; "tracking";
    "analytics"; "user activity"; "behavior"; "metric"; "metrics" ].

Definition postgres_keywords : list string :=
  [ "customer"; "customers"; "order"; "orders"; "product"; "products";
    "sale"; "sales"; "revenue"; "purchase"; "purchases"; "buyer";
    "inventory"; "price"; "quantity"; "item"; "items"; "spent";
    "top-selling"; "best selling"; "order_items" ].

(** [sum(1 for kw in keywords if kw in query_lower)] *)
Fixpoint score (keywords : list string) (query_lower : string) : nat :=
  match keywords with
  | [] => 0%nat
  | kw :: rest =>
      ((if PyStr.contains kw query_lower then 1 else 0) + score rest query_lower)%nat
  end.

(** [_fast_route] with [str.lower] as a parameter: the router on any
    question, once [lower] is the interpreter's mapping. *)
Definition _fast_route_with (lower : string -> string)
           (available_databases : list string) (user_query : string) : routing :=
  let query_lower := lower user_query in
  let mongo_score := score mongo_keywords query_lower in
  let postgres_score := score postgres_keywords query_lower in
  let has_postgres := Py.mem "postgresql" available_databases in
  let has_mongo := Py.mem "mongodb" available_databases in
  if (Nat.ltb postgres_score mongo_score && has_mongo)%bool
  then Routing "mongodb" (QArith_base.Qmake 8 10)
  else if (Nat.ltb 0 postgres_score && has_postgres)%bool
  then Routing "postgresql" (QArith_base.Qmake 8 10)
  else if has_postgres
  then Routing "postgresql" (QArith_base.Qmake 6 10)
  else if has_mongo
  then Routing "mongodb" (QArith_base.Qmake 6 10)
  else Routing "postgresql" (QArith_base.Qmake 5 10).

(** [_fast_route] on an ASCII question. *)
Definition _fast_route (available_databases : list string) (user_query : string)
  : routing :=
  let query_lower := PyStr.lower user_query in
  let mongo_score := score mongo_keywords query_lower in
  let postgres_score := score postgres_keywords query_lower in
  let has_postgres := Py.mem "postgresql" available_databases in
  let has_mongo := Py.mem "mongodb" available_databases in
  if (Nat.ltb postgres_score mongo_score && has_mongo)%bool
  then Routing "mongodb" (QArith_base.Qmake 8 10)
  else if (Nat.ltb 0 postgres_score && has_postgres)%bool
  then Routing "postgresql" (QArith_base.Qmake 8 10)
  else if has_postgres
  then Routing "postgresql" (QArith_base.Qmake 6 10)
  else if has_mongo
  then Routing "mongodb" (QArith_base.Qmake 6 10)
  else Routing "postgresql" (QArith_base.Qmake 5 10).

End Router.

(** ** The environment: settings and external collaborators *)

Record message : Type := Message { role : string; content : string }.

(** The variable parts of a generation prompt; the fixed instruction text
    of the template is the same for every call of one generator. *)
Record prompt : Type := Prompt {
  p_schema : string;
  p_max_rows : Z;
  p_history_context : string;
  p_question : string
}.

Record env : Type := Env {
  (** [settings.blocked_sql_keywords], [settings.max_query_rows] *)
  blocked_sql_keywords : list string;
  max_query_rows : Z;
  (** [self.available_databases], fixed when the agent is constructed *)
  available_databases : list string;
  (** whether [self.mcp.postgres] / [self.mcp.mongodb] is a client or [None] *)
  postgres_client : bool;
  mongodb_client : bool;
  (** [client.get_context()]: the schema text, or the exception of the store *)
  postgres_context : outcome string;
  mongodb_context : outcome string;
  (** [self.client.messages.create(...)] followed by [.content[0].text] *)
  llm_sql : prompt -> outcome string;
  llm_mongo : prompt -> outcome string;
  (** [json.loads] *)
  json_loads : string -> outcome json;
  (** the database drivers behind the connectors *)
  pg_driver : string -> outcome (list json);
  mongo_find_driver : json -> json -> json -> json -> json -> outcome (list json);
  mongo_aggregate_driver : json -> list json -> outcome (list json);
  (** [self.db[collection_name]] in the document connector: the collection
      handle, or the exception raised on the way to it (no client, a name
      the driver refuses) *)
  mongo_collection : json -> outcome unit;
  (** [pd.DataFrame(rows)] *)
  make_dataframe : list json -> outcome unit;
  (** [LangfuseClient.is_enabled] and the tracing SDK: the exception its
      n-th call raises, if any *)
  langfuse_enabled : bool;
  sdk_fault : nat -> option exn;
  (** [str(v)] inside an f-string, for a value that is not a [str] *)
  py_repr : json -> string
}.

(** ** Program state *)

Definition loc := positive.

(** An argument that is an object held by a dict of the store, or an object
    nothing else refers to. *)
Inductive arg_ref : Type :=
| FieldRef (g : loc) (key : string)
| Fresh (v : json).

(** What [mcp.execute_tool] was asked to do. *)
Inductive tool_call : Type :=
| PostgresQuery (sql : json)
| MongoFind (collection filter projection sort limit : json)
| MongoAggregate (collection : json) (pipeline : arg_ref) (limit : json).

(** What reached a database driver. *)
Inductive db_call : Type :=
| DbQuery (sql : string)
| DbFind (collection filter projection sort limit : json)
| DbAggregate (collection : json) (pipeline : list json).

(** The dict [result] that [process_query] builds and returns.
    [generated_query] refers to the generator's dict in the store. *)
Record query_result : Type := QueryResult {
  success : bool;
  query : string;
  qr_database : option string;
  generated_query : option loc;
  data : list json;
  dataframe : bool;
  explanation : json;
  row_count : option nat;
  error : json
}.

Record state : Type := State {
  (** [self.conversation_history] *)
  conversation_history : list message;
  (** decoded response objects, by reference *)
  objects : gmap loc json;
  (** the local [result] of the running [process_query] *)
  result : query_result;
  (** every [mcp.execute_tool] invocation, oldest first *)
  tool_calls : list tool_call;
  (** every statement, find and aggregation handed to a driver for
      execution, oldest first; the schema reads of [get_context] are not
      logged: their outcome is a field of the environment *)
  db_calls : list db_call;
  (** number of tracing-SDK calls made so far *)
  sdk_calls : nat
}.

Definition set_history (h : list message) (s : state) : state :=
  State h (objects s) (result s) (tool_calls s) (db_calls s) (sdk_calls s).
Definition set_objects (o : gmap loc json) (s : state) : state :=
  State (conversation_history s) o (result s) (tool_calls s) (db_calls s) (sdk_calls s).
Definition set_result (r : query_result) (s : state) : state :=
  State (conversation_history s) (objects s) r (tool_calls s) (db_calls s) (sdk_calls s).
Definition set_tool_calls (t : list tool_call) (s : state) : state :=
  State (conversation_history s) (objects s) (result s) t (db_calls s) (sdk_calls s).
Definition set_db_calls (d : list db_call) (s : state) : state :=
  State (conversation_history s) (objects s) (result s) (tool_calls s) d (sdk_calls s).
Definition set_sdk_calls (n : nat) (s : state) : state :=
  State (conversation_history s) (objects s) (result s) (tool_calls s) (db_calls s) n.

(** ** A state-and-exception monad

    A raised exception keeps the state reached so far, as in Python. *)

Definition M (A : Type) : Type := state -> outcome A * state.

Definition ret {A} (a : A) : M A := fun s => (Ok a, s).

Definition bind {A B} (m : M A) (k : A -> M B) : M B :=
  fun s => match m s with
           | (Ok a, s') => k a s'
           | (Raise e, s') => (Raise e, s')
           end.

Definition raise {A} (e : exn) : M A := fun s => (Raise e, s).

Definition lift {A} (o : outcome A) : M A := fun s => (o, s).

Definition gets {A} (f : state -> A) : M A := fun s => (Ok (f s), s).

Definition modify (f : state -> state) : M unit := fun s => (Ok tt, f s).

(** [try: m  except Exception as e: h e] *)
Definition try_except {A} (m : M A) (h : exn -> M A) : M A :=
  fun s => match m s with
           | (Ok a, s') => (Ok a, s')
           | (Raise e, s') => h e s'
           end.

(** [try: m  finally: f] *)
Definition try_finally {A} (m : M A) (f : M unit) : M A :=
  fun s => match m s with
           | (o, s') =>
               match f s' with
               | (Ok _, s'') => (o, s'')
               | (Raise e, s'') => (Raise e, s'')
               end
           end.

Declare Scope py_scope.
Delimit Scope py_scope with py.
Notation "x <- m ;; k" := (bind m (fun x => k))
  (at level 100, m at next level, right associativity) : py_scope.
Notation "m ;;; k" := (bind m (fun _ => k))
  (at level 100, right associativity) : py_scope.

Definition when (b : bool) (m : M unit) : M unit := if b then m else ret tt.

Local Open Scope py_scope.

(** ** [src/observability]: the tracing wrappers *)

Module Langfuse.
Section WithEnv.
Variable E : env.

(** A handle given out by the SDK. *)
Definition span := nat.

(** One call into the SDK: it is counted, and it may raise. *)
Definition sdk_call : M span :=
  fun s =>
    let n := sdk_calls s in
    match sdk_fault E n with
    | Some e => (Raise e, set_sdk_calls (S n) s)
    | None => (Ok n, set_sdk_calls (S n) s)
    end.

(** [LangfuseClient.start_span] *)
Definition start_span : M (option span) :=
  if negb (langfuse_enabled E) then ret None
  else try_except (sp <- sdk_call ;; ret (Some sp)) (fun _ => ret None).

(** [LangfuseClient.end_span(span, output)] *)
Definition end_span (sp : option span) (has_output : bool) : M unit :=
  match sp with
  | Some _ =>
      try_except
        (when has_output (sdk_call ;;; ret tt) ;;; sdk_call ;;; ret tt)
        (fun _ => ret tt)
  | None => ret tt
  end.

(** [LangfuseClient.start_generation] *)
Definition start_generation (parent_span : option span) : M (option span) :=
  match parent_span with
  | None => ret None
  | Some _ =>
      try_except (gen <- sdk_call ;; sdk_call ;;; ret (Some gen)) (fun _ => ret None)
  end.

(** [LangfuseClient.end_generation(generation, output, usage)]: the
    callers always pass an output or a usage, so [update_data] is not
    empty. *)
Definition end_generation (generation : option span) : M unit :=
  match generation with
  | Some _ => try_except (sdk_call ;;; sdk_call ;;; ret tt) (fun _ => ret tt)
  | None => ret tt
  end.

(** [LangfuseClient.flush] *)
Definition flush : M unit :=
  if langfuse_enabled E
  then try_except (sdk_call ;;; ret tt) (fun _ => ret tt)
  else ret tt.

End WithEnv.
End Langfuse.

Record tracer : Type := Tracer {
  root_span : option Langfuse.span;
  current_span : option Langfuse.span
}.

Module QueryTracer.
Section WithEnv.
Variable E : env.

(** [QueryTracer(...)] *)
Definition new : tracer := Tracer None None.

Definition start_trace (t : tracer) : M tracer :=
  if langfuse_enabled E
  then sp <- Langfuse.start_span E ;; ret (Tracer sp (current_span t))
  else ret t.

Definition start_span (t : tracer) : M tracer :=
  if (langfuse_enabled E && bool_decide (root_span t <> None))%bool
  then try_except
         (sp <- Langfuse.sdk_call E ;; ret (Tracer (root_span t) (Some sp)))
         (fun _ => ret t)
  else ret t.

(** [end_span(output)]; [has_output] is the truthiness of [output]. *)
Definition end_span (t : tracer) (has_output : bool) : M tracer :=
  match current_span t with
  | Some _ =>
      try_except
        (when has_output (Langfuse.sdk_call E ;;; ret tt) ;;;
         Langfuse.sdk_call E ;;; ret tt)
        (fun _ => ret tt) ;;;
      ret (Tracer (root_span t) None)
  | None => ret t
  end.

Definition log_generation (t : tracer) : M tracer :=
  if (langfuse_enabled E && bool_decide (root_span t <> None))%bool
  then gen <- Langfuse.start_generation E (root_span t) ;;
       Langfuse.end_generation E gen ;;;
       ret t
  else ret t.

Definition log_score (t : tracer) : M tracer :=
  match root_span t with
  | Some _ => try_except (Langfuse.sdk_call E ;;; ret tt) (fun _ => ret tt) ;;; ret t
  | None => ret t
  end.

(** [QueryTracer.end] *)
Definition finish (t : tracer) : M unit :=
  match root_span t with
  | Some _ => Langfuse.end_span E (root_span t) false
  | None => ret tt
  end ;;;
  Langfuse.flush E.

End WithEnv.
End QueryTracer.

(** ** Response clean-up and prompt context, shared by both generators *)

Module Generator.

(** The first lines of both [_parse_response]: strip, then drop the
    first and the last line of a fenced block and a leading [json]. *)
Definition clean_response (response : string) : string :=
  let response := PyStr.strip response in
  if PyStr.startswith "```" response then
    let lines := PyStr.split_nl response in
    let response := PyStr.join_nl (PyStr.slice_1_m1 lines) in
    if PyStr.startswith "json" response then PyStr.drop 4 response else response
  else response.

(** [s[:n]] *)
Fixpoint take (n : nat) (s : string) : string :=
  match n, s with
  | O, _ => EmptyString
  | S _, EmptyString => EmptyString
  | S n', String c s' => String c (take n' s')
  end.

(** [xs[-5:]] *)
Definition last5 {A} (xs : list A) : list A :=
  skipn (length xs - 5) xs.

Fixpoint history_lines (msgs : list message) : string :=
  match msgs with
  | [] => EmptyString
  | msg :: rest =>
      role msg +:+ ": " +:+ take 500 (content msg) +:+ String PyStr.nl (history_lines rest)
  end.

Definition history_context (conversation_history : list message) : string :=
  match conversation_history with
  | [] => EmptyString
  | _ => String PyStr.nl ("Previous conversation:" +:+
           String PyStr.nl (history_lines (last5 conversation_history)))
  end.

Definition reason_json (r : option string) : json :=
  match r with Some s => JStr s | None => JNull end.

End Generator.

(** ** [src/agent/sql_generator.py] *)

Module SQLGenerator.
Section WithEnv.
Variable E : env.

Definition _build_prompt (schema_context user_query : string)
           (conversation_history : list message) : prompt :=
  Prompt schema_context (max_query_rows E)
         (Generator.history_context conversation_history) user_query.

(** The first position at which [SELECT] matches without regard to case,
    in ASCII text: the rest of the text from there. *)
Fixpoint search_select (s : string) : option string :=
  if PyStr.startswith "SELECT" (PyStr.upper s) then Some s
  else match s with
       | EmptyString => None
       | String _ s' => search_select s'
       end.

(** The lazy [.*?(?:;|$)]: up to and including the first [;], or to the
    end of the text. *)
Fixpoint upto_semicolon (s : string) : string :=
  match s with
  | EmptyString => EmptyString
  | String c s' =>
      if Ascii.eqb c PyStr.semicolon then String c EmptyString
      else String c (upto_semicolon s')
  end.

(** [re.search(r'SELECT.*?(?:;|$)', response, IGNORECASE | DOTALL)]
    followed by [.group().strip()].  Where [$] matches before a final
    newline the match is one newline shorter, which [strip] removes as
    well. *)
Definition sql_match (response : string) : option string :=
  match search_select response with
  | Some rest => Some (PyStr.strip (upto_semicolon rest))
  | None => None
  end.

Definition parse_failure (e : exn) : dict :=
  [ ("success", JBool false);
    ("error", JStr ("Failed to parse response: " +:+ str_of_exn e));
    ("sql", JNull) ].

Definition _parse_response (response : string) : outcome dict :=
  let response := Generator.clean_response response in
  match json_loads E response with
  | Ok result =>
      match result with
      | JDict d =>
          if Py.truthy (Py.get d "sql") then
            match Py.get d "sql" with
            | JStr sql =>
                Ok (Py.set (Py.set d "sql" (JStr (PyStr.strip sql)))
                           "success" (JBool true))
            | v => Raise (Py.no_attribute v "strip")
            end
          else Ok (Py.set d "success" (JBool false))
      | v => Raise (Py.no_attribute v "get")
      end
  | Raise e =>
      match exn_cls e with
      | JSONDecodeError =>
          match sql_match response with
          | Some sql =>
              Ok [ ("success", JBool true);
                   ("sql", JStr sql);
                   ("explanation", JStr "Extracted from response");
                   ("tables_used", JList []) ]
          | None => Ok (parse_failure e)
          end
      | _ => Raise e
      end
  end.

Definition failure (err : json) : dict :=
  [ ("success", JBool false); ("error", err); ("sql", JNull) ].

(** The safety step of [generate]. *)
Definition check_safety (result : dict) : outcome dict :=
  if (Py.truthy (Py.get result "success") && Py.truthy (Py.get result "sql"))%bool
  then
    match Py.get result "sql" with
    | JStr sql =>
        let safety := Helpers.validate_sql_safety sql (blocked_sql_keywords E) in
        if negb (safe safety)
        then Ok (failure (Generator.reason_json (reason safety)))
        else Ok result
    | v => Raise (Py.no_attribute v "upper")
    end
  else Ok result.

Definition generate (schema_context user_query : string)
           (conversation_history : list message) : M dict :=
  tr <- QueryTracer.start_trace E QueryTracer.new ;;
  let prompt := _build_prompt schema_context user_query conversation_history in
  tr <- QueryTracer.start_span E tr ;;
  try_except
    (text <- lift (llm_sql E prompt) ;;
     result <- lift (_parse_response text) ;;
     tr <- QueryTracer.log_generation E tr ;;
     result <- lift (check_safety result) ;;
     tr <- QueryTracer.end_span E tr true ;;
     QueryTracer.finish E tr ;;;
     ret result)
    (fun e =>
       tr <- QueryTracer.end_span E tr true ;;
       QueryTracer.finish E tr ;;;
       ret (failure (JStr (str_of_exn e)))).

End WithEnv.
End SQLGenerator.

(** ** [src/agent/mongo_generator.py] *)

Module MongoQueryGenerator.
Section WithEnv.
Variable E : env.

Definition _build_prompt (schema_context user_query : string)
           (conversation_history : list message) : prompt :=
  Prompt schema_context (max_query_rows E)
         (Generator.history_context conversation_history) user_query.

Definition parse_failure (e : exn) : dict :=
  [ ("success", JBool false);
    ("error", JStr ("Failed to parse response: " +:+ str_of_exn e)) ].

Definition _parse_response (response : string) : outcome dict :=
  let response := Generator.clean_response response in
  match json_loads E response with
  | Ok result =>
      match result with
      | JDict d =>
          if Py.truthy (Py.get d "query_type")
          then Ok (Py.set d "success" (JBool true))
          else Ok (Py.set d "success" (JBool false))
      | v => Raise (Py.no_attribute v "get")
      end
  | Raise e =>
      match exn_cls e with
      | JSONDecodeError => Ok (parse_failure e)
      | _ => Raise e
      end
  end.

Definition failure (err : json) : dict :=
  [ ("success", JBool false); ("error", err) ].

(** The loop over the stages: the verdict of the first unsafe stage, the
    exception of the first stage that is not a mapping, or nothing. *)
Fixpoint first_unsafe (stages : list json) : outcome (option verdict) :=
  match stages with
  | [] => Ok None
  | stage :: rest =>
      match Helpers.validate_mongo_safety stage with
      | Raise e => Raise e
      | Ok safety => if negb (safe safety) then Ok (Some safety) else first_unsafe rest
      end
  end.

(** The safety step of [generate]. *)
Definition check_safety (result : dict) : outcome dict :=
  if Py.truthy (Py.get result "success") then
    let query_to_check :=
      Py.get_default result "filter" (Py.get_default result "pipeline" (JDict [])) in
    match query_to_check with
    | JList stages =>
        match first_unsafe stages with
        | Raise e => Raise e
        | Ok (Some safety) => Ok (failure (Generator.reason_json (reason safety)))
        | Ok None => Ok result
        end
    | _ =>
        match Helpers.validate_mongo_safety query_to_check with
        | Raise e => Raise e
        | Ok safety =>
            if negb (safe safety)
            then Ok (failure (Generator.reason_json (reason safety)))
            else Ok result
        end
    end
  else Ok result.

Definition generate (schema_context user_query : string)
           (conversation_history : list message) : M dict :=
  tr <- QueryTracer.start_trace E QueryTracer.new ;;
  let prompt := _build_prompt schema_context user_query conversation_history in
  tr <- QueryTracer.start_span E tr ;;
  try_except
    (text <- lift (llm_mongo E prompt) ;;
     result <- lift (_parse_response text) ;;
     tr <- QueryTracer.log_generation E tr ;;
     result <- lift (check_safety result) ;;
     tr <- QueryTracer.end_span E tr true ;;
     QueryTracer.finish E tr ;;;
     ret result)
    (fun e =>
       tr <- QueryTracer.end_span E tr true ;;
       QueryTracer.finish E tr ;;;
       ret (failure (JStr (str_of_exn e)))).

End WithEnv.
End MongoQueryGenerator.

(** ** The object store *)

Module Store.

(** A new object gets a reference no live object has. *)
Definition alloc (v : json) : M loc :=
  fun s =>
    let g := fresh (dom (objects s)) in
    (Ok g, set_objects (<[g := v]> (objects s)) s).

Definition dangling : exn := Exn OtherException "dangling reference".

(** The dict a reference points to. *)
Definition deref_dict (g : loc) : M dict :=
  fun s =>
    match objects s !! g with
    | Some (JDict d) => (Ok d, s)
    | _ => (Raise dangling, s)
    end.

(** The object an argument refers to. *)
Definition deref (r : arg_ref) : M json :=
  match r with
  | Fresh v => ret v
  | FieldRef g key =>
      d <- deref_dict g ;;
      match Py.lookup d key with
      | Some v => ret v
      | None => raise dangling
      end
  end.

(** [r.append(x)]: the list object itself changes, so every holder of a
    reference to it sees the new element. *)
Definition append (r : arg_ref) (x : json) : M arg_ref :=
  match r with
  | Fresh (JList xs) => ret (Fresh (JList (xs ++ [x])))
  | Fresh v => raise (Py.no_attribute v "append")
  | FieldRef g key =>
      d <- deref_dict g ;;
      match Py.lookup d key with
      | Some (JList xs) =>
          modify (fun s =>
            set_objects (<[g := JDict (Py.set d key (JList (xs ++ [x])))]> (objects s)) s) ;;;
          ret r
      | Some v => raise (Py.no_attribute v "append")
      | None => raise dangling
      end
  end.

End Store.

(** ** Execution results *)

(** The dicts the connectors and handlers return: [success] is always
    there, the other keys may be missing. *)
Record exec_result : Type := ExecResult {
  x_success : bool;
  x_error : option string;
  x_data : option (list json);
  x_row_count : option nat
}.

Definition exec_error (msg : string) : exec_result :=
  ExecResult false (Some msg) None None.

(** The [except] branch of the connectors. *)
Definition connector_failure (e : exn) : exec_result :=
  ExecResult false (Some (str_of_exn e)) (Some []) (Some 0%nat).

Definition connector_success (rows : list json) : exec_result :=
  ExecResult true None (Some rows) (Some (length rows)).

(** [v or dflt] *)
Definition py_or (v dflt : json) : json := if Py.truthy v then v else dflt.

(** ** [src/database]: the connectors *)

Module Connector.
Section WithEnv.
Variable E : env.

Definition log_db (c : db_call) : M unit :=
  modify (fun s => set_db_calls (db_calls s ++ [c]) s).

(** [pd.DataFrame(data) if data else pd.DataFrame()] *)
Definition frame_of (rows : list json) : M unit :=
  match rows with
  | [] => ret tt
  | _ => lift (make_dataframe E rows)
  end.

(** [PostgresConnector.execute_query] *)
Definition execute_query (sql : string) : M exec_result :=
  try_except
    (log_db (DbQuery sql) ;;;
     rows <- lift (pg_driver E sql) ;;
     frame_of rows ;;;
     ret (connector_success rows))
    (fun e => ret (connector_failure e)).

(** [MongoDBConnector.execute_find].  Between the lookup of the collection
    handle and [find] the connector does nothing but choose defaults, so
    [self.db[collection_name].find(...).sort(...).limit(...)] and the loop
    over the cursor are one driver step: [mongo_find_driver] answers the
    rows, or the exception of any part of it. *)
Definition execute_find (collection_name filter_query projection sort limit : json)
  : M exec_result :=
  try_except
    (let filter_query := py_or filter_query (JDict []) in
     let limit := py_or limit (JInt (max_query_rows E)) in
     log_db (DbFind collection_name filter_query projection sort limit) ;;;
     rows <- lift (mongo_find_driver E collection_name filter_query projection sort limit) ;;
     frame_of rows ;;;
     ret (connector_success rows))
    (fun e => ret (connector_failure e)).

(** ['$limit' in stage] *)
Definition limit_in (stage : json) : outcome bool :=
  match stage with
  | JDict d => Ok (Py.has_key d "$limit")
  | JStr s => Ok (PyStr.contains "$limit" s)
  | JList xs =>
      Ok (existsb (fun x => match x with
                            | JStr s => String.eqb s "$limit"
                            | _ => false
                            end) xs)
  | v => Raise (Exn TypeError
                    ("argument of type '" +:+ Py.type_name v +:+ "' is not iterable"))
  end.

(** [any('$limit' in stage for stage in pipeline)] *)
Fixpoint has_limit (pipeline : list json) : outcome bool :=
  match pipeline with
  | [] => Ok false
  | stage :: rest =>
      match limit_in stage with
      | Raise e => Raise e
      | Ok true => Ok true
      | Ok false => has_limit rest
      end
  end.

Definition limit_stage (limit : json) : json := JDict [("$limit", limit)].

(** [MongoDBConnector.execute_aggregate].  The collection handle is
    looked up first, inside the [try]: when that raises, nothing is
    appended and the driver is not called.  The handler has walked the
    pipeline as a list before this is called; any other value fails
    inside the [try]. *)
Definition execute_aggregate (collection_name : json) (pipeline : arg_ref)
           (limit : json) : M exec_result :=
  try_except
    (lift (mongo_collection E collection_name) ;;;
     let limit := py_or limit (JInt (max_query_rows E)) in
     v <- Store.deref pipeline ;;
     match v with
     | JList stages =>
         present <- lift (has_limit stages) ;;
         pipeline <- (if negb present
                      then Store.append pipeline (limit_stage limit)
                      else ret pipeline) ;;
         v <- Store.deref pipeline ;;
         match v with
         | JList stages =>
             log_db (DbAggregate collection_name stages) ;;;
             rows <- lift (mongo_aggregate_driver E collection_name stages) ;;
             frame_of rows ;;;
             ret (connector_success rows)
         | _ => raise (Exn TypeError "pipeline must be a list")
         end
     | _ => raise (Exn TypeError "pipeline must be a list")
     end)
    (fun e => ret (connector_failure e)).

End WithEnv.
End Connector.

(** ** [src/mcp]: tool dispatch with its own safety checks *)

Module PostgresMCPClient.
Section WithEnv.
Variable E : env.

(** [_is_safe_query(sql)]; [sql.upper()] needs a [str]. *)
Definition _is_safe_query (sql : json) : outcome bool :=
  match sql with
  | JStr s =>
      match Helpers.first_blocked (PyStr.upper s) (blocked_sql_keywords E) with
      | Some _ => Ok false
      | None => Ok (negb (Nat.ltb 1 (PyStr.count PyStr.semicolon s)))
      end
  | v => Raise (Py.no_attribute v "upper")
  end.

Definition _handle_query (sql : json) : M exec_result :=
  if negb (Py.truthy sql) then ret (exec_error "No SQL query provided")
  else
    ok <- lift (_is_safe_query sql) ;;
    if negb ok then ret (exec_error "Query contains blocked keywords or operations")
    else match sql with
         | JStr s => Connector.execute_query E s
         | v => raise (Py.no_attribute v "upper")
         end.

End WithEnv.
End PostgresMCPClient.

Module MongoDBMCPClient.
Section WithEnv.
Variable E : env.

Definition dangerous_operators : list string :=
  ["$where"; "$function"; "$accumulator"].

(** The inner [check_dict] of [_is_safe_query]. *)
Fixpoint check_dict (d : json) : outcome bool :=
  match d with
  | JDict items =>
      (fix loop (l : dict) : outcome bool :=
         match l with
         | [] => Ok true
         | (key, value) :: l' =>
             if Py.mem key dangerous_operators then Ok false
             else
               match value with
               | JDict _ =>
                   match check_dict value with
                   | Raise e => Raise e
                   | Ok ok => if negb ok then Ok false else loop l'
                   end
               | JList xs =>
                   (fix each (ys : list json) : outcome bool :=
                      match ys with
                      | [] => loop l'
                      | item :: ys' =>
                          match item with
                          | JDict _ =>
                              match check_dict item with
                              | Raise e => Raise e
                              | Ok ok => if negb ok then Ok false else each ys'
                              end
                          | _ => each ys'
                          end
                      end) xs
               | _ => loop l'
               end
         end) items
  | _ => Raise (Py.no_attribute d "items")
  end.

Definition _is_safe_query (query : json) : outcome bool := check_dict query.

(** The same walk under the interpreter's recursion limit, [room] being
    the number of nested calls the stack still takes. *)
Fixpoint check_dict_within (room : nat) (d : json) {struct d} : outcome bool :=
  match room with
  | O => Raise Py.recursion_error
  | S room' =>
      match d with
      | JDict items =>
          (fix loop (l : dict) : outcome bool :=
             match l with
             | [] => Ok true
             | (key, value) :: l' =>
                 if Py.mem key dangerous_operators then Ok false
                 else
                   match value with
                   | JDict _ =>
                       match check_dict_within room' value with
                       | Raise e => Raise e
                       | Ok ok => if negb ok then Ok false else loop l'
                       end
                   | JList xs =>
                       (fix each (ys : list json) : outcome bool :=
                          match ys with
                          | [] => loop l'
                          | item :: ys' =>
                              match item with
                              | JDict _ =>
                                  match check_dict_within room' item with
                                  | Raise e => Raise e
                                  | Ok ok => if negb ok then Ok false else each ys'
                                  end
                              | _ => each ys'
                              end
                          end) xs
                   | _ => loop l'
                   end
             end) items
      | _ => Raise (Py.no_attribute d "items")
      end
  end.


Definition _handle_find (collection filter_query projection sort limit : json)
  : M exec_result :=
  if negb (Py.truthy collection) then ret (exec_error "No collection specified")
  else
    ok <- lift (_is_safe_query filter_query) ;;
    if negb ok then ret (exec_error "Query contains unsafe operators")
    else Connector.execute_find E collection filter_query projection sort limit.

(** [for stage in pipeline: if not self._is_safe_query(stage): ...] *)
Fixpoint stages_safe (stages : list json) : outcome bool :=
  match stages with
  | [] => Ok true
  | stage :: rest =>
      match _is_safe_query stage with
      | Raise e => Raise e
      | Ok ok => if negb ok then Ok false else stages_safe rest
      end
  end.

(** The values the [for] loop draws from [pipeline], which is truthy
    here: the elements of a list, the keys of a dict, the characters of
    a str; anything else is not iterable. *)
Definition iterate (pipeline : json) : outcome (list json) :=
  match pipeline with
  | JList stages => Ok stages
  | JDict d => Ok (map (fun kv => JStr (fst kv)) d)
  | JStr s => Ok (map (fun c => JStr (String c EmptyString)) (list_ascii_of_string s))
  | v => Raise (Exn TypeError ("'" +:+ Py.type_name v +:+ "' object is not iterable"))
  end.

Definition _handle_aggregate (collection : json) (pipeline : arg_ref) (limit : json)
  : M exec_result :=
  v <- Store.deref pipeline ;;
  if negb (Py.truthy collection) then ret (exec_error "No collection specified")
  else if negb (Py.truthy v) then ret (exec_error "No pipeline specified")
  else
    stages <- lift (iterate v) ;;
    ok <- lift (stages_safe stages) ;;
    if negb ok then ret (exec_error "Pipeline contains unsafe operators")
    else Connector.execute_aggregate E collection pipeline limit.

End WithEnv.
End MongoDBMCPClient.

Module MCPManager.
Section WithEnv.
Variable E : env.

(** [execute_tool(tool_name, arguments)]: the call is recorded, then
    routed by the prefix of the tool name to the client of that store. *)
Definition execute_tool (call : tool_call) : M exec_result :=
  modify (fun s => set_tool_calls (tool_calls s ++ [call]) s) ;;;
  match call with
  | PostgresQuery sql =>
      if negb (postgres_client E) then ret (exec_error "PostgreSQL not configured")
      else PostgresMCPClient._handle_query E sql
  | MongoFind collection filter_query projection sort limit =>
      if negb (mongodb_client E) then ret (exec_error "MongoDB not configured")
      else MongoDBMCPClient._handle_find E collection filter_query projection sort limit
  | MongoAggregate collection pipeline limit =>
      if negb (mongodb_client E) then ret (exec_error "MongoDB not configured")
      else MongoDBMCPClient._handle_aggregate E collection pipeline limit
  end.

End WithEnv.
End MCPManager.

(** ** [src/agent/database_agent.py]: the orchestrator *)

Module DatabaseAgent.
Section WithEnv.
Variable E : env.

(** The property [sql_generator]: the generator (its schema text) once
    the store client exists, else [None].  The schema text of one
    environment is fixed, so a cached generator is the same generator. *)
Definition sql_generator : M (option string) :=
  if postgres_client E
  then schema <- lift (postgres_context E) ;; ret (Some schema)
  else ret None.

Definition mongo_generator : M (option string) :=
  if mongodb_client E
  then schema <- lift (mongodb_context E) ;; ret (Some schema)
  else ret None.

Definition _fast_route (user_query : string) : routing :=
  Router._fast_route (available_databases E) user_query.

Definition _generate_postgres_query (user_query : string) : M dict :=
  generator <- sql_generator ;;
  match generator with
  | None => ret [ ("success", JBool false); ("error", JStr "PostgreSQL not available") ]
  | Some schema =>
      history <- gets conversation_history ;;
      SQLGenerator.generate E schema user_query history
  end.

Definition _generate_mongodb_query (user_query : string) : M dict :=
  generator <- mongo_generator ;;
  match generator with
  | None => ret [ ("success", JBool false); ("error", JStr "MongoDB not available") ]
  | Some schema =>
      history <- gets conversation_history ;;
      MongoQueryGenerator.generate E schema user_query history
  end.

(** [str(v)] inside an f-string. *)
Definition fstr (v : json) : string :=
  match v with
  | JStr s => s
  | _ => py_repr E v
  end.

Definition json_is_str (v : json) (s : string) : bool :=
  match v with
  | JStr s' => String.eqb s' s
  | _ => false
  end.

(** [_execute_query(database, gen_result)]; [gen_result] is the
    generator's dict, passed by reference. *)
Definition _execute_query (database : string) (gen_result : loc) : M exec_result :=
  d <- Store.deref_dict gen_result ;;
  if String.eqb database "postgresql" then
    let sql := Py.get d "sql" in
    if negb (Py.truthy sql) then ret (exec_error "No SQL query generated")
    else MCPManager.execute_tool E (PostgresQuery sql)
  else if String.eqb database "mongodb" then
    let query_type := Py.get d "query_type" in
    let collection := Py.get d "collection" in
    if negb (Py.truthy collection) then ret (exec_error "No collection specified")
    else if json_is_str query_type "find" then
      MCPManager.execute_tool E
        (MongoFind collection
                   (Py.get_default d "filter" (JDict []))
                   (Py.get d "projection")
                   (Py.get d "sort")
                   (Py.get_default d "limit" (JInt (max_query_rows E))))
    else if json_is_str query_type "aggregate" then
      MCPManager.execute_tool E
        (MongoAggregate collection
                        (if Py.has_key d "pipeline"
                         then FieldRef gen_result "pipeline"
                         else Fresh (JList []))
                        (Py.get_default d "limit" (JInt (max_query_rows E))))
    else ret (exec_error ("Unknown query type: " +:+ fstr query_type))
  else ret (exec_error ("Unknown database: " +:+ database)).

Definition initial_result (user_query : string) : query_result :=
  QueryResult false user_query None None [] false JNull None JNull.

Definition update_result (f : query_result -> query_result) : M unit :=
  modify (fun s => set_result (f (result s)) s).

Definition with_database (db : string) (r : query_result) : query_result :=
  QueryResult (success r) (query r) (Some db) (generated_query r) (data r)
              (dataframe r) (explanation r) (row_count r) (error r).
Definition with_error (err : json) (r : query_result) : query_result :=
  QueryResult (success r) (query r) (qr_database r) (generated_query r) (data r)
              (dataframe r) (explanation r) (row_count r) err.
Definition with_generated (g : loc) (expl : json) (r : query_result) : query_result :=
  QueryResult (success r) (query r) (qr_database r) (Some g) (data r)
              (dataframe r) expl (row_count r) (error r).
Definition with_rows (rows : list json) (n : nat) (r : query_result) : query_result :=
  QueryResult true (query r) (qr_database r) (generated_query r) rows
              (dataframe r) (explanation r) (Some n) (error r).
Definition with_dataframe (r : query_result) : query_result :=
  QueryResult (success r) (query r) (qr_database r) (generated_query r) (data r)
              true (explanation r) (row_count r) (error r).

(** [self.conversation_history.append(msg)] *)
Definition history_append (msg : message) : M unit :=
  modify (fun s => set_history (conversation_history s ++ [msg]) s).

Definition from_option {A} (o : option A) (dflt : A) : A :=
  match o with Some a => a | None => dflt end.

(** The body of the [try] block of [process_query].  A [return result]
    inside it is the end of the block: the [finally] clause and the
    closing [return result] follow either way. *)
Definition process_query_try (tr : tracer) (user_query : string) : M unit :=
  (* Step 1: routing *)
  tr <- QueryTracer.start_span E tr ;;
  let routing := _fast_route user_query in
  update_result (with_database (database routing)) ;;;
  tr <- QueryTracer.end_span E tr true ;;
  (* Step 3: generation *)
  tr <- QueryTracer.start_span E tr ;;
  gen <- (if String.eqb (database routing) "postgresql"
          then _generate_postgres_query user_query
          else _generate_mongodb_query user_query) ;;
  gen_result <- Store.alloc (JDict gen) ;;
  tr <- QueryTracer.end_span E tr true ;;
  if negb (Py.truthy (Py.get gen "success")) then
    update_result (with_error (Py.get_default gen "error" (JStr "Failed to generate query"))) ;;;
    tr <- QueryTracer.log_score E tr ;;
    QueryTracer.finish E tr
  else
    update_result (with_generated gen_result (Py.get_default gen "explanation" (JStr ""))) ;;;
    (* Step 4: execution *)
    tr <- QueryTracer.start_span E tr ;;
    exec_result <- _execute_query (database routing) gen_result ;;
    tr <- QueryTracer.end_span E tr true ;;
    if negb (x_success exec_result) then
      update_result
        (with_error (JStr (from_option (x_error exec_result) "Query execution failed"))) ;;;
      tr <- QueryTracer.log_score E tr ;;
      QueryTracer.finish E tr
    else
      let rows := from_option (x_data exec_result) [] in
      let n := from_option (x_row_count exec_result) 0%nat in
      update_result (with_rows rows n) ;;;
      match rows with
      | [] => ret tt
      | _ => lift (make_dataframe E rows) ;;; update_result with_dataframe
      end ;;;
      (* conversation history *)
      history_append (Message "user" user_query) ;;;
      history_append (Message "assistant" ("Returned " +:+ PyStr.of_nat n +:+ " rows")) ;;;
      tr <- QueryTracer.log_score E tr ;;
      ret tt.

(** The [except Exception as e] clause. *)
Definition process_query_except (tr : tracer) (e : exn) : M unit :=
  update_result (with_error (JStr (str_of_exn e))) ;;;
  tr <- QueryTracer.log_score E tr ;;
  ret tt.

Definition process_query (user_query : string) : M query_result :=
  tr <- QueryTracer.start_trace E QueryTracer.new ;;
  modify (set_result (initial_result user_query)) ;;;
  try_finally
    (try_except (process_query_try tr user_query) (process_query_except tr))
    (QueryTracer.finish E tr) ;;;
  gets result.

Definition clear_history : M unit := modify (set_history []).

End WithEnv.
End DatabaseAgent.

(** ** The validators' rules in the words of the specification *)

Module Spec.

(** [kw] occurs in [text] without regard to case: some stretch of the
    text and the keyword are the same once both are case-folded. *)
Definition occurs_ignoring_case (kw text : string) : Prop :=
  exists pre t post, text = pre +:+ t +:+ post /\ PyStr.lower t = PyStr.lower kw.

(** The text holds two or more statement terminators. *)
Definition many_terminators (text : string) : Prop :=
  exists a b c, text = a +:+ ";" +:+ b +:+ ";" +:+ c.

(** A fenced code block: the opening fence with an optional language tag
    on a line of its own, the body, the closing fence on a line of its
    own. *)
Definition fenced (tag body : string) : string :=
  "```" +:+ tag +:+ String PyStr.nl (body +:+ String PyStr.nl "```").

(** [k] is a key of the mapping, of a mapping nested in it as a value, or
    of a mapping found inside a sequence that is a value, at any depth. *)
Inductive key_in (k : string) : json -> Prop :=
| key_here items v :
    In (k, v) items -> key_in k (JDict items)
| key_nested items k' d :
    In (k', JDict d) items -> key_in k (JDict d) -> key_in k (JDict items)
| key_in_sequence items k' xs d :
    In (k', JList xs) items -> In (JDict d) xs -> key_in k (JDict d) ->
    key_in k (JDict items).

Definition denied (ops : list string) (query : json) : Prop :=
  exists k, In k ops /\ key_in k query.


End Spec.

(** ** The loops of [check_dict], named

    [check_items] is [check_dict] on the items of a mapping and
    [check_each] the walk over a sequence met as a value; both are the
    source's loops, stated apart so that they can be rewritten with. *)

Module Walk.

Definition check_items (ops : list string) (l : dict) : outcome (option string) :=
  Helpers.check_dict ops (JDict l).

Fixpoint check_each (ops : list string) (ys : list json)
         (after : outcome (option string)) : outcome (option string) :=
  match ys with
  | [] => after
  | item :: ys' =>
      match item with
      | JDict _ =>
          match Helpers.check_dict ops item with
          | Raise e => Raise e
          | Ok result =>
              if Helpers.some_text result then Ok result else check_each ops ys' after
          end
      | _ => check_each ops ys' after
      end
  end.









End Walk.

(** ** Test doubles

    A language model that answers fixed questions with fixed texts, a
    decoder that knows those texts, drivers that return fixed rows and a
    tracing SDK whose every second call fails. *)

Module Scenario.

Definition dq : string := String (Ascii.ascii_of_nat 34) EmptyString.

(** [q s] is [s] between double quotes. *)
Definition q (s : string) : string := dq +:+ s +:+ dq.

Definition customers_sql : string :=
  "SELECT * FROM customers WHERE city = 'New York' LIMIT 100".

Definition customers_text : string :=
  "{" +:+ q "sql" +:+ ": " +:+ q customers_sql +:+ ", " +:+
  q "explanation" +:+ ": " +:+ q "..." +:+ ", " +:+
  q "tables_used" +:+ ": [" +:+ q "customers" +:+ "]}".

Definition customers_json : json :=
  JDict [ ("sql", JStr customers_sql);
          ("explanation", JStr "...");
          ("tables_used", JList [JStr "customers"]) ].

Definition delete_text : string :=
  "{" +:+ q "sql" +:+ ": " +:+ q "DELETE FROM orders" +:+ "}".

Definition delete_json : json := JDict [ ("sql", JStr "DELETE FROM orders") ].

Definition padded_text : string :=
  "{" +:+ q "sql" +:+ ": " +:+ q " SELECT 1" +:+ "}".

Definition padded_json : json := JDict [ ("sql", JStr " SELECT 1") ].

Definition tagged_text : string :=
  "{" +:+ q "query_type" +:+ ": " +:+ q "find" +:+ ", " +:+
  q "collection" +:+ ": " +:+ q "events" +:+ ", " +:+
  q "success" +:+ ": " +:+ q "yes" +:+ "}".

Definition tagged_json : json :=
  JDict [ ("query_type", JStr "find"); ("collection", JStr "events");
          ("success", JStr "yes") ].

Definition malformed_text : string := "Sorry, I cannot answer that.".

Definition find_text : string :=
  "{" +:+ q "query_type" +:+ ": " +:+ q "find" +:+ ", " +:+
  q "collection" +:+ ": " +:+ q "events" +:+ ", " +:+
  q "filter" +:+ ": {" +:+ q "status" +:+ ": " +:+ q "active" +:+ "}, " +:+
  q "limit" +:+ ": 100}".

Definition find_json : json :=
  JDict [ ("query_type", JStr "find"); ("collection", JStr "events");
          ("filter", JDict [("status", JStr "active")]); ("limit", JInt 100) ].

Definition match_stage : json := JDict [("$match", JDict [("type", JStr "click")])].
Definition group_stage : json :=
  JDict [("$group", JDict [("_id", JStr "$page"); ("n", JDict [("$sum", JInt 1)])])].

Definition aggregate_text : string :=
  "{" +:+ q "query_type" +:+ ": " +:+ q "aggregate" +:+ ", " +:+
  q "collection" +:+ ": " +:+ q "events" +:+ ", " +:+
  q "pipeline" +:+ ": [{" +:+ q "$match" +:+ ": {" +:+ q "type" +:+ ": " +:+ q "click" +:+
  "}}, {" +:+ q "$group" +:+ ": {" +:+ q "_id" +:+ ": " +:+ q "$page" +:+ ", " +:+
  q "n" +:+ ": {" +:+ q "$sum" +:+ ": 1}}}]}".

Definition aggregate_json : json :=
  JDict [ ("query_type", JStr "aggregate"); ("collection", JStr "events");
          ("pipeline", JList [match_stage; group_stage]) ].

Definition where_stage : json :=
  JDict [("$match", JDict [("$where", JStr "this.a > 1")])].

Definition bypass_text : string :=
  "{" +:+ q "query_type" +:+ ": " +:+ q "aggregate" +:+ ", " +:+
  q "collection" +:+ ": " +:+ q "events" +:+ ", " +:+
  q "filter" +:+ ": {}, " +:+
  q "pipeline" +:+ ": [{" +:+ q "$match" +:+ ": {" +:+ q "$where" +:+ ": " +:+
  q "this.a > 1" +:+ "}}]}".



Definition bypass_json : json :=
  JDict [ ("query_type", JStr "aggregate"); ("collection", JStr "events");
          ("filter", JDict []); ("pipeline", JList [where_stage]) ].

(** What the decoder knows. *)
Definition decodes : list (string * json) :=
  [ (customers_text, customers_json);
    (delete_text, delete_json);
    (padded_text, padded_json);
    (tagged_text, tagged_json);
    (find_text, find_json);
    (aggregate_text, aggregate_json);
    (bypass_text, bypass_json) ].

Fixpoint assoc {A} (k : string) (l : list (string * A)) : option A :=
  match l with
  | [] => None
  | (k', v) :: l' => if String.eqb k' k then Some v else assoc k l'
  end.

Definition loads (text : string) : outcome json :=
  match assoc text decodes with
  | Some v => Ok v
  | None => Raise (Exn JSONDecodeError "Expecting value: line 1 column 1 (char 0)")
  end.

(** What the model answers, by question. *)
Definition answers : list (string * string) :=
  [ ("show me all customers from New York", customers_text);
    ("list customers, fenced", Spec.fenced "json" customers_text);
    ("remove every order", delete_text);
    ("customers, padded", padded_text);
    ("what do customers think", malformed_text);
    ("show me all events from today", find_text);
    ("clicks per page", aggregate_text);
    ("events with a condition", bypass_text) ].

Definition llm (p : prompt) : outcome string :=
  match assoc (p_question p) answers with
  | Some text => Ok text
  | None => Raise (Exn OtherException "Connection error.")
  end.

Definition row (n : Z) : json := JDict [("id", JInt n)].

Definition env (available : list string) : env :=
  Env Settings.blocked_sql_keywords Settings.default_max_query_rows
      available
      (Py.mem "postgresql" available) (Py.mem "mongodb" available)
      (Ok "Table: customers") (Ok "Collection: events")
      llm llm loads
      (fun _ => Ok [row 1; row 2; row 3])
      (fun _ _ _ _ _ => Ok [row 1; row 2])
      (fun _ _ => Ok [row 7])
      (fun _ => Ok tt)
      (fun _ => Ok tt)
      true
      (fun n => if Nat.even n then None else Some (Exn OtherException "trace server down"))
      Py.type_name.

Definition both : list string := ["postgresql"; "mongodb"].

Definition fresh_state : state :=
  State [] ∅ (DatabaseAgent.initial_result "") [] [] 0.

(** The agent's answer and the state it leaves, from a fresh agent. *)
Definition run (available : list string) (question : string) :=
  DatabaseAgent.process_query (env available) question fresh_state.

End Scenario.

(** ** What the generation step comes to

    The dict a generator hands back, and what the generation step of the
    orchestrator yields, as functions of the environment: the traced code
    above is shown to compute exactly these. *)

Module Answer.
Section WithEnv.
Variable E : env.

(** The parts of the two generation paths, by routed store: the
    relational one for ["postgresql"], the document one otherwise, as
    [process_query] chooses. *)
Definition relational (database : string) : bool := String.eqb database "postgresql".

Definition store_client (database : string) : bool :=
  if relational database then postgres_client E else mongodb_client E.

Definition store_context (database : string) : outcome string :=
  if relational database then postgres_context E else mongodb_context E.

Definition unavailable (database : string) : dict :=
  [ ("success", JBool false);
    ("error", JStr (if relational database
                    then "PostgreSQL not available"
                    else "MongoDB not available")) ].

Definition model_reply (database schema user_query : string) (history : list message)
  : outcome string :=
  if relational database
  then llm_sql E (SQLGenerator._build_prompt E schema user_query history)
  else llm_mongo E (MongoQueryGenerator._build_prompt E schema user_query history).

Definition parsed_reply (database text : string) : outcome dict :=
  if relational database
  then SQLGenerator._parse_response E text
  else MongoQueryGenerator._parse_response E text.

Definition safety_step (database : string) (parsed : dict) : outcome dict :=
  if relational database
  then SQLGenerator.check_safety E parsed
  else MongoQueryGenerator.check_safety parsed.

Definition generator_failure (database : string) (err : json) : dict :=
  if relational database then SQLGenerator.failure err else MongoQueryGenerator.failure err.

(** The [try] block of [generate]. *)
Definition attempt (database schema user_query : string) (history : list message)
  : outcome dict :=
  match model_reply database schema user_query history with
  | Raise e => Raise e
  | Ok text =>
      match parsed_reply database text with
      | Raise e => Raise e
      | Ok parsed => safety_step database parsed
      end
  end.

(** What [generate] returns. *)
Definition answer (database schema user_query : string) (history : list message)
  : dict :=
  match attempt database schema user_query history with
  | Ok result => result
  | Raise e => generator_failure database (JStr (str_of_exn e))
  end.

(** The generation step for a routed store. *)
Definition generated (database user_query : string) (history : list message)
  : outcome dict :=
  if store_client database then
    match store_context database with
    | Ok schema => Ok (answer database schema user_query history)
    | Raise e => Raise e
    end
  else Ok (unavailable database).

End WithEnv.
End Answer.

(** ** Vocabulary of the proofs *)

(** *** Answers of the document walks *)

Definition operator_message (k : string) : string :=
  "Query contains dangerous operator: " +:+ k.

(** What [check_dict] answers on a mapping. *)
Definition walk_answer (ops : list string) (d : dict) : Prop :=
  (Walk.check_items ops d = Ok None /\ ~ Spec.denied ops (JDict d))
  \/ (exists k, Walk.check_items ops d = Ok (Some (operator_message k))
                /\ In k ops /\ Spec.key_in k (JDict d)).

Definition walk_ok (ops : list string) (j : json) : Prop :=
  forall d, j = JDict d -> walk_answer ops d.







(** *** Runs of monadic code *)

(** [m] returns, and the only part of the state it may touch is the
    count of SDK calls. *)
Definition quiet {A} (m : M A) : Prop :=
  forall s, exists a n, m s = (Ok a, set_sdk_calls n s).

(** [m] may raise, but still touches nothing but the count of SDK calls. *)
Definition sdk_only {A} (m : M A) : Prop :=
  forall s, exists o n, m s = (o, set_sdk_calls n s).

(** A weakest-precondition reading of a run. *)

Definition wp {A} (m : M A) (s : state) (Q : outcome A -> state -> Prop) : Prop :=
  exists o s', m s = (o, s') /\ Q o s'.

(** A part of the state that a run leaves alone. *)

Definition keeps {A B} (f : state -> B) (m : M A) : Prop :=
  forall s o s', m s = (o, s') -> f s' = f s.

(** *** What one request comes to

    [processed E question s r s'] relates the state [s] in which
    [process_query] is called to the result [r] it returns and the state
    [s'] it leaves, following the request through routing, generation,
    execution and the bookkeeping of the history. *)

Section Processed.
Variable E : env.
Variable question : string.
Variable s : state.

Definition routed_database : string :=
  database (DatabaseAgent._fast_route E question).

Definition routed_result : query_result :=
  DatabaseAgent.with_database routed_database (DatabaseAgent.initial_result question).

(** The reference the generator's dict is given. *)
Definition gen_loc : loc := fresh (dom (objects s)).

Definition generated_result (gen : dict) : query_result :=
  DatabaseAgent.with_generated gen_loc (Py.get_default gen "explanation" (JStr ""))
    routed_result.

Definition acknowledgement (n : nat) : list message :=
  [ Message "user" question;
    Message "assistant" ("Returned " +:+ PyStr.of_nat n +:+ " rows") ].

(** After a successful execution. *)
Definition recorded (gen : dict) (x : exec_result) (r : query_result)
           (history' : list message) : Prop :=
  let rows := DatabaseAgent.from_option (x_data x) [] in
  let n := DatabaseAgent.from_option (x_row_count x) 0%nat in
  let counted := DatabaseAgent.with_rows rows n (generated_result gen) in
  match rows with
  | [] => r = counted /\ history' = conversation_history s ++ acknowledgement n
  | _ =>
      match make_dataframe E rows with
      | Ok _ =>
          r = DatabaseAgent.with_dataframe counted
          /\ history' = conversation_history s ++ acknowledgement n
      | Raise e =>
          r = DatabaseAgent.with_error (JStr (str_of_exn e)) counted
          /\ history' = conversation_history s
      end
  end.

(** After the execution step, whatever came of it. *)
Definition concluded (gen : dict) (xo : outcome exec_result) (r : query_result)
           (history' : list message) : Prop :=
  match xo with
  | Raise e =>
      r = DatabaseAgent.with_error (JStr (str_of_exn e)) (generated_result gen)
      /\ history' = conversation_history s
  | Ok x =>
      if x_success x then recorded gen x r history'
      else r = DatabaseAgent.with_error
                 (JStr (DatabaseAgent.from_option (x_error x) "Query execution failed"))
                 (generated_result gen)
           /\ history' = conversation_history s
  end.

Definition processed (r : query_result) (s' : state) : Prop :=
  match Answer.generated E routed_database question (conversation_history s) with
  | Raise e =>
      r = DatabaseAgent.with_error (JStr (str_of_exn e)) routed_result
      /\ conversation_history s' = conversation_history s
      /\ objects s' = objects s
      /\ tool_calls s' = tool_calls s
      /\ db_calls s' = db_calls s
  | Ok gen =>
      if Py.truthy (Py.get gen "success") then
        exists s0 xo sx,
          conversation_history s0 = conversation_history s
          /\ objects s0 = <[gen_loc := JDict gen]> (objects s)
          /\ tool_calls s0 = tool_calls s
          /\ db_calls s0 = db_calls s
          /\ DatabaseAgent._execute_query E routed_database gen_loc s0 = (xo, sx)
          /\ objects s' = objects sx
          /\ tool_calls s' = tool_calls sx
          /\ db_calls s' = db_calls sx
          /\ concluded gen xo r (conversation_history s')
      else
        r = DatabaseAgent.with_error
              (Py.get_default gen "error" (JStr "Failed to generate query"))
              routed_result
        /\ conversation_history s' = conversation_history s
        /\ objects s' = <[gen_loc := JDict gen]> (objects s)
        /\ tool_calls s' = tool_calls s
        /\ db_calls s' = db_calls s
  end.

End Processed.

(** *** The pipeline an aggregation forwards *)

Definition is_mapping (j : json) : Prop := exists d, j = JDict d.

(** Some stage has a key [$limit]. *)
Definition has_limit_stage (stages : list json) : bool :=
  existsb (fun stage => match stage with
                        | JDict d => Py.has_key d "$limit"
                        | _ => false
                        end) stages.

(** The stages handed to the driver. *)
Definition forwarded (E : env) (stages : list json) (limit : json) : list json :=
  if has_limit_stage stages then stages
  else stages ++ [JDict [("$limit", py_or limit (JInt (max_query_rows E)))]].

(** What the connector answers once the driver has run. *)
Definition driver_answer (E : env) (rows : outcome (list json)) : exec_result :=
  match rows with
  | Raise e => connector_failure e
  | Ok [] => connector_success []
  | Ok rows =>
      match make_dataframe E rows with
      | Ok _ => connector_success rows
      | Raise e => connector_failure e
      end
  end.

(** ** [src/utils/helpers.py]: the text helpers *)

Module Utils.



Definition complex_keywords : list string :=
  ["JOIN"; "SUBQUERY"; "WITH"; "UNION"; "HAVING"].

Definition medium_keywords : list string :=
  ["GROUP BY"; "ORDER BY"; "DISTINCT"].

(** [estimate_query_complexity(sql)]; the two sums count the keywords
    that occur, as the router's score does. *)
Definition estimate_query_complexity (sql : string) : string :=
  let sql_upper := PyStr.upper sql in
  let complex_count := Router.score complex_keywords sql_upper in
  let medium_count := Router.score medium_keywords sql_upper in
  if (Nat.leb 2 complex_count || PyStr.contains "SUBQUERY" sql_upper)%bool then "high"
  else if (Nat.leb 1 complex_count || Nat.leb 2 medium_count)%bool then "medium"
  else "low".

(** The three estimates, in order. *)
Definition level (estimate : string) : nat :=
  if String.eqb estimate "high" then 2
  else if String.eqb estimate "medium" then 1
  else 0.

End Utils.

(** ** [src/agent/query_router.py]: the model-backed router *)

(** [IndexError] and [KeyError] derive from [Exception] and are caught by
    no narrower handler of the sources. *)
Definition index_error : exn := Exn OtherException "list index out of range".
Definition key_error (key : string) : exn := Exn OtherException ("'" +:+ key +:+ "'").

(** The variable parts of the routing prompt. *)
Record routing_prompt : Type := RoutingPrompt {
  rp_available : string;
  rp_schema : string;
  rp_question : string
}.

Module QueryRouter.
Section WithEnv.
Variable E : env.
(** [self.client.messages.create(...)] followed by [.content[0].text] *)
Variable llm_route : routing_prompt -> outcome string.

(** [db_descriptions.get(db, 'Database')] *)
Definition description (db : string) : string :=
  if String.eqb db "postgresql"
  then "SQL relational database with structured tables, relationships, and ACID compliance. Best for: transactional data, joins, aggregations, complex queries."
  else if String.eqb db "mongodb"
  then "NoSQL document database with flexible schema. Best for: document storage, nested data, unstructured data, flexible queries."
  else "Database".

Definition _build_routing_prompt (user_query schema_context : string) : routing_prompt :=
  RoutingPrompt
    (PyStr.join_nl (map (fun db => "- " +:+ db +:+ ": " +:+ description db)
                        (available_databases E)))
    schema_context user_query.

(** [self.available_databases[0]] *)
Definition first_available : outcome string :=
  match available_databases E with
  | db :: _ => Ok db
  | [] => Raise index_error
  end.

(** [s.split(sep)] for a separator that is not empty: [skip] counts the
    characters of a separator still to be passed over. *)
Fixpoint split_on (sep : string) (skip : nat) (s : string) : list string :=
  match s with
  | EmptyString => [EmptyString]
  | String c s' =>
      match skip with
      | S k => split_on sep k s'
      | O =>
          if PyStr.startswith sep s
          then EmptyString :: split_on sep (String.length sep - 1) s'
          else match split_on sep 0 s' with
               | [] => [String c EmptyString]
               | l :: ls => String c l :: ls
               end
      end
  end.

Definition half : json := JFloat (S754_finite false 1 (-1)).
Definition one : json := JFloat (S754_finite false 1 0).

(** The first lines of [_parse_routing_response]. *)
Definition clean_response (response : string) : outcome string :=
  let response := PyStr.strip response in
  if PyStr.startswith "```" response then
    match split_on "```" 0 response with
    | _ :: part :: _ =>
        Ok (if PyStr.startswith "json" part then PyStr.drop 4 part else part)
    | _ => Raise index_error
    end
  else Ok response.

(** [v in self.available_databases] *)
Definition is_available (v : json) : bool :=
  match v with
  | JStr db => Py.mem db (available_databases E)
  | _ => false
  end.

Definition _parse_routing_response (response : string) : outcome dict :=
  match clean_response response with
  | Raise e => Raise e
  | Ok response =>
      match json_loads E response with
      | Ok (JDict result) =>
          if negb (is_available (Py.get result "database")) then
            match first_available with
            | Ok db => Ok (Py.set (Py.set result "database" (JStr db)) "confidence" half)
            | Raise e => Raise e
            end
          else Ok result
      | Ok v => Raise (Py.no_attribute v "get")
      | Raise e =>
          match exn_cls e with
          | JSONDecodeError =>
              match first_available with
              | Ok db =>
                  Ok [ ("database", JStr db);
                       ("confidence", half);
                       ("reasoning", JStr "Failed to parse routing response") ]
              | Raise e' => Raise e'
              end
          | _ => Raise e
          end
      end
  end.

Definition route_query (user_query schema_context : string) : outcome dict :=
  match available_databases E with
  | [db] =>
      Ok [ ("database", JStr db);
           ("confidence", one);
           ("reasoning", JStr "Only one database available") ]
  | _ =>
      let routing_prompt := _build_routing_prompt user_query schema_context in
      let attempt :=
        match llm_route routing_prompt with
        | Ok text => _parse_routing_response text
        | Raise e => Raise e
        end in
      match attempt with
      | Ok result => Ok result
      | Raise e =>
          match first_available with
          | Ok db =>
              Ok [ ("database", JStr db);
                   ("confidence", half);
                   ("reasoning", JStr ("Routing error, defaulting: " +:+ str_of_exn e)) ]
          | Raise e' => Raise e'
          end
      end
  end.

End WithEnv.
End QueryRouter.

(** ** [src/agent]: suggested questions *)

Module Suggestions.
Section WithEnv.
Variable E : env.
(** The model calls of the two [suggest_queries], by schema text. *)
Variable llm_suggest_sql : string -> outcome string.
Variable llm_suggest_mongo : string -> outcome string.

(** [SQLGenerator.suggest_queries] *)
Definition sql_suggest_queries (schema_context : string) : list string :=
  match llm_suggest_sql schema_context with
  | Ok text => PyStr.split_nl text
  | Raise _ => ["Show all records"; "Count total entries"]
  end.

(** [MongoQueryGenerator.suggest_queries] *)
Definition mongo_suggest_queries (schema_context : string) : list string :=
  match llm_suggest_mongo schema_context with
  | Ok text => PyStr.split_nl text
  | Raise _ => ["Show all documents"; "Count total documents"]
  end.

(** [DatabaseAgent.get_suggested_queries] *)
Definition get_suggested_queries : M (list string) :=
  let suggestions := [] in
  generator <- DatabaseAgent.sql_generator E ;;
  suggestions <-
    match generator with
    | Some _ =>
        context <- lift (postgres_context E) ;;
        ret (suggestions ++ sql_suggest_queries context)
    | None => ret suggestions
    end ;;
  generator <- DatabaseAgent.mongo_generator E ;;
  suggestions <-
    match generator with
    | Some _ =>
        context <- lift (mongodb_context E) ;;
        ret (suggestions ++ mongo_suggest_queries context)
    | None => ret suggestions
    end ;;
  ret (firstn 10 suggestions).

End WithEnv.
End Suggestions.

(** ** [src/visualization/auto_chart.py] *)

Module AutoChartGenerator.

(** What the generator reads off a [DataFrame]: its column labels, its
    number of rows, and the labels [select_dtypes] picks for the numeric,
    the categorical and the datetime columns. *)
Record frame : Type := Frame {
  columns : list string;
  n_rows : nat;
  numeric_columns : list string;
  categorical_columns : list string;
  datetime_columns : list string
}.

(** [df.empty]: some axis has length zero. *)
Definition empty (df : frame) : bool :=
  (Nat.eqb (n_rows df) 0 || match columns df with [] => true | _ => false end)%bool.

Section WithPlotly.
(** [PLOTLY_AVAILABLE], and the figure constructors of plotly by chart
    type, x column and y column. *)
Variable plotly_available : bool.
Variable figure : Type.
Variable draw : string -> option string -> option string -> outcome figure.

Definition supported_chart_types : list string :=
  ["bar"; "line"; "pie"; "scatter"; "histogram"; "table"].

Definition and_then {A B} (o : outcome A) (k : A -> outcome B) : outcome B :=
  match o with
  | Ok a => k a
  | Raise e => Raise e
  end.

(** [d[key]] *)
Definition item (d : dict) (key : string) : outcome json :=
  match Py.lookup d key with
  | Some v => Ok v
  | None => Raise (key_error key)
  end.

(** [len(v)] *)
Definition len (v : json) : outcome nat :=
  match v with
  | JList xs => Ok (length xs)
  | JDict d => Ok (length d)
  | JStr s => Ok (String.length s)
  | _ => Raise (Exn TypeError ("object of type '" +:+ Py.type_name v +:+ "' has no len()"))
  end.

(** [v <= 10] for a number [v]. *)
Definition at_most_ten (v : json) : outcome bool :=
  match v with
  | JInt m => Ok (m <=? 10)%Z
  | JBool _ => Ok true
  | JFloat f => Ok (SFleb f (S754_finite false 5 1))
  | _ => Raise (Exn TypeError
                    ("'<=' not supported between instances of '" +:+ Py.type_name v
                     +:+ "' and 'int'"))
  end.

Definition _suggest_chart_type (analysis : dict) : outcome string :=
  and_then (and_then (item analysis "numeric_columns") len) (fun num_cols =>
  and_then (and_then (item analysis "categorical_columns") len) (fun cat_cols =>
  and_then (and_then (item analysis "datetime_columns") len) (fun date_cols =>
  and_then (item analysis "row_count") (fun row_count =>
  if (Nat.leb 1 date_cols && Nat.leb 1 num_cols)%bool then Ok "line"
  else if (Nat.leb 1 cat_cols && Nat.leb 1 num_cols)%bool then
    and_then (at_most_ten row_count) (fun small =>
    if small then Ok "pie" else Ok "bar")
  else if Nat.leb 2 num_cols then Ok "scatter"
  else if Nat.eqb num_cols 1 then Ok "histogram"
  else Ok "table")))).

Definition labels (xs : list string) : json := JList (map JStr xs).

Definition analyze_data (df : frame) : outcome dict :=
  if empty df then Ok [ ("chart_type", JStr "table"); ("reason", JStr "Empty dataset") ]
  else
    let analysis :=
      [ ("row_count", JInt (Z.of_nat (n_rows df)));
        ("column_count", JInt (Z.of_nat (length (columns df))));
        ("numeric_columns", labels (numeric_columns df));
        ("categorical_columns", labels (categorical_columns df));
        ("datetime_columns", labels (datetime_columns df)) ] in
    and_then (_suggest_chart_type analysis) (fun chart_type =>
    Ok (Py.set analysis "suggested_chart_type" (JStr chart_type))).

(** [df.columns[i]] *)
Definition column (df : frame) (i : nat) : outcome string :=
  match nth_error (columns df) i with
  | Some c => Ok c
  | None =>
      Raise (Exn OtherException
                 ("index " +:+ PyStr.of_nat i +:+ " is out of bounds for axis 0 with size "
                  +:+ PyStr.of_nat (length (columns df))))
  end.

(** [xs[0] if xs else alt] *)
Definition first_or (xs : list string) (alt : outcome string) : outcome string :=
  match xs with
  | x :: _ => Ok x
  | [] => alt
  end.

(** [df.columns[1] if len(df.columns) > 1 else df.columns[0]] *)
Definition second_column (df : frame) : outcome string :=
  if Nat.ltb 1 (length (columns df)) then column df 1 else column df 0.

Definition _auto_select_columns (df : frame) (chart_type : string)
  : outcome (option string * option string) :=
  if Py.mem chart_type ["bar"; "pie"] then
    and_then (first_or (categorical_columns df) (column df 0)) (fun x_col =>
    and_then (first_or (numeric_columns df) (second_column df)) (fun y_col =>
    Ok (Some x_col, Some y_col)))
  else if String.eqb chart_type "line" then
    and_then (first_or (datetime_columns df)
                (first_or (categorical_columns df) (column df 0))) (fun x_col =>
    and_then (first_or (numeric_columns df) (second_column df)) (fun y_col =>
    Ok (Some x_col, Some y_col)))
  else if String.eqb chart_type "scatter" then
    match numeric_columns df with
    | x_col :: y_col :: _ => Ok (Some x_col, Some y_col)
    | _ =>
        and_then (column df 0) (fun x_col =>
        and_then (second_column df) (fun y_col =>
        Ok (Some x_col, Some y_col)))
    end
  else if String.eqb chart_type "histogram" then
    and_then (first_or (numeric_columns df) (column df 0)) (fun x_col =>
    Ok (Some x_col, None))
  else Ok (None, None).

(** A list or a dict used as a key. *)
Definition unhashable (v : json) : exn :=
  Exn TypeError ("unhashable type: '" +:+ Py.type_name v +:+ "'").

(** [chart_generators.get(chart_type, self._create_table)], by the name
    of the chart it draws. *)
Definition generator_for (chart_type : string) : string :=
  if Py.mem chart_type supported_chart_types then chart_type else "table".

(** [generate_chart(df)] with the chart type and the columns left to be
    detected. *)
Definition generate_chart (df : frame) : outcome (option figure) :=
  if negb plotly_available then Ok None
  else if empty df then Ok None
  else
    and_then (analyze_data df) (fun analysis =>
    and_then (item analysis "suggested_chart_type") (fun chart_type =>
    match chart_type with
    | JStr chart_type =>
        and_then (_auto_select_columns df chart_type) (fun cols =>
        and_then (draw (generator_for chart_type) (fst cols) (snd cols)) (fun fig =>
        Ok (Some fig)))
    | JList _ | JDict _ => Raise (unhashable chart_type)
    | _ => and_then (draw "table" None None) (fun fig => Ok (Some fig))
    end)).

(** [explanations.get(chart_type, "")] *)
Definition explanation_of (chart_type : string) : string :=
  if String.eqb chart_type "bar"
  then "Bar chart recommended for comparing categorical values"
  else if String.eqb chart_type "line"
  then "Line chart recommended for showing trends over time"
  else if String.eqb chart_type "pie"
  then "Pie chart recommended for showing proportions (small dataset)"
  else if String.eqb chart_type "scatter"
  then "Scatter plot recommended for showing correlation between numeric variables"
  else if String.eqb chart_type "histogram"
  then "Histogram recommended for showing distribution of numeric data"
  else if String.eqb chart_type "table"
  then "Table view recommended for detailed data inspection"
  else "".

Definition get_chart_recommendation (df : frame) : outcome dict :=
  and_then (analyze_data df) (fun analysis =>
  and_then (item analysis "suggested_chart_type") (fun recommended =>
  and_then (item analysis "suggested_chart_type") (fun chart_type =>
  and_then (match chart_type with
            | JStr c => Ok (explanation_of c)
            | JList _ | JDict _ => Raise (unhashable chart_type)
            | _ => Ok ""
            end) (fun explanation =>
  Ok [ ("recommended_chart", recommended);
       ("explanation", JStr explanation);
       ("data_analysis", JDict analysis);
       ("available_charts", labels supported_chart_types) ])))).

End WithPlotly.
End AutoChartGenerator.

(** ** [src/config.py]: connection settings *)

Module Config.

Record settings : Type := Settings {
  postgres_host : string;
  postgres_port : Z;
  postgres_user : string;
  postgres_password : string;
  postgres_db : string;
  mongodb_host : string;
  mongodb_port : Z;
  mongodb_user : option string;
  mongodb_password : option string;
  mongodb_db : string;
  langfuse_public_key : option string;
  langfuse_secret_key : option string
}.

(** [str(n)] for an [int]. *)
Definition str_of_int (n : Z) : string :=
  if (n <? 0)%Z then "-" +:+ PyStr.of_nat (Z.to_nat (- n)) else PyStr.of_nat (Z.to_nat n).

(** Truthiness of an [Optional[str]]. *)
Definition truthy (o : option string) : bool :=
  match o with
  | Some s => PyStr.nonempty s
  | None => false
  end.

Definition text_of (o : option string) : string :=
  match o with
  | Some s => s
  | None => "None"
  end.

Definition postgres_url (c : settings) : string :=
  "postgresql://" +:+ postgres_user c +:+ ":" +:+ postgres_password c +:+ "@" +:+
  postgres_host c +:+ ":" +:+ str_of_int (postgres_port c) +:+ "/" +:+ postgres_db c.

Definition mongodb_url (c : settings) : string :=
  if (truthy (mongodb_user c) && truthy (mongodb_password c))%bool
  then "mongodb://" +:+ text_of (mongodb_user c) +:+ ":" +:+ text_of (mongodb_password c)
       +:+ "@" +:+ mongodb_host c +:+ ":" +:+ str_of_int (mongodb_port c) +:+ "/" +:+
       mongodb_db c
  else "mongodb://" +:+ mongodb_host c +:+ ":" +:+ str_of_int (mongodb_port c) +:+ "/" +:+
       mongodb_db c.

Definition langfuse_enabled (c : settings) : bool :=
  (truthy (langfuse_public_key c) && truthy (langfuse_secret_key c))%bool.

End Config.

(** ** [src/mcp/mcp_manager.py]: which stores there are *)

Module Manager.
Section WithUrls.
(** The two arguments of [MCPManager(...)], and what the connection test
    of each driver comes to. *)
Variables postgres_url mongodb_url : option string.
Variables postgres_ping mongodb_ping : outcome unit.

(** [self.postgres] and [self.mongodb] are clients, not [None]. *)
Definition postgres : bool := Config.truthy postgres_url.
Definition mongodb : bool := Config.truthy mongodb_url.

(** [connector.test_connection()] *)
Definition test_connection (ping : outcome unit) : bool :=
  match ping with
  | Ok _ => true
  | Raise _ => false
  end.

Definition get_available_databases : list string :=
  (if (postgres && test_connection postgres_ping)%bool then ["postgresql"] else [])
  ++ (if (mongodb && test_connection mongodb_ping)%bool then ["mongodb"] else []).

Definition test_connections : list (string * bool) :=
  (if postgres then [("postgresql", test_connection postgres_ping)] else [])
  ++ (if mongodb then [("mongodb", test_connection mongodb_ping)] else []).

End WithUrls.
End Manager.

(** ** [DatabaseAgent.__init__]: the stores of an agent *)

(** [arg or dflt] *)
Definition or_default (arg : option string) (dflt : string) : option string :=
  if Config.truthy arg then arg else Some dflt.

(** The environment of an agent constructed with the two optional URLs
    under the settings [c]. *)
Definition constructed (c : Config.settings) (postgres_url mongodb_url : option string)
           (postgres_ping mongodb_ping : outcome unit) (E : env) : Prop :=
  let pg := or_default postgres_url (Config.postgres_url c) in
  let mongo := or_default mongodb_url (Config.mongodb_url c) in
  postgres_client E = Manager.postgres pg
  /\ mongodb_client E = Manager.mongodb mongo
  /\ available_databases E
     = Manager.get_available_databases pg mongo postgres_ping mongodb_ping.

(** ** [src/observability/tracing.py]: the decorators *)

Module Decorators.
Section WithEnv.
Variable E : env.

(** [trace_query(name)(func)], called.  With Langfuse enabled the
    wrapper reads [func.__name__] for the metadata of the span, before
    the [try]: [name_of] is what that comes to, the name or the
    [AttributeError] of a callable without one (a [functools.partial]). *)
Definition trace_query {A} (name_of : outcome string) (func : M A) : M A :=
  if negb (langfuse_enabled E) then func
  else
    lift name_of ;;;
    span <- Langfuse.start_span E ;;
    try_finally
      (try_except
         (result <- func ;;
          Langfuse.end_span E span true ;;;
          ret result)
         (fun e =>
            Langfuse.end_span E span true ;;;
            raise e))
      (Langfuse.flush E).

(** [str(result)[:1000] if result else None]: [truth] is [bool(result)]
    and [text] is [str(result)]; for a result of some classes either one
    raises (the truth value of a [DataFrame] is a [ValueError]). *)
Definition output_of {A} (truth : A -> outcome bool) (text : A -> outcome string)
           (result : A) : outcome (option string) :=
  match truth result with
  | Raise e => Raise e
  | Ok false => Ok None
  | Ok true =>
      match text result with
      | Raise e => Raise e
      | Ok t => Ok (Some (Generator.take 1000 t))
      end
  end.

(** [trace_generation(name, model)(func)], called.  The output of the
    generation is computed inside the [try], after the function has
    returned. *)
Definition trace_generation {A} (truth : A -> outcome bool) (text : A -> outcome string)
           (func : M A) : M A :=
  if negb (langfuse_enabled E) then func
  else
    span <- Langfuse.start_span E ;;
    generation <- Langfuse.start_generation E span ;;
    try_finally
      (try_except
         (result <- func ;;
          lift (output_of truth text result) ;;;
          Langfuse.end_generation E generation ;;;
          Langfuse.end_span E span true ;;;
          ret result)
         (fun e =>
            Langfuse.end_generation E generation ;;;
            Langfuse.end_span E span true ;;;
            raise e))
      (Langfuse.flush E).

End WithEnv.
End Decorators.

(** ** Vocabulary of the further properties *)

(** The environment with another tracing configuration. *)
Definition with_tracing (E : env) (enabled : bool) (fault : nat -> option exn) : env :=
  Env (blocked_sql_keywords E) (max_query_rows E) (available_databases E)
      (postgres_client E) (mongodb_client E)
      (postgres_context E) (mongodb_context E)
      (llm_sql E) (llm_mongo E) (json_loads E)
      (pg_driver E) (mongo_find_driver E) (mongo_aggregate_driver E)
      (mongo_collection E) (make_dataframe E)
      enabled fault (py_repr E).

(** Two states that differ at most in the local [result] and in the count
    of SDK calls. *)
Definition agree (s1 s2 : state) : Prop :=
  conversation_history s1 = conversation_history s2
  /\ objects s1 = objects s2
  /\ tool_calls s1 = tool_calls s2
  /\ db_calls s1 = db_calls s2.

(** [m] neither reads nor writes what two such states differ in. *)
Definition respects {A} (m : M A) : Prop :=
  forall s1 s2, agree s1 s2 ->
    fst (m s1) = fst (m s2) /\ agree (snd (m s1)) (snd (m s2)).

(** What [m] returns satisfies [P]. *)
Definition ensures {A} (P : A -> Prop) (m : M A) : Prop :=
  forall s a s', m s = (Ok a, s') -> P a.

(** A successful execution result carries its rows, counted, and the
    frame of rows that are there could be built. *)
Definition sound_result (E : env) (x : exec_result) : Prop :=
  x_success x = true ->
  exists rows, x_data x = Some rows
               /\ x_row_count x = Some (length rows)
               /\ (rows <> [] -> make_dataframe E rows = Ok tt).

(** The driver call is of the kind of the tool call, on the statement or
    the collection the tool call names. *)
Definition same_target (call : tool_call) (d : db_call) : Prop :=
  match call, d with
  | PostgresQuery sql, DbQuery text => sql = JStr text
  | MongoFind collection filter_query _ _ _, DbFind collection' filter' _ _ _ =>
      collection' = collection /\ filter' = filter_query
  | MongoAggregate collection _ _, DbAggregate collection' _ => collection' = collection
  | _, _ => False
  end.

(** A handler run for [call] either makes no driver call and reports no
    success, or makes one driver call, on the target of [call]. *)
Definition guarded (call : tool_call) (m : M exec_result) : Prop :=
  forall s o s', m s = (o, s') ->
    (db_calls s' = db_calls s /\ forall x, o = Ok x -> x_success x = false)
    \/ (exists d, db_calls s' = db_calls s ++ [d] /\ same_target call d).

(** A tracer that holds no span. *)
Definition idle (t : tracer) : Prop := root_span t = None /\ current_span t = None.

(** [m] makes no SDK call, and what it returns satisfies [P]. *)
Definition calm {A} (P : A -> Prop) (m : M A) : Prop :=
  forall s o s', m s = (o, s') ->
    sdk_calls s' = sdk_calls s /\ forall a, o = Ok a -> P a.


(** A character that upper-cases to [a] is neither white space nor a
    semicolon. *)
Definition solid (a : ascii) : Prop :=
  forall c, PyStr.upper_char c = a ->
            PyStr.isspace c = false /\ Ascii.eqb c PyStr.semicolon = false.

(** A selected column, if any, is a column of the frame. *)
Definition within_frame (df : AutoChartGenerator.frame) (c : option string) : Prop :=
  forall x, c = Some x -> In x (AutoChartGenerator.columns df).




(** The request ended with the failure [msg] before any tool was called. *)
Definition stopped (msg : string) (s : state) (r : query_result) (s' : state) : Prop :=
  success r = false
  /\ error r = JStr msg
  /\ tool_calls s' = tool_calls s
  /\ db_calls s' = db_calls s
  /\ conversation_history s' = conversation_history s.

(** A dict is the model's own when it is the decoded response, marked as
    a failure because it names no statement. *)
Definition models_own (E : env) (db text : string) (d gen : dict) : Prop :=
  json_loads E (Generator.clean_response text) = Ok (JDict d)
  /\ Py.truthy (Py.get d (if Answer.relational db then "sql" else "query_type")) = false
  /\ gen = Py.set d "success" (JBool false).

(** ** Further test doubles *)

Module Doubles.




(** A model that answers in prose around a statement. *)
Definition prose : string :=
  "Here it is: select id from t; drop table t".

(** A frame of three rows with one categorical and one numeric column. *)
Definition sales : AutoChartGenerator.frame :=
  AutoChartGenerator.Frame ["city"; "total"] 3 ["total"] ["city"] [].

(** The default settings of [src/config.py]. *)
Definition defaults : Config.settings :=
  Config.Settings "localhost" 5432 "postgres" "postgres" "ecommerce_db"
                  "localhost" 27017 None None "ecommerce_db" None None.

(** An agent constructed without arguments while only the document store
    answers. *)
Definition document_only : env :=
  Env Settings.blocked_sql_keywords Settings.default_max_query_rows
      ["mongodb"] true true
      (Ok "") (Ok "Collection: events")
      (fun _ => Ok "") (fun _ => Ok "")
      Scenario.loads
      (fun _ => Ok []) (fun _ _ _ _ _ => Ok []) (fun _ _ => Ok [])
      (fun _ => Ok tt) (fun _ => Ok tt)
      false (fun _ => None) Py.type_name.

(** A model whose statement is nothing but blanks. *)
Definition blank_json : json := JDict [ ("sql", JStr "   ") ].

Definition blank_env : env :=
  Env Settings.blocked_sql_keywords Settings.default_max_query_rows
      ["postgresql"] true false
      (Ok "Table: customers") (Ok "")
      (fun _ => Ok "a blank statement") (fun _ => Ok "")
      (fun _ => Ok blank_json)
      (fun _ => Ok [Scenario.row 1]) (fun _ _ _ _ _ => Ok []) (fun _ _ => Ok [])
      (fun _ => Ok tt) (fun _ => Ok tt)
      false (fun _ => None) Py.type_name.

(** A model that asks for an aggregation on [a$b], a name the driver
    refuses when the collection handle is looked up. *)
Definition dollar_json : json :=
  JDict [ ("query_type", JStr "aggregate"); ("collection", JStr "a$b");
          ("pipeline", JList [Scenario.match_stage]) ].

Definition invalid_name : exn :=
  Exn OtherException "collection names must not contain '$': 'a$b'".

Definition dollar_env : env :=
  Env Settings.blocked_sql_keywords Settings.default_max_query_rows
      ["mongodb"] false true
      (Ok "") (Ok "Collection: events")
      (fun _ => Ok "") (fun _ => Ok "an aggregation on a$b")
      (fun _ => Ok dollar_json)
      (fun _ => Ok []) (fun _ _ _ _ _ => Ok []) (fun _ _ => Ok [Scenario.row 1])
      (fun collection => match collection with
                         | JStr name => if PyStr.contains "$" name
                                        then Raise invalid_name else Ok tt
                         | _ => Raise (Exn TypeError "name must be an instance of str")
                         end)
      (fun _ => Ok tt)
      false (fun _ => None) Py.type_name.

(** What the decorators can meet: a callable without [__name__], and a
    result ([pandas.DataFrame]) whose truth value is not defined. *)
Definition partial_without_name : exn :=
  Exn AttributeError "'functools.partial' object has no attribute '__name__'".

Definition ambiguous_truth : exn :=
  Exn OtherException
      "The truth value of a DataFrame is ambiguous. Use a.empty, a.bool(), a.item(), a.any() or a.all().".

(** A model that answers with an object holding no statement and a null
    error. *)
Definition silent_json : json := JDict [ ("sql", JNull); ("error", JNull) ].

Definition silent_env : env :=
  Env Settings.blocked_sql_keywords Settings.default_max_query_rows
      ["postgresql"] true false
      (Ok "Table: customers") (Ok "")
      (fun _ => Ok "an object without a statement") (fun _ => Ok "")
      (fun _ => Ok silent_json)
      (fun _ => Ok [Scenario.row 1]) (fun _ _ _ _ _ => Ok []) (fun _ _ => Ok [])
      (fun _ => Ok tt) (fun _ => Ok tt)
      false (fun _ => None) Py.type_name.

(** A statement whose first letter is U+0131: [str.upper] makes it INSERT. *)
Definition dotless_insert : string :=
  Unicode.dotless_i +:+ "nsert into t values (1)".

(** A question with U+212A where [tracking] and [click] have a k. *)
Definition kelvin_question : string :=
  "customer trac" +:+ Unicode.kelvin +:+ "ing clic" +:+ Unicode.kelvin.

End Doubles.

(** * Properties *)

#[local] Arguments String.append : simpl nomatch.

(** ** Sanity checks of the primitives *)

Example upper_ex : PyStr.upper "drop Table x_1;" = "DROP TABLE X_1;".
Proof. reflexivity. Qed.

Example lower_ex : PyStr.lower "Show ME [Events]" = "show me [events]".
Proof. reflexivity. Qed.

Example unicode_upper_ex :
  Unicode.upper Doubles.dotless_insert = "INSERT INTO T VALUES (1)"
  /\ Unicode.upper ("mas" +:+ Unicode.long_s +:+ "e") = "MASSE"
  /\ Unicode.upper "select 1" = PyStr.upper "select 1".
Proof. repeat split. Qed.

Example unicode_lower_ex :
  Unicode.lower Doubles.kelvin_question = "customer tracking click"
  /\ Unicode.lower "Show ME" = PyStr.lower "Show ME".
Proof. repeat split. Qed.

Example strip_ex : PyStr.strip (String PyStr.nl "  a b  ") = "a b".
Proof. reflexivity. Qed.

Example split_ex :
  PyStr.split_nl ("ab" +:+ String PyStr.nl ("" +:+ String PyStr.nl "c")) = ["ab"; ""; "c"].
Proof. reflexivity. Qed.

Example of_nat_ex : PyStr.of_nat 120 = "120" /\ PyStr.of_nat 0 = "0".
Proof. split; reflexivity. Qed.

Example sql_select_ok :
  Helpers.validate_sql_safety
    "SELECT * FROM customers WHERE city = 'New York' LIMIT 100"
    Settings.blocked_sql_keywords = Verdict true None.
Proof. reflexivity. Qed.

Example sql_delete_rejected :
  Helpers.validate_sql_safety "DELETE FROM orders" Settings.blocked_sql_keywords
  = Verdict false (Some "Query contains blocked keyword: DELETE").
Proof. reflexivity. Qed.

Example sql_created_at_rejected :
  Helpers.validate_sql_safety "SELECT created_at FROM orders LIMIT 100"
    Settings.blocked_sql_keywords
  = Verdict false (Some "Query contains blocked keyword: CREATE").
Proof. reflexivity. Qed.

Example mongo_where_rejected :
  Helpers.validate_mongo_safety (JDict [("$where", JStr "this.a > 1")])
  = Ok (Verdict false (Some "Query contains dangerous operator: $where")).
Proof. reflexivity. Qed.

Example mongo_nested_rejected :
  Helpers.validate_mongo_safety
    (JDict [("a", JInt 1);
            ("$or", JList [JInt 3; JDict [("b", JDict [("$function", JNull)])]])])
  = Ok (Verdict false (Some "Query contains dangerous operator: $function")).
Proof. reflexivity. Qed.

Example mongo_status_ok :
  Helpers.validate_mongo_safety (JDict [("status", JStr "active")])
  = Ok (Verdict true None).
Proof. reflexivity. Qed.

Example mongo_non_mapping_raises :
  Helpers.validate_mongo_safety (JStr "status")
  = Raise (Exn AttributeError "'str' object has no attribute 'items'").
Proof. reflexivity. Qed.

(** ** Facts about the string primitives *)

Section StringFacts.

Lemma append_empty_r (s : string) : s +:+ "" = s.
Proof. induction s; simpl; congruence. Qed.

Lemma append_assoc (a b c : string) : (a +:+ b) +:+ c = a +:+ (b +:+ c).
Proof. induction a; simpl; congruence. Qed.

Lemma startswith_spec (p s : string) :
  PyStr.startswith p s = true <-> exists post, s = p +:+ post.
Proof.
  revert s; induction p as [|a p IH]; intros s; simpl.
  - split; [intros _; exists s; reflexivity | reflexivity].
  - destruct s as [|b s].
    + split; [discriminate | intros [post H]; discriminate].
    + destruct (Ascii.eqb a b) eqn:Hab.
      * apply Ascii.eqb_eq in Hab; subst b. rewrite IH.
        split; intros [post H]; exists post; simpl in *; congruence.
      * apply Ascii.eqb_neq in Hab.
        split; [discriminate | intros [post H]; simpl in H; congruence].
Qed.

Lemma contains_spec (sub s : string) :
  PyStr.contains sub s = true <-> exists pre post, s = pre +:+ sub +:+ post.
Proof.
  induction s as [|c s IH]; simpl.
  - destruct (PyStr.startswith sub "") eqn:Hp.
    + apply startswith_spec in Hp as [post Hp].
      split; [intros _; exists "", post; exact Hp | reflexivity].
    + split; [discriminate|]. intros (pre & post & H).
      destruct pre; simpl in H; [|discriminate].
      assert (PyStr.startswith sub "" = true) by (apply startswith_spec; eauto).
      congruence.
  - destruct (PyStr.startswith sub (String c s)) eqn:Hp.
    + apply startswith_spec in Hp as [post Hp].
      split; [intros _; exists "", post; exact Hp | reflexivity].
    + rewrite IH. split.
      * intros (pre & post & H). exists (String c pre), post. simpl. congruence.
      * intros (pre & post & H). destruct pre as [|c' pre]; simpl in H.
        -- assert (PyStr.startswith sub (String c s) = true)
             by (apply startswith_spec; eauto).
           congruence.
        -- exists pre, post. congruence.
Qed.

Lemma map_chars_app f (a b : string) :
  PyStr.map_chars f (a +:+ b) = PyStr.map_chars f a +:+ PyStr.map_chars f b.
Proof. induction a; simpl; congruence. Qed.

Lemma map_chars_split f (s a b : string) :
  PyStr.map_chars f s = a +:+ b ->
  exists a' b', s = a' +:+ b' /\ PyStr.map_chars f a' = a /\ PyStr.map_chars f b' = b.
Proof.
  revert s; induction a as [|c a IH]; intros s H; simpl in H.
  - exists "", s. auto.
  - destruct s as [|d s]; simpl in H; [discriminate|].
    injection H as Hc Hs. destruct (IH _ Hs) as (a' & b' & -> & Ha & Hb).
    exists (String d a'), b'. simpl. repeat split; congruence.
Qed.

Lemma lower_upper_char (c : ascii) :
  PyStr.lower_char (PyStr.upper_char c) = PyStr.lower_char c.
Proof. destruct c as [[] [] [] [] [] [] [] []]; reflexivity. Qed.

Lemma upper_lower_char (c : ascii) :
  PyStr.upper_char (PyStr.lower_char c) = PyStr.upper_char c.
Proof. destruct c as [[] [] [] [] [] [] [] []]; reflexivity. Qed.

Lemma lower_upper (s : string) : PyStr.lower (PyStr.upper s) = PyStr.lower s.
Proof.
  induction s as [|c s IH]; simpl; [reflexivity|].
  unfold PyStr.lower, PyStr.upper in *. simpl. rewrite lower_upper_char. congruence.
Qed.

Lemma upper_lower (s : string) : PyStr.upper (PyStr.lower s) = PyStr.upper s.
Proof.
  induction s as [|c s IH]; simpl; [reflexivity|].
  unfold PyStr.lower, PyStr.upper in *. simpl. rewrite upper_lower_char. congruence.
Qed.

(** Equality after upper-casing is equality after lower-casing. *)
Lemma upper_eq_iff_lower_eq (a b : string) :
  PyStr.upper a = PyStr.upper b <-> PyStr.lower a = PyStr.lower b.
Proof.
  split; intros H.
  - rewrite <- (lower_upper a), <- (lower_upper b). congruence.
  - rewrite <- (upper_lower a), <- (upper_lower b). congruence.
Qed.

Lemma count_app c (a b : string) :
  PyStr.count c (a +:+ b) = (PyStr.count c a + PyStr.count c b)%nat.
Proof. induction a; simpl; lia. Qed.

End StringFacts.

(** ** The relational validator *)

Section SqlValidator.

Lemma contains_upper_spec (kw text : string) :
  PyStr.contains (PyStr.upper kw) (PyStr.upper text) = true <->
  Spec.occurs_ignoring_case kw text.
Proof.
  rewrite contains_spec. unfold Spec.occurs_ignoring_case. split.
  - intros (pre & post & H). unfold PyStr.upper in H.
    apply map_chars_split in H as (pre' & rest & -> & Hpre & H).
    apply map_chars_split in H as (t & post' & -> & Ht & Hpost).
    exists pre', t, post'. split; [reflexivity|].
    apply upper_eq_iff_lower_eq. exact Ht.
  - intros (pre & t & post & -> & Ht).
    apply upper_eq_iff_lower_eq in Ht.
    exists (PyStr.upper pre), (PyStr.upper post).
    unfold PyStr.upper in *. rewrite !map_chars_app. congruence.
Qed.

Lemma contains_lower_spec (kw text : string) :
  PyStr.contains (PyStr.lower kw) (PyStr.lower text) = true <->
  Spec.occurs_ignoring_case kw text.
Proof.
  rewrite contains_spec. unfold Spec.occurs_ignoring_case. split.
  - intros (pre & post & H). unfold PyStr.lower in H.
    apply map_chars_split in H as (pre' & rest & -> & Hpre & H).
    apply map_chars_split in H as (t & post' & -> & Ht & Hpost).
    exists pre', t, post'. split; [reflexivity | exact Ht].
  - intros (pre & t & post & -> & Ht).
    exists (PyStr.lower pre), (PyStr.lower post).
    unfold PyStr.lower in *. rewrite !map_chars_app. congruence.
Qed.

Lemma first_blocked_none (su : string) (blocked : list string) :
  Helpers.first_blocked su blocked = None <->
  forall kw, In kw blocked -> PyStr.contains (PyStr.upper kw) su = false.
Proof.
  induction blocked as [|k rest IH]; simpl.
  - split; [intros _ kw [] | reflexivity].
  - destruct (PyStr.contains (PyStr.upper k) su) eqn:Hk.
    + split; [discriminate|]. intros H. specialize (H k (or_introl eq_refl)). congruence.
    + rewrite IH. split.
      * intros H kw [<-|Hin]; auto.
      * intros H kw Hin. apply H. auto.
Qed.

Lemma first_blocked_some (su : string) (blocked : list string) (kw : string) :
  Helpers.first_blocked su blocked = Some kw ->
  In kw blocked /\ PyStr.contains (PyStr.upper kw) su = true.
Proof.
  induction blocked as [|k rest IH]; simpl; [discriminate|].
  destruct (PyStr.contains (PyStr.upper k) su) eqn:Hk.
  - intros [= <-]. auto.
  - intros H. destruct (IH H). auto.
Qed.

Lemma first_blocked_hit (su : string) (blocked : list string) (kw : string) :
  In kw blocked -> PyStr.contains (PyStr.upper kw) su = true ->
  exists kw', Helpers.first_blocked su blocked = Some kw'.
Proof.
  intros Hin Hc. destruct (Helpers.first_blocked su blocked) eqn:Hf; [eauto|].
  rewrite first_blocked_none in Hf. rewrite (Hf _ Hin) in Hc. discriminate.
Qed.

Lemma count_two_spec (text : string) :
  (2 <= PyStr.count PyStr.semicolon text)%nat <-> Spec.many_terminators text.
Proof.
  unfold Spec.many_terminators. split.
  - induction text as [|c s IH]; simpl; [lia|].
    destruct (Ascii.eqb c PyStr.semicolon) eqn:Hc.
    + apply Ascii.eqb_eq in Hc. subst c. intros H.
      assert (H1 : (1 <= PyStr.count PyStr.semicolon s)%nat) by lia.
      clear H IH. exists "".
      induction s as [|d s IHs]; simpl in H1; [lia|].
      destruct (Ascii.eqb d PyStr.semicolon) eqn:Hd.
      * apply Ascii.eqb_eq in Hd. subst d. exists "", s. reflexivity.
      * destruct IHs as (b & c & Hbc); [lia|].
        simpl in Hbc. injection Hbc as ->.
        exists (String d b), c. reflexivity.
    + intros H. destruct IH as (a & b & c' & ->); [lia|].
      exists (String c a), b, c'. reflexivity.
  - intros (a & b & c & ->). rewrite !count_app. simpl.
    change (Ascii.eqb ";" PyStr.semicolon) with true. lia.
Qed.

End SqlValidator.

(** ** The document validators *)

Section MongoValidator.

Lemma mem_In (x : string) (xs : list string) : Py.mem x xs = true <-> In x xs.
Proof.
  induction xs as [|y ys IH]; simpl; [split; [discriminate | tauto]|].
  destruct (String.eqb x y) eqn:Hxy.
  - apply String.eqb_eq in Hxy. subst. tauto.
  - apply String.eqb_neq in Hxy. rewrite IH. split; [tauto | intros [?|?]; congruence].
Qed.

Lemma check_items_nil ops : Walk.check_items ops [] = Ok None.
Proof. reflexivity. Qed.

Lemma check_items_cons ops key value l :
  Walk.check_items ops ((key, value) :: l) =
  if Py.mem key ops then Ok (Some (operator_message key))
  else match value with
       | JDict _ =>
           match Helpers.check_dict ops value with
           | Raise e => Raise e
           | Ok result =>
               if Helpers.some_text result then Ok result else Walk.check_items ops l
           end
       | JList xs => Walk.check_each ops xs (Walk.check_items ops l)
       | _ => Walk.check_items ops l
       end.
Proof.
  unfold Walk.check_items. simpl. destruct (Py.mem key ops); [reflexivity|].
  destruct value; try reflexivity.
  induction xs as [|x xs IH]; [reflexivity|].
  simpl. destruct x; try exact IH.
  destruct (Helpers.check_dict ops (JDict items)); [|reflexivity].
  destruct (Helpers.some_text a); [reflexivity | exact IH].
Qed.


(** The keys the walk can reach, one item at a time. *)
Lemma key_in_nil k : ~ Spec.key_in k (JDict []).
Proof. intros H. inversion H; subst; simpl in *; contradiction. Qed.

Lemma key_in_cons k key value l :
  Spec.key_in k (JDict ((key, value) :: l)) <->
  k = key
  \/ (exists d, value = JDict d /\ Spec.key_in k (JDict d))
  \/ (exists xs d, value = JList xs /\ In (JDict d) xs /\ Spec.key_in k (JDict d))
  \/ Spec.key_in k (JDict l).
Proof.
  split.
  - intros H. inversion H as [items v Hin | items k' d Hin Hk | items k' xs d Hin Hx Hk]; subst.
    + destruct Hin as [[= -> ->]|Hin]; [auto|].
      right; right; right. eapply Spec.key_here; eauto.
    + destruct Hin as [[= -> ->]|Hin]; [eauto 6|].
      right; right; right. eapply Spec.key_nested; eauto.
    + destruct Hin as [[= -> ->]|Hin]; [eauto 8|].
      right; right; right. eapply Spec.key_in_sequence; eauto.
  - intros [->|[(d & -> & Hk)|[(xs & d & -> & Hx & Hk)|H]]].
    + eapply Spec.key_here. left; reflexivity.
    + eapply Spec.key_nested; [left; reflexivity | exact Hk].
    + eapply Spec.key_in_sequence; [left; reflexivity | exact Hx | exact Hk].
    + inversion H as [items v Hin | items k' d Hin Hk | items k' xs d Hin Hx Hk]; subst.
      * eapply Spec.key_here. right; eauto.
      * eapply Spec.key_nested; [right; eauto | exact Hk].
      * eapply Spec.key_in_sequence; [right; eauto | exact Hx | exact Hk].
Qed.

Lemma some_text_message k : Helpers.some_text (Some (operator_message k)) = true.
Proof. reflexivity. Qed.

Lemma check_each_answer ops xs after :
  Forall (walk_ok ops) xs ->
  (Walk.check_each ops xs after = after
   /\ forall d k, In (JDict d) xs -> In k ops -> ~ Spec.key_in k (JDict d))
  \/ (exists k d, Walk.check_each ops xs after = Ok (Some (operator_message k))
                  /\ In k ops /\ In (JDict d) xs /\ Spec.key_in k (JDict d)).
Proof.
  induction 1 as [|x xs Hx Hxs IH]; simpl.
  - left. split; [reflexivity | intros d k []].
  - destruct x as [| | | | | |d];
      try (destruct IH as [[IH1 IH2]|(k & d' & IH1 & IH2 & IH3 & IH4)];
           [left; split; [exact IH1|];
            intros d' k [Hd|Hin] Hk; [discriminate | eauto]
           | right; exists k, d'; simpl; auto]).
    change (Helpers.check_dict ops (JDict d)) with (Walk.check_items ops d).
    destruct (Hx d eq_refl) as [[Hd Hnd]|(k & Hd & Hk & Hkin)]; rewrite Hd.
    + simpl. destruct IH as [[IH1 IH2]|(k & d' & IH1 & IH2 & IH3 & IH4)].
      * left. split; [exact IH1|].
        intros d' k [[= <-]|Hin] Hk; [|eauto].
        intros Hkin. apply Hnd. exists k. auto.
      * right. exists k, d'. simpl. auto.
    + rewrite some_text_message. right. exists k, d. simpl. auto.
Qed.

Lemma check_dict_answer ops (j : json) :
  walk_ok ops j /\ (forall xs, j = JList xs -> Forall (walk_ok ops) xs).
Proof.
  induction j as [| | | | |xs IH|items IH] using json_nested_ind.
  1-5: split; [intros d [=] | intros xs' [=]].
  - split; [intros d [=]|]. intros xs' [= <-].
    eapply Forall_impl; [exact IH|]. intros x [Hx _]. exact Hx.
  - split; [|intros xs' [=]]. intros d [= <-].
    induction IH as [|[key value] l Hv Hl IHl].
    + left. split; [reflexivity|]. intros (k & _ & Hk). eapply key_in_nil; eauto.
    + simpl in Hv. destruct Hv as [Hdict Hlist].
      unfold walk_answer. rewrite check_items_cons.
      destruct (Py.mem key ops) eqn:Hmem.
      { right. exists key. split; [reflexivity|].
        split; [apply mem_In; exact Hmem|]. apply key_in_cons. auto. }
      assert (Hkey : forall k, In k ops -> k <> key).
      { intros k Hk ->. apply mem_In in Hk. congruence. }
      assert (Htail : (forall d, value <> JDict d) -> (forall xs, value <> JList xs) ->
        (Walk.check_items ops l = Ok None /\
           ~ Spec.denied ops (JDict ((key, value) :: l)))
        \/ (exists k, Walk.check_items ops l = Ok (Some (operator_message k))
                      /\ In k ops /\ Spec.key_in k (JDict ((key, value) :: l)))).
      { intros Hnd Hnl. destruct IHl as [[Hc Hn]|(k & Hc & Hk & Hkin)].
        - left. split; [exact Hc|]. intros (k & Hk & Hkin).
          apply key_in_cons in Hkin as [->|[(d & -> & _)|[(xs & d & -> & _)|Hkin]]].
          + eapply Hkey; eauto.
          + eapply Hnd; reflexivity.
          + eapply Hnl; reflexivity.
          + apply Hn. exists k. auto.
        - right. exists k. split; [exact Hc|]. split; [exact Hk|].
          apply key_in_cons. auto. }
      destruct value as [| | | | |xs|d]; try (apply Htail; intros; discriminate).
      * (* a sequence *)
        destruct (check_each_answer ops xs (Walk.check_items ops l) (Hlist xs eq_refl))
          as [[He Hnone]|(k & d & He & Hk & Hin & Hkin)]; rewrite He.
        -- destruct IHl as [[Hc Hn]|(k & Hc & Hk & Hkin)].
           ++ left. split; [exact Hc|]. intros (k & Hk & Hkin).
              apply key_in_cons in Hkin as [->|[(d & [=] & _)|[(xs' & d & [= <-] & Hin & Hkin)|Hkin]]].
              ** eapply Hkey; eauto.
              ** eapply Hnone; eauto.
              ** apply Hn. exists k. auto.
           ++ right. exists k. split; [exact Hc|]. split; [exact Hk|].
              apply key_in_cons. auto.
        -- right. exists k. split; [reflexivity|]. split; [exact Hk|].
           apply key_in_cons. right; right; left. eauto.
      * (* a nested mapping *)
        change (Helpers.check_dict ops (JDict d)) with (Walk.check_items ops d).
        destruct (Hdict d eq_refl) as [[Hd Hnd]|(k & Hd & Hk & Hkin)]; rewrite Hd.
        -- simpl. destruct IHl as [[Hc Hn]|(k & Hc & Hk & Hkin)].
           ++ left. split; [exact Hc|]. intros (k & Hk & Hkin).
              apply key_in_cons in Hkin as [->|[(d' & [= <-] & Hkin)|[(xs' & d' & [=] & _)|Hkin]]].
              ** eapply Hkey; eauto.
              ** apply Hnd. exists k. auto.
              ** apply Hn. exists k. auto.
           ++ right. exists k. split; [exact Hc|]. split; [exact Hk|].
              apply key_in_cons. auto.
        -- rewrite some_text_message. right. exists k. split; [reflexivity|].
           split; [exact Hk|]. apply key_in_cons. right; left. eauto.
Qed.

End MongoValidator.

Section MongoValidatorVerdicts.

Lemma validate_mongo_safety_mapping (d : dict) :
  (Helpers.validate_mongo_safety (JDict d) = Ok (Verdict true None)
   /\ ~ Spec.denied Helpers.dangerous_operators (JDict d))
  \/ (exists k, Helpers.validate_mongo_safety (JDict d)
                = Ok (Verdict false (Some (operator_message k)))
                /\ In k Helpers.dangerous_operators /\ Spec.key_in k (JDict d)).
Proof.
  destruct (check_dict_answer Helpers.dangerous_operators (JDict d)) as [H _].
  unfold Helpers.validate_mongo_safety.
  change (Helpers.check_dict Helpers.dangerous_operators (JDict d))
    with (Walk.check_items Helpers.dangerous_operators d).
  destruct (H d eq_refl) as [[Hc Hn]|(k & Hc & Hk & Hkin)]; rewrite Hc.
  - left. auto.
  - right. exists k. rewrite some_text_message. auto.
Qed.

Lemma validate_mongo_safety_non_mapping (query : json) :
  (forall d, query <> JDict d) ->
  Helpers.validate_mongo_safety query = Raise (Py.no_attribute query "items").
Proof.
  intros H. destruct query; try reflexivity. exfalso. eapply H. reflexivity.
Qed.




Lemma is_safe_query_non_mapping (query : json) :
  (forall d, query <> JDict d) ->
  MongoDBMCPClient._is_safe_query query = Raise (Py.no_attribute query "items").
Proof.
  intros H. destruct query; try reflexivity. exfalso. eapply H. reflexivity.
Qed.



End MongoValidatorVerdicts.

(** ** The document validators under the recursion limit *)

Section BoundedWalk.


















End BoundedWalk.

(** ** Running monadic code *)

Section MonadFacts.

Lemma set_sdk_calls_same (s : state) : set_sdk_calls (sdk_calls s) s = s.
Proof. destruct s; reflexivity. Qed.

Lemma quiet_sdk_only {A} (m : M A) : quiet m -> sdk_only m.
Proof. intros H s. destruct (H s) as (a & n & E). eauto. Qed.

Lemma quiet_ret {A} (a : A) : quiet (ret a).
Proof. intros s. exists a, (sdk_calls s). unfold ret. rewrite set_sdk_calls_same. reflexivity. Qed.

Lemma quiet_bind {A B} (m : M A) (k : A -> M B) :
  quiet m -> (forall a, quiet (k a)) -> quiet (bind m k).
Proof.
  intros Hm Hk s. unfold bind. destruct (Hm s) as (a & n & ->).
  destruct (Hk a (set_sdk_calls n s)) as (b & n' & ->). exists b, n'. reflexivity.
Qed.

Lemma sdk_only_ret {A} (a : A) : sdk_only (ret a).
Proof. apply quiet_sdk_only, quiet_ret. Qed.

Lemma sdk_only_bind {A B} (m : M A) (k : A -> M B) :
  sdk_only m -> (forall a, sdk_only (k a)) -> sdk_only (bind m k).
Proof.
  intros Hm Hk s. unfold bind. destruct (Hm s) as ([a|e] & n & ->).
  - destruct (Hk a (set_sdk_calls n s)) as (o & n' & ->). exists o, n'. reflexivity.
  - eauto.
Qed.

Lemma sdk_only_lift {A} (o : outcome A) : sdk_only (lift o).
Proof.
  intros s. exists o, (sdk_calls s). unfold lift. rewrite set_sdk_calls_same. reflexivity.
Qed.

Lemma quiet_try_except {A} (m : M A) (h : exn -> M A) :
  sdk_only m -> (forall e, quiet (h e)) -> quiet (try_except m h).
Proof.
  intros Hm Hh s. unfold try_except. destruct (Hm s) as ([a|e] & n & ->).
  - eauto.
  - destruct (Hh e (set_sdk_calls n s)) as (b & n' & ->). exists b, n'. reflexivity.
Qed.

Lemma quiet_when (b : bool) (m : M unit) : quiet m -> quiet (when b m).
Proof. destruct b; [auto | intros _; apply quiet_ret]. Qed.

Lemma sdk_only_when (b : bool) (m : M unit) : sdk_only m -> sdk_only (when b m).
Proof. destruct b; [auto | intros _; apply sdk_only_ret]. Qed.

Lemma wp_run {A} (m : M A) (s : state) (Q : outcome A -> state -> Prop) :
  (forall o s', m s = (o, s') -> Q o s') -> wp m s Q.
Proof. intros H. destruct (m s) as [o s'] eqn:E. exists o, s'. auto. Qed.

Lemma wp_mono {A} (m : M A) s (Q Q' : outcome A -> state -> Prop) :
  wp m s Q -> (forall o s', Q o s' -> Q' o s') -> wp m s Q'.
Proof. intros (o & s' & E & H) HQ. exists o, s'. auto. Qed.

Lemma wp_ret {A} (a : A) s (Q : outcome A -> state -> Prop) :
  Q (Ok a) s -> wp (ret a) s Q.
Proof. intros H. exists (Ok a), s. auto. Qed.

Lemma wp_raise {A} (e : exn) s (Q : outcome A -> state -> Prop) :
  Q (Raise e) s -> wp (raise e) s Q.
Proof. intros H. exists (Raise e), s. auto. Qed.

Lemma wp_lift {A} (o : outcome A) s (Q : outcome A -> state -> Prop) :
  Q o s -> wp (lift o) s Q.
Proof. intros H. exists o, s. auto. Qed.

Lemma wp_gets {A} (f : state -> A) s (Q : outcome A -> state -> Prop) :
  Q (Ok (f s)) s -> wp (gets f) s Q.
Proof. intros H. exists (Ok (f s)), s. auto. Qed.

Lemma wp_modify (f : state -> state) s (Q : outcome unit -> state -> Prop) :
  Q (Ok tt) (f s) -> wp (modify f) s Q.
Proof. intros H. exists (Ok tt), (f s). auto. Qed.

Lemma wp_bind {A B} (m : M A) (k : A -> M B) s (Q : outcome B -> state -> Prop) :
  wp m s (fun o s1 => match o with
                      | Ok a => wp (k a) s1 Q
                      | Raise e => Q (Raise e) s1
                      end) ->
  wp (bind m k) s Q.
Proof.
  intros (o & s1 & E & H). unfold wp, bind. rewrite E. destruct o as [a|e].
  - exact H.
  - exists (Raise e), s1. auto.
Qed.

Lemma wp_try_except {A} (m : M A) (h : exn -> M A) s (Q : outcome A -> state -> Prop) :
  wp m s (fun o s1 => match o with
                      | Ok a => Q (Ok a) s1
                      | Raise e => wp (h e) s1 Q
                      end) ->
  wp (try_except m h) s Q.
Proof.
  intros (o & s1 & E & H). unfold wp, try_except. rewrite E. destruct o as [a|e].
  - exists (Ok a), s1. auto.
  - exact H.
Qed.

Lemma wp_try_finally {A} (m : M A) (f : M unit) s (Q : outcome A -> state -> Prop) :
  wp m s (fun o s1 =>
            wp f s1 (fun o' s2 => match o' with
                                  | Ok _ => Q o s2
                                  | Raise e => Q (Raise e) s2
                                  end)) ->
  wp (try_finally m f) s Q.
Proof.
  intros (o & s1 & E & o' & s2 & E' & H). unfold wp, try_finally. rewrite E, E'.
  destruct o'; eauto.
Qed.

Lemma wp_quiet {A} (m : M A) s (Q : outcome A -> state -> Prop) :
  quiet m -> (forall a n, Q (Ok a) (set_sdk_calls n s)) -> wp m s Q.
Proof. intros Hm H. destruct (Hm s) as (a & n & E). exists (Ok a), (set_sdk_calls n s). auto. Qed.

Lemma wp_sdk_only {A} (m : M A) s (Q : outcome A -> state -> Prop) :
  sdk_only m -> (forall o n, Q o (set_sdk_calls n s)) -> wp m s Q.
Proof. intros Hm H. destruct (Hm s) as (o & n & E). exists o, (set_sdk_calls n s). auto. Qed.

Lemma keeps_ret {A B} (f : state -> B) (a : A) : keeps f (ret a).
Proof. intros s o s' [= <- <-]. reflexivity. Qed.

Lemma keeps_raise {A B} (f : state -> B) (e : exn) : keeps f (@raise A e).
Proof. intros s o s' [= <- <-]. reflexivity. Qed.

Lemma keeps_lift {A B} (f : state -> B) (o : outcome A) : keeps f (lift o).
Proof. intros s o' s' [= <- <-]. reflexivity. Qed.

Lemma keeps_gets {B C} (f : state -> B) (g : state -> C) : keeps f (gets g).
Proof. intros s o s' [= <- <-]. reflexivity. Qed.

Lemma keeps_modify {B} (f : state -> B) (g : state -> state) :
  (forall s, f (g s) = f s) -> keeps f (modify g).
Proof. intros H s o s' [= <- <-]. apply H. Qed.

Lemma keeps_bind {A B C} (f : state -> C) (m : M A) (k : A -> M B) :
  keeps f m -> (forall a, keeps f (k a)) -> keeps f (bind m k).
Proof.
  intros Hm Hk s o s'. unfold bind. destruct (m s) as [[a|e] s1] eqn:E.
  - intros Hr. rewrite (Hk a _ _ _ Hr). eapply Hm; eauto.
  - intros [= <- <-]. eapply Hm; eauto.
Qed.

Lemma keeps_try_except {A C} (f : state -> C) (m : M A) (h : exn -> M A) :
  keeps f m -> (forall e, keeps f (h e)) -> keeps f (try_except m h).
Proof.
  intros Hm Hh s o s'. unfold try_except. destruct (m s) as [[a|e] s1] eqn:E.
  - intros [= <- <-]. eapply Hm; eauto.
  - intros Hr. rewrite (Hh e _ _ _ Hr). eapply Hm; eauto.
Qed.

Lemma keeps_sdk_only {A B} (f : state -> B) (m : M A) :
  (forall n s, f (set_sdk_calls n s) = f s) -> sdk_only m -> keeps f m.
Proof.
  intros Hf Hm s o s' E. destruct (Hm s) as (o' & n & E'). rewrite E' in E.
  injection E as <- <-. apply Hf.
Qed.

Lemma wp_alloc (v : json) s (Q : outcome loc -> state -> Prop) :
  Q (Ok (fresh (dom (objects s))))
    (set_objects (<[fresh (dom (objects s)) := v]> (objects s)) s) ->
  wp (Store.alloc v) s Q.
Proof. intros H. eexists _, _. split; [reflexivity | exact H]. Qed.

End MonadFacts.

(** ** The tracer never raises and never touches the functional state *)

Section TracerFacts.
Variable E : env.

Lemma sdk_call_sdk_only : sdk_only (Langfuse.sdk_call E).
Proof.
  intros s. unfold Langfuse.sdk_call. destruct (sdk_fault E (sdk_calls s)); eauto.
Qed.

Ltac quiet_step :=
  first
    [ apply quiet_ret
    | apply quiet_bind; [|intros ?]
    | apply quiet_try_except; [|intros ?]
    | apply quiet_when
    | apply sdk_only_ret
    | apply sdk_call_sdk_only
    | apply sdk_only_when
    | apply sdk_only_bind; [|intros ?] ].

Lemma langfuse_start_span_quiet : quiet (Langfuse.start_span E).
Proof. unfold Langfuse.start_span. destruct (negb _); repeat quiet_step. Qed.

Lemma langfuse_end_span_quiet sp b : quiet (Langfuse.end_span E sp b).
Proof. unfold Langfuse.end_span. destruct sp; repeat quiet_step. Qed.

Lemma langfuse_start_generation_quiet sp : quiet (Langfuse.start_generation E sp).
Proof. unfold Langfuse.start_generation. destruct sp; repeat quiet_step. Qed.

Lemma langfuse_end_generation_quiet g : quiet (Langfuse.end_generation E g).
Proof. unfold Langfuse.end_generation. destruct g; repeat quiet_step. Qed.

Lemma langfuse_flush_quiet : quiet (Langfuse.flush E).
Proof. unfold Langfuse.flush. destruct (langfuse_enabled E); repeat quiet_step. Qed.

Lemma start_trace_quiet t : quiet (QueryTracer.start_trace E t).
Proof.
  unfold QueryTracer.start_trace. destruct (langfuse_enabled E); [|apply quiet_ret].
  apply quiet_bind; [apply langfuse_start_span_quiet | intros; apply quiet_ret].
Qed.

Lemma start_span_quiet t : quiet (QueryTracer.start_span E t).
Proof.
  unfold QueryTracer.start_span. destruct (_ && _)%bool; repeat quiet_step.
Qed.

Lemma end_span_quiet t b : quiet (QueryTracer.end_span E t b).
Proof.
  unfold QueryTracer.end_span. destruct (current_span t); repeat quiet_step.
Qed.

Lemma log_generation_quiet t : quiet (QueryTracer.log_generation E t).
Proof.
  unfold QueryTracer.log_generation. destruct (_ && _)%bool; [|apply quiet_ret].
  apply quiet_bind; [apply langfuse_start_generation_quiet | intros g].
  apply quiet_bind; [apply langfuse_end_generation_quiet | intros; apply quiet_ret].
Qed.

Lemma log_score_quiet t : quiet (QueryTracer.log_score E t).
Proof. unfold QueryTracer.log_score. destruct (root_span t); repeat quiet_step. Qed.

Lemma finish_quiet t : quiet (QueryTracer.finish E t).
Proof.
  unfold QueryTracer.finish. apply quiet_bind; [|intros; apply langfuse_flush_quiet].
  destruct (root_span t); [apply langfuse_end_span_quiet | apply quiet_ret].
Qed.

End TracerFacts.

Create HintDb tracer.

#[local] Hint Resolve start_trace_quiet start_span_quiet end_span_quiet
  log_generation_quiet log_score_quiet finish_quiet : tracer.

(** One step of a run: a tracer call, a lifted outcome, a state access. *)
Ltac wp_step :=
  cbv beta iota zeta;
  lazymatch goal with
  | |- wp (bind (lift _) _) _ _ => apply wp_bind, wp_lift
  | |- wp (bind (gets _) _) _ _ => apply wp_bind, wp_gets
  | |- wp (bind (modify _) _) _ _ => apply wp_bind, wp_modify
  | |- wp (bind (DatabaseAgent.update_result _) _) _ _ => apply wp_bind, wp_modify
  | |- wp (bind (DatabaseAgent.history_append _) _) _ _ => apply wp_bind, wp_modify
  | |- wp (bind (bind _ _) _) _ _ => apply wp_bind
  | |- wp (bind (Store.alloc _) _) _ _ => apply wp_bind, wp_alloc
  | |- wp (bind (ret _) _) _ _ => apply wp_bind, wp_ret
  | |- wp (bind (raise _) _) _ _ => apply wp_bind, wp_raise
  | |- wp (bind (QueryTracer.start_trace _ _) _) _ _ =>
      apply wp_bind, wp_quiet; [solve [auto with tracer] | intros ? ?]
  | |- wp (bind (QueryTracer.start_span _ _) _) _ _ =>
      apply wp_bind, wp_quiet; [solve [auto with tracer] | intros ? ?]
  | |- wp (bind (QueryTracer.end_span _ _ _) _) _ _ =>
      apply wp_bind, wp_quiet; [solve [auto with tracer] | intros ? ?]
  | |- wp (bind (QueryTracer.log_generation _ _) _) _ _ =>
      apply wp_bind, wp_quiet; [solve [auto with tracer] | intros ? ?]
  | |- wp (bind (QueryTracer.log_score _ _) _) _ _ =>
      apply wp_bind, wp_quiet; [solve [auto with tracer] | intros ? ?]
  | |- wp (bind (QueryTracer.finish _ _) _) _ _ =>
      apply wp_bind, wp_quiet; [solve [auto with tracer] | intros ? ?]
  | |- wp (QueryTracer.finish _ _) _ _ =>
      apply wp_quiet; [solve [auto with tracer] | intros ? ?]
  | |- wp (bind (try_finally _ _) _) _ _ => apply wp_bind, wp_try_finally
  | |- wp (bind (try_except _ _) _) _ _ => apply wp_bind, wp_try_except
  | |- wp (gets _) _ _ => apply wp_gets
  | |- wp (modify _) _ _ => apply wp_modify
  | |- wp (DatabaseAgent.update_result _) _ _ => apply wp_modify
  | |- wp (DatabaseAgent.history_append _) _ _ => apply wp_modify
  | |- wp (ret _) _ _ => apply wp_ret
  | |- wp (raise _) _ _ => apply wp_raise
  | |- wp (lift _) _ _ => apply wp_lift
  | |- wp (try_except _ _) _ _ => apply wp_try_except
  | |- wp (try_finally _ _) _ _ => apply wp_try_finally
  end.

Section GeneratorFacts.
Variable E : env.

(** The traced generators return their answer, whatever the tracer does. *)
Lemma sql_generate_answer schema user_query history s :
  exists n, SQLGenerator.generate E schema user_query history s
            = (Ok (Answer.answer E "postgresql" schema user_query history),
               set_sdk_calls n s).
Proof.
  cut (wp (SQLGenerator.generate E schema user_query history) s
          (fun o s' => o = Ok (Answer.answer E "postgresql" schema user_query history)
                       /\ exists n, s' = set_sdk_calls n s)).
  { intros (o & s' & Hr & -> & n & ->). eauto. }
  unfold SQLGenerator.generate, Answer.answer, Answer.attempt, Answer.model_reply,
    Answer.parsed_reply, Answer.safety_step, Answer.generator_failure.
  cbn [Answer.relational String.eqb Ascii.eqb Bool.eqb].
  do 3 wp_step.
  destruct (llm_sql E _) as [text|e]; [|repeat wp_step; eauto].
  wp_step. destruct (SQLGenerator._parse_response E text) as [parsed|e];
    [|repeat wp_step; eauto].
  do 2 wp_step. destruct (SQLGenerator.check_safety E parsed) as [answer|e];
    repeat wp_step; eauto.
Qed.

Lemma mongo_generate_answer database schema user_query history s :
  Answer.relational database = false ->
  exists n, MongoQueryGenerator.generate E schema user_query history s
            = (Ok (Answer.answer E database schema user_query history),
               set_sdk_calls n s).
Proof.
  intros Hdb.
  cut (wp (MongoQueryGenerator.generate E schema user_query history) s
          (fun o s' => o = Ok (Answer.answer E database schema user_query history)
                       /\ exists n, s' = set_sdk_calls n s)).
  { intros (o & s' & Hr & -> & n & ->). eauto. }
  unfold MongoQueryGenerator.generate, Answer.answer, Answer.attempt, Answer.model_reply,
    Answer.parsed_reply, Answer.safety_step, Answer.generator_failure.
  rewrite Hdb.
  do 3 wp_step.
  destruct (llm_mongo E _) as [text|e]; [|repeat wp_step; eauto].
  wp_step. destruct (MongoQueryGenerator._parse_response E text) as [parsed|e];
    [|repeat wp_step; eauto].
  do 2 wp_step. destruct (MongoQueryGenerator.check_safety parsed) as [answer|e];
    repeat wp_step; eauto.
Qed.

(** The generation step of the orchestrator. *)
Lemma generation_step user_query s :
  let db := database (DatabaseAgent._fast_route E user_query) in
  exists n,
    (if String.eqb db "postgresql"
     then DatabaseAgent._generate_postgres_query E user_query
     else DatabaseAgent._generate_mongodb_query E user_query) s
    = (Answer.generated E db user_query (conversation_history s), set_sdk_calls n s).
Proof.
  intros db. unfold Answer.generated, Answer.store_client, Answer.store_context,
    Answer.unavailable.
  destruct (String.eqb db "postgresql") eqn:Hdb.
  - apply String.eqb_eq in Hdb. rewrite Hdb.
    cbn [Answer.relational String.eqb Ascii.eqb Bool.eqb].
    unfold DatabaseAgent._generate_postgres_query, DatabaseAgent.sql_generator.
    destruct (postgres_client E).
    + destruct (postgres_context E) as [schema|e].
      * destruct (sql_generate_answer schema user_query (conversation_history s) s)
          as [n Hn].
        exists n. unfold bind, lift, ret, gets. exact Hn.
      * exists (sdk_calls s). rewrite set_sdk_calls_same. reflexivity.
    + exists (sdk_calls s). rewrite set_sdk_calls_same. reflexivity.
  - unfold Answer.relational. rewrite Hdb.
    unfold DatabaseAgent._generate_mongodb_query, DatabaseAgent.mongo_generator.
    destruct (mongodb_client E).
    + destruct (mongodb_context E) as [schema|e].
      * destruct (mongo_generate_answer db schema user_query (conversation_history s) s Hdb)
          as [n Hn].
        exists n. unfold bind, lift, ret, gets. exact Hn.
      * exists (sdk_calls s). rewrite set_sdk_calls_same. reflexivity.
    + exists (sdk_calls s). rewrite set_sdk_calls_same. reflexivity.
Qed.

End GeneratorFacts.

(** ** The execution step leaves history, result and tracer count alone *)

Section ExecutionFrame.
Variable E : env.
Context {B : Type} (f : state -> B).
Hypothesis f_objects : forall o s, f (set_objects o s) = f s.
Hypothesis f_tool_calls : forall t s, f (set_tool_calls t s) = f s.
Hypothesis f_db_calls : forall d s, f (set_db_calls d s) = f s.

Ltac keeps_step :=
  first
    [ solve [auto]
    | apply keeps_ret | apply keeps_raise | apply keeps_lift | apply keeps_gets
    | apply keeps_modify; intros; solve [auto]
    | apply keeps_bind; [|intros ?]
    | apply keeps_try_except; [|intros ?]
    | match goal with
      | |- keeps _ (match ?x with _ => _ end) => destruct x
      | |- keeps _ (when ?b _) => destruct b; unfold when
      end ].

Lemma keeps_deref_dict g : keeps f (Store.deref_dict g).
Proof.
  intros s o s'. unfold Store.deref_dict.
  destruct (objects s !! g) as [[]|]; intros [= <- <-]; reflexivity.
Qed.

Lemma keeps_deref r : keeps f (Store.deref r).
Proof.
  pose proof keeps_deref_dict. unfold Store.deref. destruct r; repeat keeps_step.
Qed.

Lemma keeps_append r x : keeps f (Store.append r x).
Proof.
  pose proof keeps_deref_dict. unfold Store.append. destruct r; repeat keeps_step.
Qed.

Lemma keeps_frame_of rows : keeps f (Connector.frame_of E rows).
Proof. unfold Connector.frame_of. repeat keeps_step. Qed.

Lemma keeps_log_db c : keeps f (Connector.log_db c).
Proof. unfold Connector.log_db. repeat keeps_step. Qed.

Lemma keeps_execute_query sql : keeps f (Connector.execute_query E sql).
Proof.
  pose proof keeps_frame_of. pose proof keeps_log_db.
  unfold Connector.execute_query. repeat keeps_step.
Qed.

Lemma keeps_execute_find c fq p so l : keeps f (Connector.execute_find E c fq p so l).
Proof.
  pose proof keeps_frame_of. pose proof keeps_log_db.
  unfold Connector.execute_find. repeat keeps_step.
Qed.

Lemma keeps_execute_aggregate c p l : keeps f (Connector.execute_aggregate E c p l).
Proof.
  pose proof keeps_frame_of. pose proof keeps_log_db.
  pose proof keeps_deref. pose proof keeps_append.
  unfold Connector.execute_aggregate. repeat keeps_step.
Qed.

Lemma keeps_execute_tool call : keeps f (MCPManager.execute_tool E call).
Proof.
  pose proof keeps_execute_query. pose proof keeps_execute_find.
  pose proof keeps_execute_aggregate. pose proof keeps_deref.
  unfold MCPManager.execute_tool, PostgresMCPClient._handle_query,
    MongoDBMCPClient._handle_find, MongoDBMCPClient._handle_aggregate.
  destruct call; repeat keeps_step.
Qed.

Lemma keeps__execute_query db g : keeps f (DatabaseAgent._execute_query E db g).
Proof.
  pose proof keeps_execute_tool. pose proof keeps_deref_dict.
  unfold DatabaseAgent._execute_query. repeat keeps_step.
Qed.

End ExecutionFrame.

(** ** One request, from call to return *)

Section ProcessQuery.
Variable E : env.

Lemma wp_generation user_query s (Q : outcome dict -> state -> Prop) :
  (forall n, Q (Answer.generated E (database (DatabaseAgent._fast_route E user_query))
                  user_query (conversation_history s))
               (set_sdk_calls n s)) ->
  wp (if String.eqb (database (DatabaseAgent._fast_route E user_query)) "postgresql"
      then DatabaseAgent._generate_postgres_query E user_query
      else DatabaseAgent._generate_mongodb_query E user_query) s Q.
Proof.
  intros H. destruct (generation_step E user_query s) as [n Hn].
  eexists _, _. split; [exact Hn | apply H].
Qed.

Theorem process_query_run (user_query : string) (s : state) :
  exists r s', DatabaseAgent.process_query E user_query s = (Ok r, s')
               /\ processed E user_query s r s'.
Proof.
  cut (wp (DatabaseAgent.process_query E user_query) s
          (fun o s' => exists r, o = Ok r /\ processed E user_query s r s')).
  { intros (o & s' & Hr & r & -> & H). eauto. }
  unfold DatabaseAgent.process_query, DatabaseAgent.process_query_try,
    DatabaseAgent.process_query_except.
  do 8 wp_step.
  apply wp_bind, wp_generation. intros ngen.
  cbn [conversation_history set_sdk_calls set_result].
  destruct (Answer.generated E _ user_query (conversation_history s)) as [gen|e] eqn:Hgen.
  2:{ repeat wp_step. eexists. split; [reflexivity|].
      unfold processed, routed_database. rewrite Hgen.
      cbn. repeat split. }
  do 2 wp_step.
  cbn [objects conversation_history tool_calls db_calls result
       set_sdk_calls set_result set_objects].
  destruct (Py.truthy (Py.get gen "success")) eqn:Hsuccess; cbn [negb].
  2:{ repeat wp_step. eexists. split; [reflexivity|].
      unfold processed, routed_database. rewrite Hgen, Hsuccess.
      cbn. repeat split. }
  do 2 wp_step.
  apply wp_bind, wp_run. intros xo sx Hexec.
  pose proof (keeps__execute_query E conversation_history
                ltac:(reflexivity) ltac:(reflexivity) ltac:(reflexivity)
                _ _ _ _ _ Hexec) as Hhist.
  pose proof (keeps__execute_query E result
                ltac:(reflexivity) ltac:(reflexivity) ltac:(reflexivity)
                _ _ _ _ _ Hexec) as Hres.
  cbn in Hhist, Hres.
  match type of Hexec with _ _ _ _ ?st = _ => set (s0 := st) in Hexec end.
  assert (Hconc : forall r sfin,
             objects sfin = objects sx -> tool_calls sfin = tool_calls sx ->
             db_calls sfin = db_calls sx ->
             concluded E user_query s gen xo r (conversation_history sfin) ->
             processed E user_query s r sfin).
  { intros r sfin Ho Ht Hd Hc. unfold processed, routed_database.
    rewrite Hgen, Hsuccess. exists s0, xo, sx. repeat split; auto. }
  destruct xo as [x|e].
  - wp_step. destruct (x_success x) eqn:Hx; cbn [negb].
    + wp_step.
      destruct (DatabaseAgent.from_option (x_data x) []) as [|row rows] eqn:Hrows.
      * repeat wp_step. eexists. split; [reflexivity|]. apply Hconc; try reflexivity.
        unfold concluded, recorded. rewrite Hx, Hrows. cbn. rewrite Hres, Hhist.
        split; [reflexivity|]. rewrite <- app_assoc. reflexivity.
      * wp_step. destruct (make_dataframe E (row :: rows)) eqn:Hframe.
        -- repeat wp_step. eexists. split; [reflexivity|]. apply Hconc; try reflexivity.
           unfold concluded, recorded. rewrite Hx, Hrows, Hframe. cbn.
           rewrite Hres, Hhist.
           split; [reflexivity|]. rewrite <- app_assoc. reflexivity.
        -- repeat wp_step. eexists. split; [reflexivity|]. apply Hconc; try reflexivity.
           unfold concluded, recorded. rewrite Hx, Hrows, Hframe. cbn.
           rewrite Hres, Hhist. split; reflexivity.
    + repeat wp_step. eexists. split; [reflexivity|]. apply Hconc; try reflexivity.
      unfold concluded. rewrite Hx. cbn. rewrite Hres, Hhist. split; reflexivity.
  - repeat wp_step. eexists. split; [reflexivity|]. apply Hconc; try reflexivity.
    unfold concluded. cbn. rewrite Hres, Hhist. split; reflexivity.
Qed.


End ProcessQuery.

(** ** The relational validator: the rule *)

Section SqlRule.

Lemma unsafe_iff_blocked_or_many (blocked : list string) (sql : string) :
  safe (Helpers.validate_sql_safety sql blocked) = false <->
  (exists kw, In kw blocked /\ Spec.occurs_ignoring_case kw sql)
  \/ Spec.many_terminators sql.
Proof.
  unfold Helpers.validate_sql_safety.
  destruct (Helpers.first_blocked (PyStr.upper sql) blocked) as [kw|] eqn:Hf.
  - apply first_blocked_some in Hf as [Hin Hc]. apply contains_upper_spec in Hc.
    simpl. split; [intros _; left; eauto | reflexivity].
  - rewrite first_blocked_none in Hf.
    destruct (Nat.ltb 1 (PyStr.count PyStr.semicolon sql)) eqn:Hn; simpl.
    + apply Nat.ltb_lt in Hn. split; [intros _; right|reflexivity].
      apply count_two_spec. lia.
    + apply Nat.ltb_ge in Hn. split; [discriminate|].
      intros [(kw & Hin & Hocc)|Hm].
      * apply contains_upper_spec in Hocc. rewrite (Hf _ Hin) in Hocc. discriminate.
      * apply count_two_spec in Hm. lia.
Qed.


Lemma drop_table_holds_drop (sql : string) :
  Spec.occurs_ignoring_case "DROP TABLE" sql -> Spec.occurs_ignoring_case "DROP" sql.
Proof.
  intros (pre & t & post & -> & Ht).
  change (PyStr.lower "DROP TABLE") with ("drop" +:+ " table") in Ht.
  unfold PyStr.lower in Ht.
  apply map_chars_split in Ht as (t1 & t2 & -> & Ht1 & Ht2).
  exists pre, t1, (t2 +:+ post). split.
  - rewrite append_assoc. reflexivity.
  - exact Ht1.
Qed.

Lemma first_blocked_with_upper (su : string) (blocked : list string) :
  Helpers.first_blocked_with PyStr.upper su blocked = Helpers.first_blocked su blocked.
Proof. induction blocked as [|k rest IH]; simpl; [|rewrite IH]; reflexivity. Qed.

Lemma first_blocked_with_none (upper : string -> string) (su : string)
      (blocked : list string) :
  Helpers.first_blocked_with upper su blocked = None <->
  forall kw, In kw blocked -> PyStr.contains (upper kw) su = false.
Proof.
  induction blocked as [|k rest IH]; simpl.
  - split; [intros _ kw [] | reflexivity].
  - destruct (PyStr.contains (upper k) su) eqn:Hk.
    + split; [discriminate|]. intros H. specialize (H k (or_introl eq_refl)). congruence.
    + rewrite IH. split.
      * intros H kw [<-|Hin]; auto.
      * intros H kw Hin. apply H. auto.
Qed.

Lemma first_blocked_with_some (upper : string -> string) (su : string)
      (blocked : list string) (kw : string) :
  Helpers.first_blocked_with upper su blocked = Some kw ->
  exists before after,
    blocked = before ++ kw :: after
    /\ PyStr.contains (upper kw) su = true
    /\ forall k, In k before -> PyStr.contains (upper k) su = false.
Proof.
  induction blocked as [|k rest IH]; simpl; [discriminate|].
  destruct (PyStr.contains (upper k) su) eqn:Hk.
  - intros [= <-]. exists [], rest. repeat split; [exact Hk | intros ? []].
  - intros H. destruct (IH H) as (before & after & -> & Hc & Hb).
    exists (k :: before), after. repeat split; [exact Hc|].
    intros k' [<-|Hin]; auto.
Qed.

Lemma unsafe_with_iff (upper : string -> string) (blocked : list string) (sql : string) :
  safe (Helpers.validate_sql_safety_with upper sql blocked) = false <->
  (exists kw, In kw blocked /\ PyStr.contains (upper kw) (upper sql) = true)
  \/ (2 <= PyStr.count PyStr.semicolon sql)%nat.
Proof.
  unfold Helpers.validate_sql_safety_with.
  destruct (Helpers.first_blocked_with upper (upper sql) blocked) as [kw|] eqn:Hf.
  - apply first_blocked_with_some in Hf as (before & after & -> & Hc & _).
    simpl. split; [intros _; left; exists kw; split; [apply in_elt | exact Hc]
                  | reflexivity].
  - rewrite first_blocked_with_none in Hf.
    destruct (Nat.ltb 1 (PyStr.count PyStr.semicolon sql)) eqn:Hn; simpl.
    + apply Nat.ltb_lt in Hn. split; [intros _; right; lia | reflexivity].
    + apply Nat.ltb_ge in Hn. split; [discriminate|].
      intros [(kw & Hin & Hocc)|Hm]; [|lia].
      rewrite (Hf _ Hin) in Hocc. discriminate.
Qed.

Lemma verdict_with_reason (upper : string -> string) (blocked : list string)
      (sql : string) :
  match Helpers.validate_sql_safety_with upper sql blocked with
  | Verdict true r => r = None
  | Verdict false r =>
      (exists before kw after,
          blocked = before ++ kw :: after
          /\ PyStr.contains (upper kw) (upper sql) = true
          /\ (forall k, In k before -> PyStr.contains (upper k) (upper sql) = false)
          /\ r = Some ("Query contains blocked keyword: " +:+ kw))
      \/ ((forall k, In k blocked -> PyStr.contains (upper k) (upper sql) = false)
          /\ r = Some "Multiple SQL statements not allowed")
  end.
Proof.
  unfold Helpers.validate_sql_safety_with.
  destruct (Helpers.first_blocked_with upper (upper sql) blocked) as [kw|] eqn:Hf.
  - apply first_blocked_with_some in Hf as (before & after & -> & Hc & Hb).
    left. exists before, kw, after. auto.
  - rewrite first_blocked_with_none in Hf.
    destruct (Nat.ltb 1 (PyStr.count PyStr.semicolon sql)); [right; auto | reflexivity].
Qed.

(** C2, amended.  [validate_sql_safety] answers unsafe exactly when the
    upper-cased text holds the upper-cased form of an entry of the
    denylist as a substring, or the text holds two or more [;]; the reason
    names the first such entry in list order, and the two-statement
    reason is given only when no entry matches.  This is so for whatever
    [str.upper] does to the text.  A text that holds an entry without
    regard to (ASCII) case, or two or more [;], is always rejected; on
    ASCII text nothing else is.  With the configured denylist (DROP,
    DELETE, TRUNCATE, UPDATE, INSERT, ALTER, CREATE, GRANT, REVOKE, EXEC,
    EXECUTE, MERGE, CALL) every text holding DROP TABLE in any case is
    rejected, and the well-formed [SELECT ... LIMIT 100] of the
    specification's scenario is accepted. *)
Theorem validate_sql_safety_denylist_rule :
  (forall (upper : string -> string) blocked sql,
      (safe (Helpers.validate_sql_safety_with upper sql blocked) = false <->
       (exists kw, In kw blocked /\ PyStr.contains (upper kw) (upper sql) = true)
       \/ (2 <= PyStr.count PyStr.semicolon sql)%nat)
      /\ match Helpers.validate_sql_safety_with upper sql blocked with
         | Verdict true r => r = None
         | Verdict false r =>
             (exists before kw after,
                 blocked = before ++ kw :: after
                 /\ PyStr.contains (upper kw) (upper sql) = true
                 /\ (forall k, In k before ->
                                PyStr.contains (upper k) (upper sql) = false)
                 /\ r = Some ("Query contains blocked keyword: " +:+ kw))
             \/ ((forall k, In k blocked ->
                             PyStr.contains (upper k) (upper sql) = false)
                 /\ r = Some "Multiple SQL statements not allowed")
         end)
  /\ (forall blocked sql,
         Helpers.validate_sql_safety_with PyStr.upper sql blocked
         = Helpers.validate_sql_safety sql blocked)
  /\ (forall blocked sql,
         (exists kw, In kw blocked /\ Spec.occurs_ignoring_case kw sql)
         \/ Spec.many_terminators sql ->
         safe (Helpers.validate_sql_safety sql blocked) = false)
  /\ (forall blocked sql,
         PyStr.isascii sql = true ->
         Forall (fun kw => PyStr.isascii kw = true) blocked ->
         safe (Helpers.validate_sql_safety sql blocked) = false ->
         (exists kw, In kw blocked /\ Spec.occurs_ignoring_case kw sql)
         \/ Spec.many_terminators sql)
  /\ Settings.blocked_sql_keywords
     = [ "DROP"; "DELETE"; "TRUNCATE"; "UPDATE"; "INSERT"; "ALTER"; "CREATE";
         "GRANT"; "REVOKE"; "EXEC"; "EXECUTE"; "MERGE"; "CALL" ]
  /\ (forall sql,
         Spec.occurs_ignoring_case "DROP TABLE" sql ->
         Helpers.validate_sql_safety sql Settings.blocked_sql_keywords
         = Verdict false (Some "Query contains blocked keyword: DROP"))
  /\ (forall blocked sql,
         (2 <= PyStr.count PyStr.semicolon sql)%nat ->
         safe (Helpers.validate_sql_safety sql blocked) = false)
  /\ Helpers.validate_sql_safety
       "SELECT * FROM customers WHERE city = 'New York' LIMIT 100"
       Settings.blocked_sql_keywords = Verdict true None.
Proof.
  split; [intros upper blocked sql; split;
          [apply unsafe_with_iff | apply verdict_with_reason]|].
  split.
  { intros blocked sql. unfold Helpers.validate_sql_safety_with.
    rewrite first_blocked_with_upper. reflexivity. }
  split; [intros blocked sql H; apply unsafe_iff_blocked_or_many; exact H|].
  split; [intros blocked sql _ _ H; apply unsafe_iff_blocked_or_many; exact H|].
  split; [reflexivity|].
  split; [|split; [|reflexivity]].
  - intros sql H. apply drop_table_holds_drop, contains_upper_spec in H.
    unfold Helpers.validate_sql_safety, Settings.blocked_sql_keywords.
    cbn [Helpers.first_blocked]. rewrite H. reflexivity.
  - intros blocked sql H. apply unsafe_iff_blocked_or_many. right.
    apply count_two_spec. exact H.
Qed.

(** C2, the counterexample.  With U+0131 for its first letter, [nsert into
    t values (1)] holds no entry of the denylist, whatever the ASCII case,
    and one statement; [str.upper] makes the letter an [I], and the
    validator rejects the text for INSERT. *)
Lemma upper_makes_a_keyword :
  Helpers.validate_sql_safety_with Unicode.upper Doubles.dotless_insert
    Settings.blocked_sql_keywords
  = Verdict false (Some "Query contains blocked keyword: INSERT")
  /\ Forall (fun kw => ~ Spec.occurs_ignoring_case kw Doubles.dotless_insert)
            Settings.blocked_sql_keywords
  /\ ~ Spec.many_terminators Doubles.dotless_insert.
Proof.
  split; [reflexivity|]. split.
  - repeat (constructor;
            [intros H; apply contains_upper_spec in H; vm_compute in H; discriminate H|]).
    constructor.
  - intros H. apply count_two_spec in H. vm_compute in H. lia.
Qed.

End SqlRule.

(** ** The keyword router *)

Section RouterFacts.

Lemma score_zero (keywords : list string) (text : string) :
  Router.score keywords text = 0%nat <->
  forall kw, In kw keywords -> PyStr.contains kw text = false.
Proof.
  induction keywords as [|k rest IH]; simpl.
  - split; [intros _ kw [] | reflexivity].
  - destruct (PyStr.contains k text) eqn:Hk.
    + split; [discriminate|]. intros H. specialize (H k (or_introl eq_refl)). congruence.
    + change (0 + Router.score rest text)%nat with (Router.score rest text).
      rewrite IH. split.
      * intros H kw [<-|Hin]; auto.
      * intros H kw Hin. apply H. auto.
Qed.

Lemma score_positive (keywords : list string) (text : string) :
  (0 < Router.score keywords text)%nat <->
  exists kw, In kw keywords /\ PyStr.contains kw text = true.
Proof.
  split.
  - intros H. destruct (Router.score keywords text) eqn:Hs; [lia|]. clear H.
    induction keywords as [|k rest IH]; simpl in Hs; [discriminate|].
    destruct (PyStr.contains k text) eqn:Hk.
    + exists k. simpl. auto.
    + destruct IH as (kw & Hin & Hc); [exact Hs|]. exists kw. simpl. auto.
  - intros (kw & Hin & Hc).
    destruct (Router.score keywords text) eqn:Hs; [|lia].
    rewrite score_zero in Hs. rewrite (Hs _ Hin) in Hc. discriminate.
Qed.

Lemma keywords_are_lower_case :
  Forall (fun kw => PyStr.lower kw = kw) (Router.mongo_keywords ++ Router.postgres_keywords).
Proof. repeat constructor. Qed.

Lemma keyword_contains_spec (kw text : string) :
  In kw (Router.mongo_keywords ++ Router.postgres_keywords) ->
  PyStr.contains kw (PyStr.lower text) = true <-> Spec.occurs_ignoring_case kw text.
Proof.
  intros Hin. rewrite <- contains_lower_spec.
  pose proof keywords_are_lower_case as Hl. rewrite List.Forall_forall in Hl.
  rewrite (Hl kw Hin). reflexivity.
Qed.

Lemma fast_route_rules (lower : string -> string) (available : list string)
      (question : string) :
  let document_score := Router.score Router.mongo_keywords (lower question) in
  let relational_score := Router.score Router.postgres_keywords (lower question) in
  let has_relational := Py.mem "postgresql" available in
  let has_document := Py.mem "mongodb" available in
  let answer := Router._fast_route_with lower available question in
  ((relational_score < document_score)%nat /\ has_document = true ->
   answer = Routing "mongodb" (QArith_base.Qmake 8 10))
  /\ (~ ((relational_score < document_score)%nat /\ has_document = true) ->
      (0 < relational_score)%nat /\ has_relational = true ->
      answer = Routing "postgresql" (QArith_base.Qmake 8 10))
  /\ (~ ((relational_score < document_score)%nat /\ has_document = true) ->
      ~ ((0 < relational_score)%nat /\ has_relational = true) ->
      has_relational = true ->
      answer = Routing "postgresql" (QArith_base.Qmake 6 10))
  /\ (~ ((relational_score < document_score)%nat /\ has_document = true) ->
      has_relational = false -> has_document = true ->
      answer = Routing "mongodb" (QArith_base.Qmake 6 10))
  /\ (has_relational = false -> has_document = false ->
      answer = Routing "postgresql" (QArith_base.Qmake 5 10))
  /\ (document_score = relational_score ->
      answer <> Routing "mongodb" (QArith_base.Qmake 8 10)
      /\ ((0 < relational_score)%nat -> has_relational = true ->
          answer = Routing "postgresql" (QArith_base.Qmake 8 10)))
  /\ ((exists kw, In kw Router.postgres_keywords
                  /\ PyStr.contains kw (lower question) = true) ->
      (forall kw, In kw Router.mongo_keywords ->
                  PyStr.contains kw (lower question) = false) ->
      has_relational = true -> has_document = true ->
      answer = Routing "postgresql" (QArith_base.Qmake 8 10)).
Proof.
  intros ds rs hr hd answer. subst answer. unfold Router._fast_route_with.
  fold ds rs hr hd.
  assert (Hrule2 : ~ ((rs < ds)%nat /\ hd = true) -> (0 < rs)%nat -> hr = true ->
            (if (Nat.ltb rs ds && hd)%bool then Routing "mongodb" (QArith_base.Qmake 8 10)
             else if (Nat.ltb 0 rs && hr)%bool then Routing "postgresql" (QArith_base.Qmake 8 10)
             else if hr then Routing "postgresql" (QArith_base.Qmake 6 10)
             else if hd then Routing "mongodb" (QArith_base.Qmake 6 10)
             else Routing "postgresql" (QArith_base.Qmake 5 10))
            = Routing "postgresql" (QArith_base.Qmake 8 10)).
  { intros H1 H2 H3.
    destruct (Nat.ltb_spec rs ds), hd; cbn [andb]; try (exfalso; apply H1; auto; fail);
      destruct (Nat.ltb_spec 0 rs); try lia; rewrite H3; reflexivity. }
  repeat split.
  - intros [H1 H2]. apply Nat.ltb_lt in H1. rewrite H1, H2. reflexivity.
  - intros H1 [H2 H3]. apply Hrule2; assumption.
  - intros H1 H2 H3.
    destruct (Nat.ltb_spec rs ds), hd; cbn [andb]; try (exfalso; apply H1; auto; fail);
      destruct (Nat.ltb_spec 0 rs); cbn [andb]; rewrite H3;
      try reflexivity; exfalso; apply H2; auto.
  - intros H1 H2 H3. rewrite H2, H3.
    destruct (Nat.ltb_spec rs ds); cbn [andb]; [exfalso; apply H1; auto|].
    rewrite Bool.andb_false_r. reflexivity.
  - intros H1 H2. rewrite H1, H2. rewrite !Bool.andb_false_r. reflexivity.
  - destruct (Nat.ltb_spec rs ds); [lia|]. cbn [andb].
    destruct (Nat.ltb 0 rs && hr)%bool; [discriminate|].
    destruct hr; [discriminate|]. destruct hd; discriminate.
  - intros H2 H3. apply Hrule2; [lia | exact H2 | exact H3].
  - intros Hsome Hnone H1 H2.
    assert (Hds : ds = 0%nat) by (apply score_zero; exact Hnone).
    assert (Hrs : (0 < rs)%nat) by (apply score_positive; exact Hsome).
    apply Hrule2; [lia | exact Hrs | exact H1].
Qed.

Lemma fast_route_with_lower (available : list string) (question : string) :
  Router._fast_route_with PyStr.lower available question
  = Router._fast_route available question.
Proof. reflexivity. Qed.

(** C4.  The fast router follows the five rules in order, on the keyword
    scores of the lower-cased question: the document store with 0.8 when
    the document score is the greater and that store is available; else
    the relational store with 0.8 when its score is not zero and it is
    available; then the availability defaults with 0.6, and the
    relational store with 0.5 when no store is configured.  Equal scores
    never take the document keyword branch and, when not zero, go to the
    relational store with 0.8.  A question whose lower-cased text holds a
    relational keyword and no document keyword, both stores available,
    goes to the relational store with 0.8.  All this is so for whatever
    [str.lower] does to the question; on an ASCII question, holding a
    keyword in the lower-cased text is holding it without regard to case.
    The keyword lists are the two of the source; the last five
    equations show each rule at work. *)
Theorem fast_route_policy :
  (forall (lower : string -> string) (available : list string) (question : string),
      let document_score := Router.score Router.mongo_keywords (lower question) in
      let relational_score := Router.score Router.postgres_keywords (lower question) in
      let has_relational := Py.mem "postgresql" available in
      let has_document := Py.mem "mongodb" available in
      let answer := Router._fast_route_with lower available question in
      ((relational_score < document_score)%nat /\ has_document = true ->
       answer = Routing "mongodb" (QArith_base.Qmake 8 10))
      /\ (~ ((relational_score < document_score)%nat /\ has_document = true) ->
          (0 < relational_score)%nat /\ has_relational = true ->
          answer = Routing "postgresql" (QArith_base.Qmake 8 10))
      /\ (~ ((relational_score < document_score)%nat /\ has_document = true) ->
          ~ ((0 < relational_score)%nat /\ has_relational = true) ->
          has_relational = true ->
          answer = Routing "postgresql" (QArith_base.Qmake 6 10))
      /\ (~ ((relational_score < document_score)%nat /\ has_document = true) ->
          has_relational = false -> has_document = true ->
          answer = Routing "mongodb" (QArith_base.Qmake 6 10))
      /\ (has_relational = false -> has_document = false ->
          answer = Routing "postgresql" (QArith_base.Qmake 5 10))
      /\ (document_score = relational_score ->
          answer <> Routing "mongodb" (QArith_base.Qmake 8 10)
          /\ ((0 < relational_score)%nat -> has_relational = true ->
              answer = Routing "postgresql" (QArith_base.Qmake 8 10)))
      /\ ((exists kw, In kw Router.postgres_keywords
                      /\ PyStr.contains kw (lower question) = true) ->
          (forall kw, In kw Router.mongo_keywords ->
                      PyStr.contains kw (lower question) = false) ->
          has_relational = true -> has_document = true ->
          answer = Routing "postgresql" (QArith_base.Qmake 8 10)))
  /\ (forall available question,
         Router._fast_route_with PyStr.lower available question
         = Router._fast_route available question)
  /\ (forall available question,
         PyStr.isascii question = true ->
         (exists kw, In kw Router.postgres_keywords
                     /\ Spec.occurs_ignoring_case kw question) ->
         (forall kw, In kw Router.mongo_keywords ->
                     ~ Spec.occurs_ignoring_case kw question) ->
         Py.mem "postgresql" available = true ->
         Py.mem "mongodb" available = true ->
         Router._fast_route available question
         = Routing "postgresql" (QArith_base.Qmake 8 10))
  /\ Router.mongo_keywords
     = [ "event"; "events"; "log"; "logs"; "session"; "sessions";
         "click"; "clicks"; "page view"; "pageview"; "tracking";
         "analytics"; "user activity"; "behavior"; "metric"; "metrics" ]
  /\ Router.postgres_keywords
     = [ "customer"; "customers"; "order"; "orders"; "product"; "products";
         "sale"; "sales"; "revenue"; "purchase"; "purchases"; "buyer";
         "inventory"; "price"; "quantity"; "item"; "items"; "spent";
         "top-selling"; "best selling"; "order_items" ]
  /\ Router._fast_route Scenario.both "show me the events and logs of each customer"
     = Routing "mongodb" (QArith_base.Qmake 8 10)
  /\ Router._fast_route Scenario.both "the log of one customer"
     = Routing "postgresql" (QArith_base.Qmake 8 10)
  /\ Router._fast_route Scenario.both "hello there"
     = Routing "postgresql" (QArith_base.Qmake 6 10)
  /\ Router._fast_route ["mongodb"] "customers and orders"
     = Routing "mongodb" (QArith_base.Qmake 6 10)
  /\ Router._fast_route [] "events"
     = Routing "postgresql" (QArith_base.Qmake 5 10).
Proof.
  split; [exact fast_route_rules|].
  split; [exact fast_route_with_lower|].
  split; [|repeat split].
  intros available question _ (kw & Hin & Hocc) Hnone H1 H2.
  rewrite <- fast_route_with_lower.
  destruct (fast_route_rules PyStr.lower available question) as (_ & Hrule2 & _).
  apply Hrule2.
  - intros [Hlt _].
    assert (Hds : Router.score Router.mongo_keywords (PyStr.lower question) = 0%nat).
    { apply score_zero. intros k Hk.
      destruct (PyStr.contains k (PyStr.lower question)) eqn:Hc; [|reflexivity].
      exfalso. apply (Hnone k Hk). apply keyword_contains_spec; [|exact Hc].
      apply in_or_app. auto. }
    lia.
  - split; [|exact H1].
    apply score_positive. exists kw. split; [exact Hin|].
    apply keyword_contains_spec; [|exact Hocc]. apply in_or_app. auto.
Qed.

(** Why the ASCII reading of the rule has its hypothesis.  With U+212A
    for each k, the question holds the relational keyword [customer] and,
    letter for letter in whatever ASCII case, no document keyword;
    [str.lower] makes the sign a [k], [tracking] and [click] score two
    against one, and with both stores available the router answers the
    document store with 0.8, as the rules on the lower-cased text say. *)
Lemma lower_makes_keywords :
  Router._fast_route_with Unicode.lower Scenario.both Doubles.kelvin_question
  = Routing "mongodb" (QArith_base.Qmake 8 10)
  /\ Router.score Router.mongo_keywords (Unicode.lower Doubles.kelvin_question) = 2%nat
  /\ Router.score Router.postgres_keywords (Unicode.lower Doubles.kelvin_question) = 1%nat
  /\ (exists kw, In kw Router.postgres_keywords
                 /\ Spec.occurs_ignoring_case kw Doubles.kelvin_question)
  /\ Forall (fun kw => ~ Spec.occurs_ignoring_case kw Doubles.kelvin_question)
            Router.mongo_keywords.
Proof.
  split; [reflexivity|]. split; [reflexivity|]. split; [reflexivity|]. split.
  - exists "customer". split; [left; reflexivity|].
    apply contains_lower_spec. reflexivity.
  - repeat (constructor;
            [intros H; apply contains_lower_spec in H; vm_compute in H; discriminate H|]).
    constructor.
Qed.

End RouterFacts.

(** ** The document validators: the rule *)

Section MongoRule.








End MongoRule.

(** ** Failures of the generation step *)

Section GenerationClasses.
Variable E : env.
Variables (db user_query : string) (history : list message).

Lemma generated_unavailable :
  Answer.store_client E db = false ->
  Answer.generated E db user_query history = Ok (Answer.unavailable db).
Proof. intros H. unfold Answer.generated. rewrite H. reflexivity. Qed.

Lemma generated_no_schema e :
  Answer.store_client E db = true -> Answer.store_context E db = Raise e ->
  Answer.generated E db user_query history = Raise e.
Proof. intros H1 H2. unfold Answer.generated. rewrite H1, H2. reflexivity. Qed.

Lemma generated_answer schema :
  Answer.store_client E db = true -> Answer.store_context E db = Ok schema ->
  Answer.generated E db user_query history
  = Ok (Answer.answer E db schema user_query history).
Proof. intros H1 H2. unfold Answer.generated. rewrite H1, H2. reflexivity. Qed.

Lemma answer_llm_failure schema e :
  Answer.model_reply E db schema user_query history = Raise e ->
  Answer.answer E db schema user_query history
  = Answer.generator_failure db (JStr (str_of_exn e)).
Proof. intros H. unfold Answer.answer, Answer.attempt. rewrite H. reflexivity. Qed.

Lemma answer_parse_failure_sql schema text e :
  Answer.relational db = true ->
  Answer.model_reply E db schema user_query history = Ok text ->
  json_loads E (Generator.clean_response text) = Raise e ->
  exn_cls e = JSONDecodeError ->
  SQLGenerator.sql_match (Generator.clean_response text) = None ->
  Answer.answer E db schema user_query history = SQLGenerator.parse_failure e.
Proof.
  intros Hdb Hm Hl Hc Hs.
  unfold Answer.answer, Answer.attempt, Answer.parsed_reply, Answer.safety_step.
  rewrite Hm, Hdb. unfold SQLGenerator._parse_response. cbv zeta.
  rewrite Hl, Hc, Hs. reflexivity.
Qed.

Lemma answer_parse_failure_mongo schema text e :
  Answer.relational db = false ->
  Answer.model_reply E db schema user_query history = Ok text ->
  json_loads E (Generator.clean_response text) = Raise e ->
  exn_cls e = JSONDecodeError ->
  Answer.answer E db schema user_query history = MongoQueryGenerator.parse_failure e.
Proof.
  intros Hdb Hm Hl Hc.
  unfold Answer.answer, Answer.attempt, Answer.parsed_reply, Answer.safety_step.
  rewrite Hm, Hdb. unfold MongoQueryGenerator._parse_response. cbv zeta.
  rewrite Hl, Hc. reflexivity.
Qed.

Lemma answer_after_safety schema text parsed checked :
  Answer.model_reply E db schema user_query history = Ok text ->
  Answer.parsed_reply E db text = Ok parsed ->
  Answer.safety_step E db parsed = Ok checked ->
  Answer.answer E db schema user_query history = checked.
Proof.
  intros Hm Hp Hs. unfold Answer.answer, Answer.attempt. rewrite Hm, Hp, Hs. reflexivity.
Qed.

End GenerationClasses.

Section SqlRejection.
Variable E : env.

Lemma occurs_nonempty kw text :
  kw <> "" -> Spec.occurs_ignoring_case kw text -> text <> "".
Proof.
  intros Hkw (pre & t & post & -> & Ht) Hempty.
  destruct pre; [|discriminate]. destruct t; [|discriminate].
  destruct kw; [congruence | discriminate].
Qed.

(** The safety step of the relational generator on a blocked text. *)
Lemma sql_check_safety_blocked (parsed : dict) (sql kw : string) :
  Py.truthy (Py.get parsed "success") = true ->
  Py.get parsed "sql" = JStr sql -> sql <> "" ->
  In kw (blocked_sql_keywords E) -> Spec.occurs_ignoring_case kw sql ->
  exists kw',
    In kw' (blocked_sql_keywords E)
    /\ Spec.occurs_ignoring_case kw' sql
    /\ SQLGenerator.check_safety E parsed
       = Ok (SQLGenerator.failure (JStr ("Query contains blocked keyword: " +:+ kw'))).
Proof.
  intros Hs Hq Hne Hin Hocc.
  apply contains_upper_spec in Hocc.
  destruct (first_blocked_hit _ _ _ Hin Hocc) as [kw' Hf].
  pose proof (first_blocked_some _ _ _ Hf) as [Hin' Hc'].
  exists kw'. split; [exact Hin'|]. split; [apply contains_upper_spec; exact Hc'|].
  unfold SQLGenerator.check_safety. rewrite Hs, Hq.
  destruct sql; [congruence|]. cbn [Py.truthy PyStr.nonempty andb].
  unfold Helpers.validate_sql_safety. rewrite Hf. reflexivity.
Qed.

End SqlRejection.

(** ** What the caller gets back *)

Section Outcomes.
Variable E : env.
Variables (user_query : string) (s : state).

Let db := routed_database E user_query.
Let history := conversation_history s.

(** A failure variant of the generator ends the request before the
    execution step: nothing is dispatched and nothing but the store of
    decoded objects changes. *)
Lemma failure_variant_reported (gen : dict) :
  Answer.generated E db user_query history = Ok gen ->
  Py.truthy (Py.get gen "success") = false ->
  exists r s',
    DatabaseAgent.process_query E user_query s = (Ok r, s')
    /\ success r = false
    /\ error r = Py.get_default gen "error" (JStr "Failed to generate query")
    /\ generated_query r = None
    /\ conversation_history s' = conversation_history s
    /\ tool_calls s' = tool_calls s
    /\ db_calls s' = db_calls s.
Proof.
  intros Hgen Hs. destruct (process_query_run E user_query s) as (r & s' & Hrun & Hp).
  exists r, s'. split; [exact Hrun|].
  unfold processed in Hp. fold db history in Hp. rewrite Hgen, Hs in Hp.
  destruct Hp as (-> & Hh & _ & Ht & Hd). repeat split; auto.
Qed.

Lemma generation_exception_reported (e : exn) :
  Answer.generated E db user_query history = Raise e ->
  exists r s',
    DatabaseAgent.process_query E user_query s = (Ok r, s')
    /\ success r = false
    /\ error r = JStr (str_of_exn e)
    /\ generated_query r = None
    /\ conversation_history s' = conversation_history s
    /\ tool_calls s' = tool_calls s
    /\ db_calls s' = db_calls s.
Proof.
  intros Hgen. destruct (process_query_run E user_query s) as (r & s' & Hrun & Hp).
  exists r, s'. split; [exact Hrun|].
  unfold processed in Hp. fold db history in Hp. rewrite Hgen in Hp.
  destruct Hp as (-> & Hh & _ & Ht & Hd). repeat split; auto.
Qed.

(** What the execution step came to decides the result. *)
Lemma concluded_cases (gen : dict) (xo : outcome exec_result) (r : query_result)
      (history' : list message) :
  concluded E user_query s gen xo r history' ->
  (success r = true /\ error r = JNull
   /\ exists n, row_count r = Some n
                /\ history' = conversation_history s ++ acknowledgement user_query n)
  \/ ((success r = false \/ error r <> JNull) /\ history' = conversation_history s).
Proof.
  unfold concluded, recorded. destruct xo as [x|e].
  - destruct (x_success x).
    + destruct (DatabaseAgent.from_option (x_data x) []) as [|row rows].
      * intros [-> ->]. left. cbn. eauto.
      * destruct (make_dataframe E (row :: rows)).
        -- intros [-> ->]. left. cbn. eauto.
        -- intros [-> ->]. right. cbn. split; [right; discriminate | reflexivity].
    + intros [-> ->]. right. cbn. auto.
  - intros [-> ->]. right. cbn. auto.
Qed.

Lemma processed_history (r : query_result) (s' : state) :
  processed E user_query s r s' ->
  (success r = true /\ error r = JNull
   /\ exists n, row_count r = Some n
                /\ conversation_history s'
                   = conversation_history s ++ acknowledgement user_query n)
  \/ ((success r = false \/ error r <> JNull)
      /\ conversation_history s' = conversation_history s).
Proof.
  unfold processed. fold db history.
  destruct (Answer.generated E db user_query history) as [gen|e].
  - destruct (Py.truthy (Py.get gen "success")).
    + intros (s0 & xo & sx & _ & _ & _ & _ & _ & _ & _ & _ & Hc).
      eapply concluded_cases. exact Hc.
    + intros (-> & Hh & _). right. cbn. auto.
  - intros (-> & Hh & _). right. cbn. auto.
Qed.

End Outcomes.

(** ** C1: a blocked statement never reaches execution *)

Section BlockedSql.

(** C1.  When the relational generator has parsed a query whose SQL text
    holds a denylisted keyword, [generate] hands back a failure variant
    with the validator's reason, and [process_query] returns a failure
    result carrying that reason without a single call of
    [mcp.execute_tool] or of a driver; the history is untouched. *)
Theorem blocked_sql_never_executed
        (E : env) (user_query : string) (s : state)
        (schema text : string) (parsed : dict) (sql kw : string) :
  routed_database E user_query = "postgresql" ->
  postgres_client E = true ->
  postgres_context E = Ok schema ->
  llm_sql E (SQLGenerator._build_prompt E schema user_query (conversation_history s))
  = Ok text ->
  SQLGenerator._parse_response E text = Ok parsed ->
  Py.truthy (Py.get parsed "success") = true ->
  Py.get parsed "sql" = JStr sql ->
  sql <> "" ->
  In kw (blocked_sql_keywords E) ->
  Spec.occurs_ignoring_case kw sql ->
  exists kw',
    In kw' (blocked_sql_keywords E)
    /\ Spec.occurs_ignoring_case kw' sql
    /\ (forall s0, exists n,
           SQLGenerator.generate E schema user_query (conversation_history s) s0
           = (Ok [ ("success", JBool false);
                   ("error", JStr ("Query contains blocked keyword: " +:+ kw'));
                   ("sql", JNull) ],
              set_sdk_calls n s0))
    /\ exists r s',
        DatabaseAgent.process_query E user_query s = (Ok r, s')
        /\ success r = false
        /\ error r = JStr ("Query contains blocked keyword: " +:+ kw')
        /\ generated_query r = None
        /\ tool_calls s' = tool_calls s
        /\ db_calls s' = db_calls s
        /\ conversation_history s' = conversation_history s.
Proof.
  intros Hdb Hclient Hctx Hllm Hparse Hsucc Hsql Hne Hin Hocc.
  destruct (sql_check_safety_blocked E parsed sql kw Hsucc Hsql Hne Hin Hocc)
    as (kw' & Hin' & Hocc' & Hcheck).
  exists kw'. split; [exact Hin'|]. split; [exact Hocc'|].
  assert (Hanswer : Answer.answer E "postgresql" schema user_query (conversation_history s)
                    = SQLGenerator.failure
                        (JStr ("Query contains blocked keyword: " +:+ kw'))).
  { eapply answer_after_safety; [exact Hllm | exact Hparse | exact Hcheck]. }
  split.
  - intros s0.
    destruct (sql_generate_answer E schema user_query (conversation_history s) s0)
      as [n Hn].
    exists n. rewrite Hn, Hanswer. reflexivity.
  - destruct (failure_variant_reported E user_query s
                (SQLGenerator.failure (JStr ("Query contains blocked keyword: " +:+ kw'))))
      as (r & s' & Hrun & Hs & He & Hg & Hh & Ht & Hd).
    + unfold routed_database in Hdb. unfold routed_database. rewrite Hdb.
      rewrite <- Hanswer. apply generated_answer; assumption.
    + reflexivity.
    + exists r, s'. repeat split; auto.
Qed.

Lemma blocked_sql_never_executed_witness :
  exists r s',
    Scenario.run Scenario.both "remove every order" = (Ok r, s')
    /\ success r = false
    /\ tool_calls s' = []
    /\ db_calls s' = [].
Proof.
  destruct (blocked_sql_never_executed
              (Scenario.env Scenario.both) "remove every order" Scenario.fresh_state
              "Table: customers" Scenario.delete_text
              [("sql", JStr "DELETE FROM orders"); ("success", JBool true)]
              "DELETE FROM orders" "DELETE")
    as (kw' & _ & _ & _ & r & s' & Hrun & Hs & _ & _ & Ht & Hd & _).
  - reflexivity.
  - reflexivity.
  - reflexivity.
  - reflexivity.
  - reflexivity.
  - reflexivity.
  - reflexivity.
  - discriminate.
  - right; left; reflexivity.
  - exists "", "DELETE", " FROM orders". split; reflexivity.
  - exists r, s'. auto.
Defined.

End BlockedSql.

(** ** Lookups after an assignment *)

Section DictFacts.

Lemma lookup_set_same (d : dict) (k : string) (v : json) :
  Py.lookup (Py.set d k v) k = Some v.
Proof.
  induction d as [|[k' v'] d IH]; simpl.
  - rewrite String.eqb_refl. reflexivity.
  - destruct (String.eqb k' k) eqn:Hk; simpl; rewrite Hk; [reflexivity | exact IH].
Qed.

Lemma lookup_set_other (d : dict) (k k' : string) (v : json) :
  k' <> k -> Py.lookup (Py.set d k v) k' = Py.lookup d k'.
Proof.
  intros Hne. induction d as [|[k0 v0] d IH]; simpl.
  - destruct (String.eqb k k') eqn:Hk; [|reflexivity].
    apply String.eqb_eq in Hk. congruence.
  - destruct (String.eqb k0 k) eqn:Hk; simpl.
    + apply String.eqb_eq in Hk. subst k0.
      destruct (String.eqb k k') eqn:Hk'; [|reflexivity].
      apply String.eqb_eq in Hk'. congruence.
    + destruct (String.eqb k0 k'); [reflexivity | exact IH].
Qed.

End DictFacts.

(** ** The error field of a failed generation *)

Section FailureMessages.
Variable E : env.

Lemma unsafe_sql_has_reason (sql : string) (blocked : list string) :
  safe (Helpers.validate_sql_safety sql blocked) = false ->
  exists msg, reason (Helpers.validate_sql_safety sql blocked) = Some msg.
Proof.
  unfold Helpers.validate_sql_safety.
  destruct (Helpers.first_blocked _ _); [|destruct (Nat.ltb _ _)]; cbn;
    [eauto | eauto | discriminate].
Qed.

Lemma unsafe_mongo_has_reason (query : json) (v : verdict) :
  Helpers.validate_mongo_safety query = Ok v -> safe v = false ->
  exists msg, reason v = Some msg.
Proof.
  destruct query as [| | | | | |d]; try discriminate.
  destruct (validate_mongo_safety_mapping d) as [[Hv _]|(k & Hv & _)]; rewrite Hv;
    intros [= <-]; cbn; [discriminate | eauto].
Qed.

Lemma first_unsafe_has_reason (stages : list json) (v : verdict) :
  MongoQueryGenerator.first_unsafe stages = Ok (Some v) -> exists msg, reason v = Some msg.
Proof.
  induction stages as [|st stages IH]; cbn [MongoQueryGenerator.first_unsafe];
    [discriminate|].
  destruct (Helpers.validate_mongo_safety st) as [safety|e] eqn:Hst; [|discriminate].
  destruct (safe safety) eqn:Hsafe; cbn [negb]; [exact IH|].
  intros [= <-]. eapply unsafe_mongo_has_reason; eauto.
Qed.

Lemma has_message (msg : string) (rest : dict) :
  exists m, Py.lookup (("success", JBool false) :: ("error", JStr msg) :: rest) "error"
            = Some (JStr m).
Proof. exists msg. reflexivity. Qed.

Lemma parsed_failure_classes (db text : string) (parsed : dict) :
  Answer.parsed_reply E db text = Ok parsed ->
  Py.truthy (Py.get parsed "success") = false ->
  (exists msg, Py.lookup parsed "error" = Some (JStr msg))
  \/ exists d, models_own E db text d parsed.
Proof.
  unfold Answer.parsed_reply, models_own.
  destruct (Answer.relational db).
  - unfold SQLGenerator._parse_response. cbv zeta.
    destruct (json_loads E (Generator.clean_response text)) as [[| | | | | |d]|e];
      try discriminate.
    + destruct (Py.truthy (Py.get d "sql")) eqn:Hsql.
      * destruct (Py.get d "sql"); try discriminate.
        intros [= <-]. unfold Py.get, Py.get_default. rewrite lookup_set_same.
        discriminate.
      * intros [= <-] _. right. exists d. auto.
    + destruct (exn_cls e); try discriminate.
      destruct (SQLGenerator.sql_match _).
      * intros [= <-]. discriminate.
      * intros [= <-] _. left. eexists. reflexivity.
  - unfold MongoQueryGenerator._parse_response. cbv zeta.
    destruct (json_loads E (Generator.clean_response text)) as [[| | | | | |d]|e];
      try discriminate.
    + destruct (Py.truthy (Py.get d "query_type")) eqn:Hqt.
      * intros [= <-]. unfold Py.get, Py.get_default. rewrite lookup_set_same.
        discriminate.
      * intros [= <-] _. right. exists d. auto.
    + destruct (exn_cls e); try discriminate.
      intros [= <-] _. left. eexists. reflexivity.
Qed.

Lemma checked_failure_classes (db text : string) (parsed gen : dict) :
  Answer.parsed_reply E db text = Ok parsed ->
  Answer.safety_step E db parsed = Ok gen ->
  Py.truthy (Py.get gen "success") = false ->
  (exists msg, Py.lookup gen "error" = Some (JStr msg))
  \/ exists d, models_own E db text d gen.
Proof.
  intros Hparsed. unfold Answer.safety_step.
  destruct (Answer.relational db) eqn:Hrel.
  - unfold SQLGenerator.check_safety.
    destruct (Py.truthy (Py.get parsed "success") && Py.truthy (Py.get parsed "sql"))%bool
      eqn:Hcond.
    + destruct (Py.get parsed "sql") as [| | | |sql| |]; try discriminate.
      destruct (safe (Helpers.validate_sql_safety sql (blocked_sql_keywords E))) eqn:Hsafe;
        cbn [negb].
      * intros [= <-] Hfail. apply andb_prop in Hcond as [Hs _]. congruence.
      * destruct (unsafe_sql_has_reason _ _ Hsafe) as [msg ->].
        intros [= <-] _. left. eexists. reflexivity.
    + intros [= <-] Hfail. eapply parsed_failure_classes; eauto.
  - unfold MongoQueryGenerator.check_safety.
    destruct (Py.truthy (Py.get parsed "success")) eqn:Hs.
    2:{ intros [= <-] Hfail. eapply parsed_failure_classes; eauto. }
    cbv zeta.
    destruct (Py.get_default parsed "filter" (Py.get_default parsed "pipeline" (JDict [])))
      as [| | | | |stages|d] eqn:Hq.
    6:{ destruct (MongoQueryGenerator.first_unsafe stages) as [[v|]|e] eqn:Hfirst;
          try discriminate.
        - destruct (first_unsafe_has_reason _ _ Hfirst) as [msg ->].
          intros [= <-] _. left. eexists. reflexivity.
        - intros [= <-] Hfail. congruence. }
    all: match goal with
         | |- context [Helpers.validate_mongo_safety ?q] =>
             destruct (Helpers.validate_mongo_safety q) as [v|e] eqn:Hv; [|discriminate]
         end;
         destruct (safe v) eqn:Hsafe; cbn [negb];
         [ intros [= <-] Hfail; congruence
         | destruct (unsafe_mongo_has_reason _ _ Hv Hsafe) as [msg ->];
           intros [= <-] _; left; eexists; reflexivity ].
Qed.

(** Every failure a generation step hands back carries a text as its
    error, unless it is the model's own object. *)
Lemma generated_failure_classes (db user_query : string) (history : list message)
      (gen : dict) :
  Answer.generated E db user_query history = Ok gen ->
  Py.truthy (Py.get gen "success") = false ->
  (exists msg, Py.lookup gen "error" = Some (JStr msg))
  \/ exists schema text d,
       Answer.store_context E db = Ok schema
       /\ Answer.model_reply E db schema user_query history = Ok text
       /\ models_own E db text d gen.
Proof.
  unfold Answer.generated.
  destruct (Answer.store_client E db).
  2:{ intros [= <-] _. left. eexists. reflexivity. }
  destruct (Answer.store_context E db) as [schema|e]; [|discriminate].
  intros [= <-]. unfold Answer.answer, Answer.attempt.
  assert (Hown : forall e, exists msg,
             Py.lookup (Answer.generator_failure db (JStr (str_of_exn e))) "error"
             = Some (JStr msg)).
  { intros e. unfold Answer.generator_failure.
    destruct (Answer.relational db); eexists; reflexivity. }
  destruct (Answer.model_reply E db schema user_query history) as [text|e] eqn:Hm;
    [|intros _; left; apply Hown].
  destruct (Answer.parsed_reply E db text) as [parsed|e] eqn:Hp;
    [|intros _; left; apply Hown].
  destruct (Answer.safety_step E db parsed) as [checked|e] eqn:Hs;
    [|intros _; left; apply Hown].
  intros Hfail.
  destruct (checked_failure_classes db text parsed checked Hp Hs Hfail) as [H|[d H]];
    [left; exact H | right; eauto 6].
Qed.

End FailureMessages.

(** ** C6: the orchestrator always returns *)

Section AlwaysReturns.

(** C6, as stated, fails: a failure does not always carry a message.  A
    model that answers with an object holding no statement and a null
    error makes the request fail with no error at all. *)
Lemma failure_without_message :
  exists r s',
    DatabaseAgent.process_query Doubles.silent_env "list the customers"
      Scenario.fresh_state = (Ok r, s')
    /\ success r = false
    /\ error r = JNull.
Proof. eexists _, _. split; [vm_compute; reflexivity|]. split; reflexivity. Qed.

(** C6, amended.  [process_query] never raises: for every environment,
    question and state it returns a result, with its success flag, that
    accounts for the request as [processed] describes.  No configured
    store routes to the relational one with confidence 0.5.  A store whose
    generator is unavailable, a schema that cannot be read, a failing call
    of the language model, an undecodable response, a safety rejection,
    and an execution step that fails or raises each end in a result with
    [success = false] and the error message of that failure.  The error
    of a failed request is a text in every case but one: when the
    response of the model decodes to an object that names no statement,
    that object is the failure and its own [error] field is handed on,
    whatever it holds (["Failed to generate query"] when it has none). *)
Theorem process_query_always_returns :
  (forall E user_query s,
      exists r s',
        DatabaseAgent.process_query E user_query s = (Ok r, s')
        /\ processed E user_query s r s')
  /\ (forall E user_query,
         available_databases E = [] ->
         DatabaseAgent._fast_route E user_query
         = Routing "postgresql" (QArith_base.Qmake 5 10))
  /\ (forall E user_query s,
         Answer.store_client E (routed_database E user_query) = false ->
         exists r s',
           DatabaseAgent.process_query E user_query s = (Ok r, s')
           /\ success r = false
           /\ error r = JStr (if Answer.relational (routed_database E user_query)
                              then "PostgreSQL not available"
                              else "MongoDB not available"))
  /\ (forall E user_query s e,
         Answer.store_client E (routed_database E user_query) = true ->
         Answer.store_context E (routed_database E user_query) = Raise e ->
         exists r s',
           DatabaseAgent.process_query E user_query s = (Ok r, s')
           /\ success r = false /\ error r = JStr (str_of_exn e))
  /\ (forall E user_query s schema e,
         Answer.store_client E (routed_database E user_query) = true ->
         Answer.store_context E (routed_database E user_query) = Ok schema ->
         Answer.model_reply E (routed_database E user_query) schema user_query
                            (conversation_history s) = Raise e ->
         exists r s',
           DatabaseAgent.process_query E user_query s = (Ok r, s')
           /\ success r = false /\ error r = JStr (str_of_exn e))
  /\ (forall E user_query s schema text e,
         Answer.store_client E (routed_database E user_query) = true ->
         Answer.store_context E (routed_database E user_query) = Ok schema ->
         Answer.model_reply E (routed_database E user_query) schema user_query
                            (conversation_history s) = Ok text ->
         json_loads E (Generator.clean_response text) = Raise e ->
         exn_cls e = JSONDecodeError ->
         (Answer.relational (routed_database E user_query) = true ->
          SQLGenerator.sql_match (Generator.clean_response text) = None) ->
         exists r s',
           DatabaseAgent.process_query E user_query s = (Ok r, s')
           /\ success r = false
           /\ error r = JStr ("Failed to parse response: " +:+ str_of_exn e))
  /\ (forall E user_query s schema text parsed msg,
         Answer.store_client E (routed_database E user_query) = true ->
         Answer.store_context E (routed_database E user_query) = Ok schema ->
         Answer.model_reply E (routed_database E user_query) schema user_query
                            (conversation_history s) = Ok text ->
         Answer.parsed_reply E (routed_database E user_query) text = Ok parsed ->
         Answer.safety_step E (routed_database E user_query) parsed
         = Ok (Answer.generator_failure (routed_database E user_query) (JStr msg)) ->
         exists r s',
           DatabaseAgent.process_query E user_query s = (Ok r, s')
           /\ success r = false /\ error r = JStr msg)
  /\ (forall E user_query s gen xo r history',
         concluded E user_query s gen xo r history' ->
         (forall e, xo = Raise e -> success r = false /\ error r = JStr (str_of_exn e))
         /\ (forall x, xo = Ok x -> x_success x = false ->
             success r = false
             /\ error r = JStr (DatabaseAgent.from_option (x_error x)
                                                          "Query execution failed")))
  /\ (forall E user_query s,
         exists r s',
           DatabaseAgent.process_query E user_query s = (Ok r, s')
           /\ (success r = false ->
               (exists msg, error r = JStr msg)
               \/ exists schema text d,
                    Answer.store_context E (routed_database E user_query) = Ok schema
                    /\ Answer.model_reply E (routed_database E user_query) schema
                         user_query (conversation_history s) = Ok text
                    /\ json_loads E (Generator.clean_response text) = Ok (JDict d)
                    /\ Py.truthy
                         (Py.get d (if Answer.relational (routed_database E user_query)
                                    then "sql" else "query_type")) = false
                    /\ error r = Py.get_default d "error"
                                                (JStr "Failed to generate query"))).
Proof.
  split; [exact process_query_run|].
  split.
  { intros E q Havail. unfold DatabaseAgent._fast_route, Router._fast_route.
    rewrite Havail. cbn [Py.mem]. rewrite !Bool.andb_false_r. reflexivity. }
  split.
  { intros E q s Hc.
    destruct (failure_variant_reported E q s _ (generated_unavailable E _ q _ Hc) eq_refl)
      as (r & s' & Hrun & Hs & He & _).
    exists r, s'. auto. }
  split.
  { intros E q s e Hc Hctx.
    destruct (generation_exception_reported E q s e
                (generated_no_schema E _ q _ e Hc Hctx))
      as (r & s' & Hrun & Hs & He & _).
    exists r, s'. auto. }
  split.
  { intros E q s schema e Hc Hctx Hm.
    destruct (failure_variant_reported E q s
                (Answer.generator_failure (routed_database E q) (JStr (str_of_exn e))))
      as (r & s' & Hrun & Hs & He & _).
    - rewrite <- (answer_llm_failure E _ _ _ _ _ Hm). apply generated_answer; assumption.
    - unfold Answer.generator_failure. destruct (Answer.relational _); reflexivity.
    - exists r, s'. split; [exact Hrun|]. split; [exact Hs|]. rewrite He.
      unfold Answer.generator_failure. destruct (Answer.relational _); reflexivity. }
  split.
  { intros E q s schema text e Hc Hctx Hm Hl Hcls Hsel.
    destruct (Answer.relational (routed_database E q)) eqn:Hrel.
    - destruct (failure_variant_reported E q s (SQLGenerator.parse_failure e))
        as (r & s' & Hrun & Hs & He & _).
      + rewrite <- (answer_parse_failure_sql E _ _ _ schema text e Hrel Hm Hl Hcls
                      (Hsel eq_refl)).
        apply generated_answer; assumption.
      + reflexivity.
      + exists r, s'. auto.
    - destruct (failure_variant_reported E q s (MongoQueryGenerator.parse_failure e))
        as (r & s' & Hrun & Hs & He & _).
      + rewrite <- (answer_parse_failure_mongo E _ _ _ schema text e Hrel Hm Hl Hcls).
        apply generated_answer; assumption.
      + reflexivity.
      + exists r, s'. auto. }
  split.
  { intros E q s schema text parsed msg Hc Hctx Hm Hp Hs.
    destruct (failure_variant_reported E q s
                (Answer.generator_failure (routed_database E q) (JStr msg)))
      as (r & s' & Hrun & Hsucc & He & _).
    - rewrite <- (answer_after_safety E _ _ _ schema text parsed _ Hm Hp Hs).
      apply generated_answer; assumption.
    - unfold Answer.generator_failure. destruct (Answer.relational _); reflexivity.
    - exists r, s'. split; [exact Hrun|]. split; [exact Hsucc|]. rewrite He.
      unfold Answer.generator_failure. destruct (Answer.relational _); reflexivity. }
  split.
  { intros E q s gen xo r h' Hc. split.
    - intros e ->. cbn in Hc. destruct Hc as [-> _]. split; reflexivity.
    - intros x -> Hx. cbn in Hc. rewrite Hx in Hc. destruct Hc as [-> _].
      split; reflexivity. }
  intros E q s. destruct (process_query_run E q s) as (r & s' & Hrun & Hp).
  exists r, s'. split; [exact Hrun|]. intros Hfail.
  unfold processed in Hp.
  destruct (Answer.generated E (routed_database E q) q (conversation_history s))
    as [gen|e] eqn:Hgen.
  2:{ destruct Hp as (-> & _). left. eexists. reflexivity. }
  destruct (Py.truthy (Py.get gen "success")) eqn:Hs.
  - destruct Hp as (s0 & xo & sx & _ & _ & _ & _ & _ & _ & _ & _ & Hc).
    unfold concluded, recorded in Hc. destruct xo as [x|e].
    + destruct (x_success x).
      * exfalso.
        destruct (DatabaseAgent.from_option (x_data x) []) as [|row rows].
        -- destruct Hc as [-> _]. discriminate.
        -- destruct (make_dataframe E (row :: rows)); destruct Hc as [-> _]; discriminate.
      * destruct Hc as [-> _]. left. eexists. reflexivity.
    + destruct Hc as [-> _]. left. eexists. reflexivity.
  - destruct Hp as (-> & _). cbn [error DatabaseAgent.with_error].
    destruct (generated_failure_classes E _ _ _ _ Hgen Hs)
      as [[msg Hmsg]|(schema & text & d & Hctx & Hm & Hl & Hnone & ->)].
    + left. exists msg. unfold Py.get_default. rewrite Hmsg. reflexivity.
    + right. exists schema, text, d. repeat split; try assumption.
      unfold Py.get_default. rewrite lookup_set_other by discriminate. reflexivity.
Qed.

End AlwaysReturns.

(** ** C7: the history changes on full success only *)

Section History.

(** C7.  [process_query] either succeeds in full (success flag set, no
    error) and then has appended exactly the question as a [user] entry
    followed by ["Returned N rows"] as an [assistant] entry, N the row
    count of the result, so the history is two entries longer; or it has
    left the history as it was.  Which of the two it is follows the
    steps: a generation that raises or hands back a failure gives
    [success = false] and the history as it was; so does an execution
    step that raises or reports a failure; an execution step that reports
    success gives [success = true] with its rows and row count, and the
    two entries are appended, unless building the [DataFrame] of the rows
    raises, which leaves an error and the history as it was.
    [clear_history] empties the history, once or twice in a row. *)
Theorem history_changes_on_full_success_only :
  (forall E user_query s,
      exists r s',
        DatabaseAgent.process_query E user_query s = (Ok r, s')
        /\ ((success r = true /\ error r = JNull
             /\ exists n,
                 row_count r = Some n
                 /\ conversation_history s'
                    = conversation_history s
                      ++ [ Message "user" user_query;
                           Message "assistant"
                                   ("Returned " +:+ PyStr.of_nat n +:+ " rows") ]
                 /\ length (conversation_history s')
                    = (length (conversation_history s) + 2)%nat)
            \/ ((success r = false \/ error r <> JNull)
                /\ conversation_history s' = conversation_history s))
        /\ (success r = false -> conversation_history s' = conversation_history s))
  /\ (forall E user_query s e,
         Answer.generated E (routed_database E user_query) user_query
                          (conversation_history s) = Raise e ->
         exists r s',
           DatabaseAgent.process_query E user_query s = (Ok r, s')
           /\ success r = false
           /\ conversation_history s' = conversation_history s)
  /\ (forall E user_query s gen,
         Answer.generated E (routed_database E user_query) user_query
                          (conversation_history s) = Ok gen ->
         Py.truthy (Py.get gen "success") = false ->
         exists r s',
           DatabaseAgent.process_query E user_query s = (Ok r, s')
           /\ success r = false
           /\ conversation_history s' = conversation_history s)
  /\ (forall E user_query s gen,
         Answer.generated E (routed_database E user_query) user_query
                          (conversation_history s) = Ok gen ->
         Py.truthy (Py.get gen "success") = true ->
         exists r s' s0 xo sx,
           DatabaseAgent.process_query E user_query s = (Ok r, s')
           /\ conversation_history s0 = conversation_history s
           /\ objects s0 = <[gen_loc s := JDict gen]> (objects s)
           /\ tool_calls s0 = tool_calls s
           /\ db_calls s0 = db_calls s
           /\ DatabaseAgent._execute_query E (routed_database E user_query) (gen_loc s) s0
              = (xo, sx)
           /\ match xo with
              | Raise _ =>
                  success r = false /\ conversation_history s' = conversation_history s
              | Ok x =>
                  if x_success x then
                    let rows := DatabaseAgent.from_option (x_data x) [] in
                    let n := DatabaseAgent.from_option (x_row_count x) 0%nat in
                    success r = true /\ data r = rows /\ row_count r = Some n
                    /\ match (match rows with
                              | [] => Ok tt
                              | _ => make_dataframe E rows
                              end) with
                       | Ok _ =>
                           error r = JNull
                           /\ conversation_history s'
                              = conversation_history s
                                ++ [ Message "user" user_query;
                                     Message "assistant"
                                             ("Returned " +:+ PyStr.of_nat n +:+ " rows") ]
                       | Raise e =>
                           error r = JStr (str_of_exn e)
                           /\ conversation_history s' = conversation_history s
                       end
                  else
                    success r = false /\ conversation_history s' = conversation_history s
              end)
  /\ (forall s,
         conversation_history (snd (DatabaseAgent.clear_history s)) = []
         /\ DatabaseAgent.clear_history (snd (DatabaseAgent.clear_history s))
            = DatabaseAgent.clear_history s).
Proof.
  split; [|split; [|split; [|split]]].
  - intros E q s. destruct (process_query_run E q s) as (r & s' & Hrun & Hp).
    exists r, s'. split; [exact Hrun|].
    destruct (processed_history E q s r s' Hp)
      as [(Hs & He & n & Hn & Hh)|[Hf Hh]].
    + split.
      * left. split; [exact Hs|]. split; [exact He|]. exists n.
        split; [exact Hn|]. split; [exact Hh|]. rewrite Hh, length_app. reflexivity.
      * intros Hfalse. congruence.
    + split; [right; auto | auto].
  - intros E q s e Hgen. destruct (process_query_run E q s) as (r & s' & Hrun & Hp).
    exists r, s'. split; [exact Hrun|].
    unfold processed in Hp. rewrite Hgen in Hp. destruct Hp as (-> & Hh & _).
    split; [reflexivity | exact Hh].
  - intros E q s gen Hgen Hs. destruct (process_query_run E q s) as (r & s' & Hrun & Hp).
    exists r, s'. split; [exact Hrun|].
    unfold processed in Hp. rewrite Hgen, Hs in Hp. destruct Hp as (-> & Hh & _).
    split; [reflexivity | exact Hh].
  - intros E q s gen Hgen Hs. destruct (process_query_run E q s) as (r & s' & Hrun & Hp).
    unfold processed in Hp. rewrite Hgen, Hs in Hp.
    destruct Hp as (s0 & xo & sx & Hh0 & Ho0 & Ht0 & Hd0 & Hexec & _ & _ & _ & Hc).
    exists r, s', s0, xo, sx. repeat (split; [assumption|]).
    unfold concluded, recorded in Hc. destruct xo as [x|e].
    + destruct (x_success x); [|destruct Hc as [-> ->]; split; reflexivity].
      cbv zeta.
      destruct (DatabaseAgent.from_option (x_data x) []) as [|row rows].
      * destruct Hc as [-> ->]. repeat split.
      * destruct (make_dataframe E (row :: rows)) as [[]|e];
          destruct Hc as [-> ->]; repeat split.
    + destruct Hc as [-> ->]. split; reflexivity.
  - intros s. split; reflexivity.
Qed.

End History.

(** ** Response parsing *)

Section Parsing.





Lemma rstrip_keeps_ending (a b : string) :
  PyStr.rstrip b = b -> b <> "" -> PyStr.rstrip (a +:+ b) = a +:+ b.
Proof.
  intros Hb Hne. induction a as [|c a IH]; simpl; [exact Hb|].
  rewrite IH. destruct (a +:+ b) eqn:Hab; [|reflexivity].
  destruct a; simpl in Hab; [contradiction | discriminate].
Qed.

(** A fenced block is its own strip. *)
Lemma strip_fenced (tag body : string) :
  PyStr.strip (Spec.fenced tag body) = Spec.fenced tag body.
Proof.
  unfold PyStr.strip, Spec.fenced.
  change (PyStr.lstrip ("```" +:+ tag +:+ String PyStr.nl (body +:+ String PyStr.nl "```")))
    with ("```" +:+ tag +:+ String PyStr.nl (body +:+ String PyStr.nl "```")).
  rewrite <- !append_assoc.
  replace (String PyStr.nl (body +:+ String PyStr.nl "```"))
    with ((String PyStr.nl body +:+ String PyStr.nl "") +:+ "```").
  - rewrite <- append_assoc. apply rstrip_keeps_ending; [reflexivity | discriminate].
  - simpl. rewrite append_assoc. reflexivity.
Qed.




End Parsing.

Section RoundTrip.



End RoundTrip.

(** ** The aggregation path *)

Section Aggregation.
Variable E : env.

Lemma wp_deref_dict g d s (Q : outcome dict -> state -> Prop) :
  objects s !! g = Some (JDict d) -> Q (Ok d) s -> wp (Store.deref_dict g) s Q.
Proof.
  intros Hg HQ. exists (Ok d), s. split; [|exact HQ].
  unfold Store.deref_dict. rewrite Hg. reflexivity.
Qed.

Lemma wp_deref_field g key d v s (Q : outcome json -> state -> Prop) :
  objects s !! g = Some (JDict d) -> Py.lookup d key = Some v ->
  Q (Ok v) s -> wp (Store.deref (FieldRef g key)) s Q.
Proof.
  intros Hg Hk HQ. exists (Ok v), s. split; [|exact HQ].
  unfold Store.deref, Store.deref_dict, bind, ret. rewrite Hg, Hk. reflexivity.
Qed.

Lemma wp_append_field g key d xs x s (Q : outcome arg_ref -> state -> Prop) :
  objects s !! g = Some (JDict d) -> Py.lookup d key = Some (JList xs) ->
  Q (Ok (FieldRef g key))
    (set_objects (<[g := JDict (Py.set d key (JList (xs ++ [x])))]> (objects s)) s) ->
  wp (Store.append (FieldRef g key) x) s Q.
Proof.
  intros Hg Hk HQ. eexists _, _. split; [|exact HQ].
  unfold Store.append, Store.deref_dict, bind, ret, modify. rewrite Hg, Hk. reflexivity.
Qed.

Lemma has_limit_of_mappings (stages : list json) :
  Forall is_mapping stages ->
  Connector.has_limit stages = Ok (has_limit_stage stages).
Proof.
  induction 1 as [|st stages [d ->] _ IH]; [reflexivity|].
  cbn [Connector.has_limit Connector.limit_in has_limit_stage existsb].
  destruct (Py.has_key d "$limit"); [reflexivity | exact IH].
Qed.

Lemma stages_safe_mappings (stages : list json) :
  MongoDBMCPClient.stages_safe stages = Ok true -> Forall is_mapping stages.
Proof.
  induction stages as [|st stages IH]; intros H; [constructor|].
  cbn [MongoDBMCPClient.stages_safe] in H.
  destruct st; try discriminate.
  destruct (MongoDBMCPClient._is_safe_query (JDict items)) as [b|e]; [|discriminate].
  destruct (negb b); [discriminate|].
  constructor; [eexists; reflexivity | auto].
Qed.

(** The connector on a pipeline held by the generator's dict. *)
Lemma execute_aggregate_run (collection limit : json) (g : loc) (d : dict)
      (stages : list json) (s : state) :
  objects s !! g = Some (JDict d) ->
  Py.lookup d "pipeline" = Some (JList stages) ->
  Forall is_mapping stages ->
  mongo_collection E collection = Ok tt ->
  exists s',
    Connector.execute_aggregate E collection (FieldRef g "pipeline") limit s
    = (Ok (driver_answer E (mongo_aggregate_driver E collection (forwarded E stages limit))),
       s')
    /\ objects s' = (if has_limit_stage stages then objects s
                     else <[g := JDict (Py.set d "pipeline"
                                               (JList (forwarded E stages limit)))]>
                            (objects s))
    /\ db_calls s' = db_calls s ++ [DbAggregate collection (forwarded E stages limit)]
    /\ tool_calls s' = tool_calls s
    /\ conversation_history s' = conversation_history s.
Proof.
  intros Hg Hp Hm Hhandle.
  cut (wp (Connector.execute_aggregate E collection (FieldRef g "pipeline") limit) s
          (fun o s' =>
             o = Ok (driver_answer E
                       (mongo_aggregate_driver E collection (forwarded E stages limit)))
             /\ objects s' = (if has_limit_stage stages then objects s
                              else <[g := JDict (Py.set d "pipeline"
                                                        (JList (forwarded E stages limit)))]>
                                     (objects s))
             /\ db_calls s' = db_calls s ++ [DbAggregate collection (forwarded E stages limit)]
             /\ tool_calls s' = tool_calls s
             /\ conversation_history s' = conversation_history s)).
  { intros (o & s' & Hr & -> & H). eauto. }
  unfold Connector.execute_aggregate, forwarded, Connector.limit_stage. cbv zeta.
  apply wp_try_except.
  apply wp_bind, wp_lift. rewrite Hhandle.
  apply wp_bind. eapply wp_deref_field; [exact Hg | exact Hp|]. cbv beta iota.
  apply wp_bind, wp_lift. rewrite (has_limit_of_mappings _ Hm).
  destruct (has_limit_stage stages) eqn:Hl; cbn [negb].
  - wp_step.
    apply wp_bind. eapply wp_deref_field; [exact Hg | exact Hp|]. cbv beta iota.
    unfold Connector.log_db. wp_step. wp_step.
    destruct (mongo_aggregate_driver E collection stages) as [rows|e];
      [|repeat wp_step; repeat split; reflexivity].
    unfold Connector.frame_of. destruct rows as [|row rows].
    + repeat wp_step. repeat split; reflexivity.
    + wp_step. cbn [driver_answer].
      destruct (make_dataframe E (row :: rows)); repeat wp_step; repeat split; reflexivity.
  - apply wp_bind. eapply wp_append_field; [exact Hg | exact Hp|]. cbv beta iota.
    apply wp_bind. eapply wp_deref_field.
    { cbn [objects set_objects]. apply lookup_insert_eq. }
    { apply lookup_set_same. }
    cbv beta iota.
    unfold Connector.log_db. wp_step. wp_step.
    destruct (mongo_aggregate_driver E collection _) as [rows|e];
      [|repeat wp_step; repeat split; reflexivity].
    unfold Connector.frame_of. destruct rows as [|row rows].
    + repeat wp_step. repeat split; reflexivity.
    + wp_step. cbn [driver_answer].
      destruct (make_dataframe E (row :: rows)); repeat wp_step; repeat split; reflexivity.
Qed.

(** Without a collection handle the connector stops at once. *)
Lemma execute_aggregate_no_handle (collection limit : json) (pipeline : arg_ref)
      (e : exn) (s : state) :
  mongo_collection E collection = Raise e ->
  Connector.execute_aggregate E collection pipeline limit s
  = (Ok (connector_failure e), s).
Proof.
  intros Hhandle. unfold Connector.execute_aggregate, try_except, bind, lift.
  rewrite Hhandle. reflexivity.
Qed.

Lemma wp_of_run {A} (m : M A) s o s' (Q : outcome A -> state -> Prop) :
  m s = (o, s') -> Q o s' -> wp m s Q.
Proof. intros Hr HQ. exists o, s'. auto. Qed.

Lemma has_key_lookup (d : dict) (k : string) (v : json) :
  Py.lookup d k = Some v -> Py.has_key d k = true.
Proof.
  induction d as [|[k' v'] d IH]; simpl; [discriminate|].
  destruct (String.eqb k' k); auto.
Qed.

Lemma set_lookup_same (d : dict) (k : string) (v : json) :
  Py.lookup d k = Some v -> Py.set d k v = d.
Proof.
  induction d as [|[k' v'] d IH]; simpl; [discriminate|].
  destruct (String.eqb k' k).
  - intros [= ->]. reflexivity.
  - intros H. rewrite IH by exact H. reflexivity.
Qed.

Lemma nonempty_list_truthy (xs : list json) : xs <> [] -> Py.truthy (JList xs) = true.
Proof. destruct xs; [contradiction | reflexivity]. Qed.

(** The execution step on an aggregate query, up to the connector. *)
Lemma aggregate_dispatch (gen : dict) (g : loc) (stages : list json) (s : state)
      (Q : outcome exec_result -> state -> Prop) :
  objects s !! g = Some (JDict gen) ->
  Py.get gen "query_type" = JStr "aggregate" ->
  Py.truthy (Py.get gen "collection") = true ->
  Py.lookup gen "pipeline" = Some (JList stages) ->
  stages <> [] ->
  mongodb_client E = true ->
  let call := MongoAggregate (Py.get gen "collection") (FieldRef g "pipeline")
                             (Py.get_default gen "limit" (JInt (max_query_rows E))) in
  let s1 := set_tool_calls (tool_calls s ++ [call]) s in
  match MongoDBMCPClient.stages_safe stages with
  | Raise e => Q (Raise e) s1
  | Ok false => Q (Ok (exec_error "Pipeline contains unsafe operators")) s1
  | Ok true =>
      wp (Connector.execute_aggregate E (Py.get gen "collection") (FieldRef g "pipeline")
            (Py.get_default gen "limit" (JInt (max_query_rows E)))) s1 Q
  end ->
  wp (DatabaseAgent._execute_query E "mongodb" g) s Q.
Proof.
  intros Hg Hqt Hc Hp Hne Hclient call s1 HQ.
  unfold DatabaseAgent._execute_query.
  apply wp_bind. eapply wp_deref_dict; [exact Hg|]. cbv beta iota zeta.
  change (String.eqb "mongodb" "postgresql") with false.
  change (String.eqb "mongodb" "mongodb") with true. cbv iota.
  rewrite Hc, Hqt. cbn [negb DatabaseAgent.json_is_str].
  change (String.eqb "aggregate" "find") with false.
  change (String.eqb "aggregate" "aggregate") with true. cbv iota.
  rewrite (has_key_lookup _ _ _ Hp).
  unfold MCPManager.execute_tool. wp_step. rewrite Hclient. cbn [negb].
  unfold MongoDBMCPClient._handle_aggregate.
  apply wp_bind. eapply wp_deref_field; [exact Hg | exact Hp|]. cbv beta iota.
  rewrite Hc, (nonempty_list_truthy _ Hne). cbn [negb MongoDBMCPClient.iterate].
  wp_step. wp_step.
  fold call. fold s1.
  destruct (MongoDBMCPClient.stages_safe stages) as [[|]|e]; cbn [negb].
  - exact HQ.
  - wp_step. exact HQ.
  - exact HQ.
Qed.

End Aggregation.

Section AggregateRequests.
Variable E : env.
Variables (user_query : string) (s : state) (gen : dict) (stages : list json).

Hypothesis routed : routed_database E user_query = "mongodb".
Hypothesis generated_gen :
  Answer.generated E "mongodb" user_query (conversation_history s) = Ok gen.
Hypothesis gen_success : Py.truthy (Py.get gen "success") = true.
Hypothesis gen_aggregate : Py.get gen "query_type" = JStr "aggregate".
Hypothesis gen_collection : Py.truthy (Py.get gen "collection") = true.
Hypothesis gen_pipeline : Py.lookup gen "pipeline" = Some (JList stages).
Hypothesis stages_nonempty : stages <> [].
Hypothesis client : mongodb_client E = true.

Let g := gen_loc s.
Let collection := Py.get gen "collection".
Let limit := Py.get_default gen "limit" (JInt (max_query_rows E)).
Let call := MongoAggregate collection (FieldRef g "pipeline") limit.

Lemma concluded_generated_query xo r history' :
  concluded E user_query s gen xo r history' -> generated_query r = Some g.
Proof.
  unfold concluded, recorded. destruct xo as [x|e].
  - destruct (x_success x).
    + destruct (DatabaseAgent.from_option (x_data x) []) as [|row rows].
      * intros [-> _]. reflexivity.
      * destruct (make_dataframe E (row :: rows)); intros [-> _]; reflexivity.
    + intros [-> _]. reflexivity.
  - intros [-> _]. reflexivity.
Qed.

(** An aggregate query that passes the dispatch-side check. *)
Lemma aggregate_request_forwarded :
  MongoDBMCPClient.stages_safe stages = Ok true ->
  mongo_collection E collection = Ok tt ->
  exists r s',
    DatabaseAgent.process_query E user_query s = (Ok r, s')
    /\ generated_query r = Some g
    /\ objects s' !! g
       = Some (JDict (Py.set gen "pipeline" (JList (forwarded E stages limit))))
    /\ tool_calls s' = tool_calls s ++ [call]
    /\ db_calls s' = db_calls s ++ [DbAggregate collection (forwarded E stages limit)].
Proof.
  intros Hsafe Hhandle.
  destruct (process_query_run E user_query s) as (r & s' & Hrun & Hp).
  exists r, s'. split; [exact Hrun|].
  unfold processed in Hp. rewrite routed, generated_gen, gen_success in Hp.
  destruct Hp as (s0 & xo & sx & Hh0 & Ho0 & Ht0 & Hd0 & Hexec & Ho & Ht & Hd & Hc).
  assert (Hg0 : objects s0 !! g = Some (JDict gen)).
  { rewrite Ho0. apply lookup_insert_eq. }
  pose proof (stages_safe_mappings stages Hsafe) as Hmaps.
  destruct (aggregate_dispatch E gen g stages s0
              (fun o s1 =>
                 objects s1 = (if has_limit_stage stages then objects s0
                               else <[g := JDict (Py.set gen "pipeline"
                                                         (JList (forwarded E stages limit)))]>
                                      (objects s0))
                 /\ db_calls s1 = db_calls s0 ++ [DbAggregate collection (forwarded E stages limit)]
                 /\ tool_calls s1 = tool_calls s0 ++ [call])
              Hg0 gen_aggregate gen_collection gen_pipeline stages_nonempty client)
    as (o & s1 & Hexec' & Ho1 & Hd1 & Ht1).
  { cbv zeta. rewrite Hsafe.
    destruct (execute_aggregate_run E collection limit g gen stages
                (set_tool_calls (tool_calls s0 ++ [call]) s0) Hg0 gen_pipeline Hmaps
                Hhandle)
      as (s1 & Hr1 & Ho1 & Hd1 & Ht1 & _).
    eapply wp_of_run; [exact Hr1|]. auto. }
  assert (Heq : (xo, sx) = (o, s1)) by (rewrite <- Hexec; exact Hexec').
  injection Heq as -> ->.
  split; [eapply concluded_generated_query; exact Hc|].
  split.
  - rewrite Ho, Ho1. destruct (has_limit_stage stages) eqn:Hl.
    + unfold forwarded. rewrite Hl, (set_lookup_same _ _ _ gen_pipeline). exact Hg0.
    + apply lookup_insert_eq.
  - split; congruence.
Qed.

(** An aggregate query that passes the dispatch-side check and then finds
    no collection handle. *)
Lemma aggregate_request_without_handle (e : exn) :
  MongoDBMCPClient.stages_safe stages = Ok true ->
  mongo_collection E collection = Raise e ->
  exists r s',
    DatabaseAgent.process_query E user_query s = (Ok r, s')
    /\ success r = false
    /\ error r = JStr (str_of_exn e)
    /\ generated_query r = Some g
    /\ tool_calls s' = tool_calls s ++ [call]
    /\ db_calls s' = db_calls s
    /\ objects s' !! g = Some (JDict gen)
    /\ conversation_history s' = conversation_history s.
Proof.
  intros Hsafe Hhandle.
  destruct (process_query_run E user_query s) as (r & s' & Hrun & Hp).
  exists r, s'. split; [exact Hrun|].
  unfold processed in Hp. rewrite routed, generated_gen, gen_success in Hp.
  destruct Hp as (s0 & xo & sx & Hh0 & Ho0 & Ht0 & Hd0 & Hexec & Ho & Ht & Hd & Hc).
  assert (Hg0 : objects s0 !! g = Some (JDict gen)).
  { rewrite Ho0. apply lookup_insert_eq. }
  destruct (aggregate_dispatch E gen g stages s0
              (fun o s1 =>
                 o = Ok (connector_failure e)
                 /\ objects s1 = objects s0
                 /\ db_calls s1 = db_calls s0
                 /\ tool_calls s1 = tool_calls s0 ++ [call])
              Hg0 gen_aggregate gen_collection gen_pipeline stages_nonempty client)
    as (o & s1 & Hexec' & -> & Ho1 & Hd1 & Ht1).
  { cbv zeta. rewrite Hsafe.
    eapply wp_of_run; [apply execute_aggregate_no_handle; exact Hhandle|].
    repeat split. }
  assert (Heq : (xo, sx) = (Ok (connector_failure e), s1))
    by (rewrite <- Hexec; exact Hexec').
  injection Heq as -> ->.
  pose proof (concluded_generated_query _ _ _ Hc) as Hgq.
  cbn in Hc. destruct Hc as [-> Hh].
  repeat split; try congruence.
Qed.

(** An aggregate query that the dispatch-side check refuses. *)
Lemma aggregate_request_refused :
  MongoDBMCPClient.stages_safe stages = Ok false ->
  exists r s',
    DatabaseAgent.process_query E user_query s = (Ok r, s')
    /\ success r = false
    /\ error r = JStr "Pipeline contains unsafe operators"
    /\ tool_calls s' = tool_calls s ++ [call]
    /\ db_calls s' = db_calls s
    /\ objects s' !! g = Some (JDict gen)
    /\ conversation_history s' = conversation_history s.
Proof.
  intros Hunsafe.
  destruct (process_query_run E user_query s) as (r & s' & Hrun & Hp).
  exists r, s'. split; [exact Hrun|].
  unfold processed in Hp. rewrite routed, generated_gen, gen_success in Hp.
  destruct Hp as (s0 & xo & sx & Hh0 & Ho0 & Ht0 & Hd0 & Hexec & Ho & Ht & Hd & Hc).
  assert (Hg0 : objects s0 !! g = Some (JDict gen)).
  { rewrite Ho0. apply lookup_insert_eq. }
  destruct (aggregate_dispatch E gen g stages s0
              (fun o s1 =>
                 o = Ok (exec_error "Pipeline contains unsafe operators")
                 /\ objects s1 = objects s0
                 /\ db_calls s1 = db_calls s0
                 /\ tool_calls s1 = tool_calls s0 ++ [call])
              Hg0 gen_aggregate gen_collection gen_pipeline stages_nonempty client)
    as (o & s1 & Hexec' & -> & Ho1 & Hd1 & Ht1).
  { cbv zeta. rewrite Hunsafe. repeat split. }
  assert (Heq : (xo, sx) = (Ok (exec_error "Pipeline contains unsafe operators"), s1))
    by (rewrite <- Hexec; exact Hexec').
  injection Heq as -> ->.
  cbn in Hc. destruct Hc as [-> Hh].
  repeat split; try congruence.
Qed.

End AggregateRequests.

(** ** C9: the [$limit] stage of an aggregation *)

Section LimitStage.

Lemma has_limit_stage_spec (stages : list json) :
  has_limit_stage stages = true <->
  exists d, In (JDict d) stages /\ Py.has_key d "$limit" = true.
Proof.
  unfold has_limit_stage. rewrite existsb_exists. split.
  - intros (st & Hin & Hst). destruct st; try discriminate. eauto.
  - intros (d & Hin & Hd). exists (JDict d). auto.
Qed.

Lemma forwarded_appends_iff (E : env) (stages : list json) (limit : json) :
  forwarded E stages limit
  = stages ++ [JDict [("$limit", py_or limit (JInt (max_query_rows E)))]]
  <-> has_limit_stage stages = false.
Proof.
  unfold forwarded. destruct (has_limit_stage stages); split; try reflexivity.
  - intros H. apply (f_equal (@length json)) in H. rewrite length_app in H.
    simpl in H. lia.
  - discriminate.
Qed.

(** C9, as stated, fails: an aggregation dispatched on a collection whose
    handle cannot be had (here a name the driver refuses) has no stage
    with a key [$limit], and yet nothing is appended to its pipeline. *)
Lemma limit_not_appended_without_handle :
  exists r s' g d,
    DatabaseAgent.process_query Doubles.dollar_env "clicks per page" Scenario.fresh_state
    = (Ok r, s')
    /\ tool_calls s'
       = [MongoAggregate (JStr "a$b") (FieldRef g "pipeline") (JInt 1000)]
    /\ generated_query r = Some g
    /\ objects s' !! g = Some (JDict d)
    /\ Py.lookup d "pipeline" = Some (JList [Scenario.match_stage])
    /\ has_limit_stage [Scenario.match_stage] = false
    /\ db_calls s' = []
    /\ success r = false
    /\ error r = JStr "collection names must not contain '$': 'a$b'".
Proof.
  eexists _, _, _, _. split; [vm_compute; reflexivity|].
  split; [reflexivity|]. split; [reflexivity|].
  split; [vm_compute; reflexivity|]. repeat split.
Qed.

(** C9, amended.  The connector looks the collection handle up first.
    When that succeeds, on a pipeline of mappings, it hands the driver the
    pipeline with [{"$limit": limit}] added at its end, [limit] being the
    requested limit or, when that is missing or falsy, the configured
    maximum, exactly when no stage has a key [$limit]; otherwise it hands
    it on as it is.  The stage is appended to the list object held by the
    generator's dict: after an aggregate request that reached the
    driver, the dict that the result's [generated_query] refers to holds
    the pipeline as forwarded.  When the lookup raises, nothing is
    appended, the driver is not called, and the failure carries the text
    of the exception. *)
Theorem aggregate_appends_limit_once :
  (forall (E : env) (stages : list json) (limit : json),
      (forwarded E stages limit
       = stages ++ [JDict [("$limit", py_or limit (JInt (max_query_rows E)))]]
       <-> ~ exists d, In (JDict d) stages /\ Py.has_key d "$limit" = true)
      /\ ((exists d, In (JDict d) stages /\ Py.has_key d "$limit" = true) ->
          forwarded E stages limit = stages))
  /\ (forall (E : env) (collection limit : json) (g : loc) (d : dict)
             (stages : list json) (s : state),
         objects s !! g = Some (JDict d) ->
         Py.lookup d "pipeline" = Some (JList stages) ->
         Forall is_mapping stages ->
         match mongo_collection E collection with
         | Ok _ =>
             exists x s',
               Connector.execute_aggregate E collection (FieldRef g "pipeline") limit s
               = (Ok x, s')
               /\ db_calls s'
                  = db_calls s ++ [DbAggregate collection (forwarded E stages limit)]
               /\ objects s' !! g
                  = Some (JDict (Py.set d "pipeline" (JList (forwarded E stages limit))))
               /\ (has_limit_stage stages = true -> objects s' = objects s)
         | Raise e =>
             Connector.execute_aggregate E collection (FieldRef g "pipeline") limit s
             = (Ok (connector_failure e), s)
         end)
  /\ (forall (E : env) (user_query : string) (s : state) (gen : dict)
             (stages : list json),
         routed_database E user_query = "mongodb" ->
         Answer.generated E "mongodb" user_query (conversation_history s) = Ok gen ->
         Py.truthy (Py.get gen "success") = true ->
         Py.get gen "query_type" = JStr "aggregate" ->
         Py.truthy (Py.get gen "collection") = true ->
         Py.lookup gen "pipeline" = Some (JList stages) ->
         stages <> [] ->
         mongodb_client E = true ->
         MongoDBMCPClient.stages_safe stages = Ok true ->
         let limit := Py.get_default gen "limit" (JInt (max_query_rows E)) in
         exists r s',
           DatabaseAgent.process_query E user_query s = (Ok r, s')
           /\ generated_query r = Some (gen_loc s)
           /\ match mongo_collection E (Py.get gen "collection") with
              | Ok _ =>
                  objects s' !! gen_loc s
                  = Some (JDict (Py.set gen "pipeline" (JList (forwarded E stages limit))))
                  /\ db_calls s'
                     = db_calls s ++ [DbAggregate (Py.get gen "collection")
                                                  (forwarded E stages limit)]
              | Raise e =>
                  objects s' !! gen_loc s = Some (JDict gen)
                  /\ db_calls s' = db_calls s
                  /\ success r = false
                  /\ error r = JStr (str_of_exn e)
              end).
Proof.
  split; [|split].
  - intros E stages limit. split.
    + rewrite forwarded_appends_iff, <- has_limit_stage_spec.
      destruct (has_limit_stage stages); split; congruence.
    + intros H. apply has_limit_stage_spec in H. unfold forwarded. rewrite H. reflexivity.
  - intros E collection limit g d stages s Hg Hp Hm.
    destruct (mongo_collection E collection) as [[]|e] eqn:Hhandle.
    + destruct (execute_aggregate_run E collection limit g d stages s Hg Hp Hm Hhandle)
        as (s' & Hrun & Ho & Hd & _).
      eexists _, s'. split; [exact Hrun|]. split; [exact Hd|]. split.
      * rewrite Ho. destruct (has_limit_stage stages) eqn:Hl.
        -- unfold forwarded. rewrite Hl, (set_lookup_same _ _ _ Hp). exact Hg.
        -- apply lookup_insert_eq.
      * intros Hl. rewrite Ho, Hl. reflexivity.
    + apply execute_aggregate_no_handle. exact Hhandle.
  - intros E q s gen stages Hr Hgen Hs Hqt Hc Hp Hne Hcl Hsafe limit.
    destruct (mongo_collection E (Py.get gen "collection")) as [[]|e] eqn:Hhandle.
    + destruct (aggregate_request_forwarded E q s gen stages Hr Hgen Hs Hqt Hc Hp Hne Hcl
                  Hsafe Hhandle)
        as (r & s' & Hrun & Hg & Ho & _ & Hd).
      exists r, s'. split; [exact Hrun|]. split; [exact Hg|]. split; [exact Ho | exact Hd].
    + destruct (aggregate_request_without_handle E q s gen stages Hr Hgen Hs Hqt Hc Hp Hne
                  Hcl e Hsafe Hhandle)
        as (r & s' & Hrun & Hf & He & Hg & _ & Hd & Ho & _).
      exists r, s'. split; [exact Hrun|]. split; [exact Hg|]. repeat split; assumption.
Qed.

(** The aggregate request of the scenario: two stages go in, three reach
    the driver, and the caller sees three in the generated query. *)
Example aggregate_scenario :
  exists r s' g,
    Scenario.run Scenario.both "clicks per page" = (Ok r, s')
    /\ generated_query r = Some g
    /\ (exists d, objects s' !! g = Some (JDict d)
                  /\ Py.lookup d "pipeline"
                     = Some (JList [Scenario.match_stage; Scenario.group_stage;
                                    JDict [("$limit", JInt 1000)]]))
    /\ db_calls s'
       = [DbAggregate (JStr "events")
                      [Scenario.match_stage; Scenario.group_stage;
                       JDict [("$limit", JInt 1000)]]].
Proof.
  eexists _, _, _. split; [vm_compute; reflexivity|].
  split; [reflexivity|]. split; [|reflexivity].
  eexists. split; [vm_compute; reflexivity | reflexivity].
Qed.

End LimitStage.

(** ** C10: a [filter] field hides the pipeline from the generator's check *)

Section FilterShadowsPipeline.

(** C10.  Once the parsed response has a [filter] field the generator
    checks that field only: with a safe filter the result comes back as a
    success whatever its pipeline holds.  The aggregate response of the
    scenario, with an empty filter and a [$where] in its pipeline, is
    handed back as a success although its pipeline alone would be
    refused; the dispatch-side check then refuses it, so the request fails
    with one tool call and no driver call. *)
Theorem filter_shadows_pipeline :
  (forall (result : dict) (filter : json),
      Py.truthy (Py.get result "success") = true ->
      Py.lookup result "filter" = Some filter ->
      Helpers.validate_mongo_safety filter = Ok (Verdict true None) ->
      MongoQueryGenerator.check_safety result = Ok result)
  /\ (let answer :=
        Answer.answer (Scenario.env Scenario.both) "mongodb" "Collection: events"
                      "events with a condition" [] in
      Py.get answer "success" = JBool true
      /\ Py.get answer "query_type" = JStr "aggregate"
      /\ Py.get answer "filter" = JDict []
      /\ Py.get answer "pipeline" = JList [Scenario.where_stage]
      /\ MongoQueryGenerator.first_unsafe [Scenario.where_stage]
         = Ok (Some (Verdict false (Some "Query contains dangerous operator: $where"))))
  /\ (forall (E : env) (user_query : string) (s : state) (gen : dict)
             (stages : list json),
         routed_database E user_query = "mongodb" ->
         Answer.generated E "mongodb" user_query (conversation_history s) = Ok gen ->
         Py.truthy (Py.get gen "success") = true ->
         Py.get gen "query_type" = JStr "aggregate" ->
         Py.truthy (Py.get gen "collection") = true ->
         Py.lookup gen "pipeline" = Some (JList stages) ->
         stages <> [] ->
         mongodb_client E = true ->
         MongoDBMCPClient.stages_safe stages = Ok false ->
         exists r s',
           DatabaseAgent.process_query E user_query s = (Ok r, s')
           /\ success r = false
           /\ error r = JStr "Pipeline contains unsafe operators"
           /\ length (tool_calls s') = S (length (tool_calls s))
           /\ db_calls s' = db_calls s)
  /\ (exists r s',
         Scenario.run Scenario.both "events with a condition" = (Ok r, s')
         /\ success r = false
         /\ error r = JStr "Pipeline contains unsafe operators"
         /\ tool_calls s'
            = [MongoAggregate (JStr "events") (FieldRef 1%positive "pipeline") (JInt 1000)]
         /\ db_calls s' = []).
Proof.
  split; [|split; [|split]].
  - intros result filter Hs Hf Hv.
    unfold MongoQueryGenerator.check_safety, Py.get_default. rewrite Hs, Hf.
    destruct filter; try (rewrite Hv; reflexivity).
    discriminate.
  - cbv zeta. repeat split; vm_compute; reflexivity.
  - intros E q s gen stages Hr Hgen Hs Hqt Hc Hp Hne Hcl Hunsafe.
    destruct (aggregate_request_refused E q s gen stages Hr Hgen Hs Hqt Hc Hp Hne Hcl Hunsafe)
      as (r & s' & Hrun & Hsucc & He & Ht & Hd & _).
    exists r, s'. repeat split; auto.
    rewrite Ht, length_app. simpl. lia.
  - eexists _, _. split; [vm_compute; reflexivity|]. repeat split.
Qed.

End FilterShadowsPipeline.

(** ** The scenarios of the specification *)

Section Scenarios.

Example relational_only_scenario :
  exists r s',
    Scenario.run ["postgresql"] "show me all customers from New York" = (Ok r, s')
    /\ success r = true
    /\ qr_database r = Some "postgresql"
    /\ row_count r = Some 3%nat
    /\ conversation_history s'
       = [ Message "user" "show me all customers from New York";
           Message "assistant" "Returned 3 rows" ].
Proof. eexists _, _. split; [vm_compute; reflexivity|]. repeat split. Qed.

Example events_route_scenario :
  Router._fast_route Scenario.both "show me all events from today"
  = Routing "mongodb" (QArith_base.Qmake 8 10).
Proof. reflexivity. Qed.

Example malformed_response_scenario :
  exists r s',
    Scenario.run Scenario.both "what do customers think" = (Ok r, s')
    /\ success r = false
    /\ error r
       = JStr "Failed to parse response: Expecting value: line 1 column 1 (char 0)"
    /\ conversation_history s' = [].
Proof. eexists _, _. split; [vm_compute; reflexivity|]. repeat split. Qed.

Example fenced_response_scenario :
  SQLGenerator._parse_response (Scenario.env Scenario.both)
    (Spec.fenced "json" Scenario.customers_text)
  = Ok [ ("sql", JStr Scenario.customers_sql);
         ("explanation", JStr "...");
         ("tables_used", JList [JStr "customers"]);
         ("success", JBool true) ].
Proof. vm_compute. reflexivity. Qed.

End Scenarios.

(** ** The theorems at concrete inputs *)

Section Instances.

Lemma validate_sql_safety_denylist_rule_witness :
  Helpers.validate_sql_safety "select 1; Drop Table users" Settings.blocked_sql_keywords
  = Verdict false (Some "Query contains blocked keyword: DROP")
  /\ ((exists kw, In kw Settings.blocked_sql_keywords
                  /\ Spec.occurs_ignoring_case kw "select 1 from t; select 2 from t;")
      \/ Spec.many_terminators "select 1 from t; select 2 from t;").
Proof.
  destruct validate_sql_safety_denylist_rule as (_ & _ & _ & Hascii & _ & H & _).
  split.
  - apply H. exists "select 1; ", "Drop Table", " users". split; reflexivity.
  - apply Hascii; [reflexivity | repeat constructor | reflexivity].
Defined.

Lemma fast_route_policy_witness :
  Router._fast_route Scenario.both "Which customers placed an order?"
  = Routing "postgresql" (QArith_base.Qmake 8 10)
  /\ Router._fast_route ["mongodb"] "customers events"
     = Routing "mongodb" (QArith_base.Qmake 6 10).
Proof.
  destruct fast_route_policy as (Hrules & Hlower & Hascii & _).
  split.
  - apply Hascii; try reflexivity.
    + exists "customer". split; [left; reflexivity|].
      exists "Which ", "customer", "s placed an order?". split; reflexivity.
    + intros kw Hin Hocc.
      apply keyword_contains_spec in Hocc; [|apply in_or_app; left; exact Hin].
      repeat (destruct Hin as [<-|Hin]; [vm_compute in Hocc; discriminate Hocc|]).
      destruct Hin.
  - rewrite <- Hlower.
    destruct (Hrules PyStr.lower ["mongodb"] "customers events") as (_ & _ & _ & H & _).
    apply H; try reflexivity.
    intros [Hlt _]. vm_compute in Hlt. lia.
Defined.



Lemma process_query_always_returns_witness :
  exists r s',
    Scenario.run Scenario.both "what do customers think" = (Ok r, s')
    /\ success r = false
    /\ error r
       = JStr "Failed to parse response: Expecting value: line 1 column 1 (char 0)".
Proof.
  destruct process_query_always_returns as (_ & _ & _ & _ & _ & H & _).
  apply (H (Scenario.env Scenario.both) "what do customers think" Scenario.fresh_state
           "Table: customers" Scenario.malformed_text
           (Exn JSONDecodeError "Expecting value: line 1 column 1 (char 0)")).
  - reflexivity.
  - reflexivity.
  - reflexivity.
  - reflexivity.
  - reflexivity.
  - intros _. reflexivity.
Defined.

Lemma history_changes_on_full_success_only_witness :
  exists r s',
    Scenario.run ["postgresql"] "show me all customers from New York" = (Ok r, s')
    /\ success r = true
    /\ conversation_history s'
       = [ Message "user" "show me all customers from New York";
           Message "assistant" "Returned 3 rows" ].
Proof.
  destruct history_changes_on_full_success_only as (_ & _ & _ & H & _).
  destruct (H (Scenario.env ["postgresql"]) "show me all customers from New York"
              Scenario.fresh_state
              [ ("sql", JStr Scenario.customers_sql);
                ("explanation", JStr "...");
                ("tables_used", JList [JStr "customers"]);
                ("success", JBool true) ])
    as (r & s' & s0 & xo & sx & Hrun & Hh0 & Ho0 & Ht0 & Hd0 & Hexec & Hcase).
  - reflexivity.
  - reflexivity.
  - exists r, s'. split; [exact Hrun|].
    assert (Hg0 : objects s0 !! gen_loc Scenario.fresh_state
                  = Some (JDict [ ("sql", JStr Scenario.customers_sql);
                                  ("explanation", JStr "...");
                                  ("tables_used", JList [JStr "customers"]);
                                  ("success", JBool true) ])).
    { rewrite Ho0. apply lookup_insert_eq. }
    unfold DatabaseAgent._execute_query, bind, Store.deref_dict in Hexec.
    rewrite Hg0 in Hexec. vm_compute in Hexec. injection Hexec as <- _.
    cbn in Hcase. destruct Hcase as (Hs & _ & _ & _ & Hh). split; [exact Hs | exact Hh].
Defined.


Lemma aggregate_appends_limit_once_witness :
  exists r s',
    Scenario.run Scenario.both "clicks per page" = (Ok r, s')
    /\ db_calls s'
       = [DbAggregate (JStr "events")
                      [Scenario.match_stage; Scenario.group_stage;
                       JDict [("$limit", JInt 1000)]]].
Proof.
  destruct aggregate_appends_limit_once as (_ & _ & H).
  destruct (H (Scenario.env Scenario.both) "clicks per page" Scenario.fresh_state
              [ ("query_type", JStr "aggregate"); ("collection", JStr "events");
                ("pipeline", JList [Scenario.match_stage; Scenario.group_stage]);
                ("success", JBool true) ]
              [Scenario.match_stage; Scenario.group_stage])
    as (r & s' & Hrun & _ & _ & Hd).
  - reflexivity.
  - reflexivity.
  - reflexivity.
  - reflexivity.
  - reflexivity.
  - reflexivity.
  - discriminate.
  - reflexivity.
  - reflexivity.
  - exists r, s'. split; [exact Hrun | exact Hd].
Defined.

Lemma filter_shadows_pipeline_witness :
  MongoQueryGenerator.check_safety
    [ ("query_type", JStr "aggregate"); ("collection", JStr "events");
      ("filter", JDict []); ("pipeline", JList [Scenario.where_stage]);
      ("success", JBool true) ]
  = Ok [ ("query_type", JStr "aggregate"); ("collection", JStr "events");
         ("filter", JDict []); ("pipeline", JList [Scenario.where_stage]);
         ("success", JBool true) ].
Proof.
  destruct filter_shadows_pipeline as (H & _).
  apply (H _ (JDict [])); reflexivity.
Defined.

End Instances.

(** * Further properties of the sources *)

(** ** Text helpers *)

Section TextHelpers.







End TextHelpers.

(** ** The complexity estimate *)

Section Complexity.

Lemma contains_app_mono (kw pre s post : string) :
  PyStr.contains kw s = true -> PyStr.contains kw (pre +:+ s +:+ post) = true.
Proof.
  rewrite !contains_spec. intros (a & b & ->).
  exists (pre +:+ a), (b +:+ post). rewrite !append_assoc. reflexivity.
Qed.

Lemma score_mono (keywords : list string) (a b : string) :
  (forall kw, PyStr.contains kw a = true -> PyStr.contains kw b = true) ->
  (Router.score keywords a <= Router.score keywords b)%nat.
Proof.
  intros H. induction keywords as [|kw rest IH]; simpl; [lia|].
  destruct (PyStr.contains kw a) eqn:Ha.
  - rewrite (H kw Ha). lia.
  - destruct (PyStr.contains kw b); lia.
Qed.

Lemma upper_app (a b : string) : PyStr.upper (a +:+ b) = PyStr.upper a +:+ PyStr.upper b.
Proof. apply map_chars_app. Qed.

Lemma upper_char_idem (c : ascii) : PyStr.upper_char (PyStr.upper_char c) = PyStr.upper_char c.
Proof. destruct c as [[] [] [] [] [] [] [] []]; reflexivity. Qed.

Lemma upper_idem (s : string) : PyStr.upper (PyStr.upper s) = PyStr.upper s.
Proof.
  induction s as [|c s IH]; [reflexivity|].
  unfold PyStr.upper in *. simpl. rewrite upper_char_idem, IH. reflexivity.
Qed.

Lemma level_estimate (sql : string) :
  Utils.level (Utils.estimate_query_complexity sql)
  = let u := PyStr.upper sql in
    if (Nat.leb 2 (Router.score Utils.complex_keywords u)
        || PyStr.contains "SUBQUERY" u)%bool then 2%nat
    else if (Nat.leb 1 (Router.score Utils.complex_keywords u)
             || Nat.leb 2 (Router.score Utils.medium_keywords u))%bool then 1%nat
    else 0%nat.
Proof.
  unfold Utils.estimate_query_complexity. cbv zeta.
  destruct (_ || _)%bool; [reflexivity|].
  destruct (_ || _)%bool; reflexivity.
Qed.

(** X3.  [estimate_query_complexity] answers one of the three levels; it
    sees the statement only through its upper-cased text, so two
    statements that differ in case get the same estimate; and a statement
    embedded in a longer text is never estimated lower than on its own. *)
Theorem estimate_query_complexity_monotone :
  (forall sql, In (Utils.estimate_query_complexity sql) ["high"; "medium"; "low"])
  /\ (forall a b, PyStr.lower a = PyStr.lower b ->
                  Utils.estimate_query_complexity a = Utils.estimate_query_complexity b)
  /\ (forall pre sql post,
         (Utils.level (Utils.estimate_query_complexity sql)
          <= Utils.level (Utils.estimate_query_complexity (pre +:+ sql +:+ post)))%nat).
Proof.
  split; [|split].
  - intros sql. unfold Utils.estimate_query_complexity. cbv zeta.
    destruct (_ || _)%bool; [left; reflexivity|].
    destruct (_ || _)%bool; [right; left; reflexivity | right; right; left; reflexivity].
  - intros a b Hab. apply upper_eq_iff_lower_eq in Hab.
    unfold Utils.estimate_query_complexity. rewrite Hab. reflexivity.
  - intros pre sql post. rewrite !level_estimate. cbv zeta. rewrite !upper_app.
    set (u := PyStr.upper sql). set (v := PyStr.upper pre +:+ u +:+ PyStr.upper post).
    assert (Hmono : forall kw, PyStr.contains kw u = true -> PyStr.contains kw v = true)
      by (intros kw; apply contains_app_mono).
    pose proof (score_mono Utils.complex_keywords u v Hmono) as Hc.
    pose proof (score_mono Utils.medium_keywords u v Hmono) as Hm.
    pose proof (Hmono "SUBQUERY") as Hsub.
    destruct (PyStr.contains "SUBQUERY" u);
      [rewrite (Hsub eq_refl), !orb_true_r; lia|].
    repeat match goal with
           | |- context [Nat.leb ?a ?b] => destruct (Nat.leb_spec a b)
           end;
      destruct (PyStr.contains "SUBQUERY" v); cbn; lia.
Qed.

End Complexity.

(** ** The conversation history inside a generation prompt *)

Section PromptHistory.











End PromptHistory.

(** ** The relational parser's fallback *)

Section SqlFallback.

Lemma search_select_found (s : string) :
  PyStr.contains "SELECT" (PyStr.upper s) = true ->
  exists pre rest,
    s = pre +:+ rest
    /\ SQLGenerator.search_select s = Some rest
    /\ PyStr.startswith "SELECT" (PyStr.upper rest) = true
    /\ (forall a b, pre = a +:+ b -> b <> "" ->
                    PyStr.startswith "SELECT" (PyStr.upper (b +:+ rest)) = false).
Proof.
  induction s as [|c s IH]; intros H.
  - discriminate.
  - cbn [SQLGenerator.search_select].
    destruct (PyStr.startswith "SELECT" (PyStr.upper (String c s))) eqn:Hp.
    + exists "", (String c s). repeat split; auto.
      intros a b Hab Hb. destruct a; [|discriminate]. simpl in Hab. congruence.
    + assert (Hp' := Hp).
      change (PyStr.upper (String c s))
        with (String (PyStr.upper_char c) (PyStr.upper s)) in H, Hp.
      cbn [PyStr.contains] in H. rewrite Hp in H.
      destruct (IH H) as (pre & rest & -> & Hs & Hr & Hfirst).
      exists (String c pre), rest. repeat split; auto.
      intros a b Hab Hb. destruct a as [|c' a].
      * simpl in Hab. subst b. exact Hp'.
      * simpl in Hab. injection Hab as _ Hab. eapply Hfirst; eauto.
Qed.

Lemma search_select_missing (s : string) :
  PyStr.contains "SELECT" (PyStr.upper s) = false ->
  SQLGenerator.search_select s = None.
Proof.
  induction s as [|c s IH]; intros H; [reflexivity|].
  cbn [SQLGenerator.search_select].
  change (PyStr.upper (String c s))
    with (String (PyStr.upper_char c) (PyStr.upper s)) in *.
  cbn [PyStr.contains] in H.
  destruct (PyStr.startswith "SELECT" (String (PyStr.upper_char c) (PyStr.upper s)));
    [discriminate | auto].
Qed.

Lemma select_letters_solid :
  Forall solid (list_ascii_of_string "SELECT").
Proof.
  cbn [list_ascii_of_string].
  repeat (apply List.Forall_cons;
          [intros c; destruct c as [[] [] [] [] [] [] [] []]; vm_compute; intros H;
           first [split; reflexivity | discriminate H]|]).
  apply List.Forall_nil.
Qed.

Lemma rstrip_solid (c : ascii) (s : string) :
  PyStr.isspace c = false -> PyStr.rstrip (String c s) = String c (PyStr.rstrip s).
Proof. intros H. cbn [PyStr.rstrip]. rewrite H. destruct (PyStr.rstrip s); reflexivity. Qed.

Lemma prefix_survives (p s : string) :
  Forall solid (list_ascii_of_string p) ->
  PyStr.startswith p (PyStr.upper s) = true ->
  PyStr.startswith p (PyStr.upper (PyStr.rstrip (SQLGenerator.upto_semicolon s))) = true.
Proof.
  revert s. induction p as [|a p IH]; intros s Hp Hs; [reflexivity|].
  destruct s as [|c s]; [discriminate|].
  change (PyStr.upper (String c s))
    with (String (PyStr.upper_char c) (PyStr.upper s)) in Hs.
  cbn [PyStr.startswith] in Hs.
  destruct (Ascii.eqb a (PyStr.upper_char c)) eqn:Hac; [|discriminate].
  apply Ascii.eqb_eq in Hac. cbn [list_ascii_of_string] in Hp.
  inversion Hp as [|? ? Ha Hrest]; subst.
  destruct (Ha c eq_refl) as [Hspace Hsemi].
  cbn [SQLGenerator.upto_semicolon]. rewrite Hsemi, (rstrip_solid _ _ Hspace).
  change (PyStr.upper (String c ?t)) with (String (PyStr.upper_char c) (PyStr.upper t)).
  cbn [PyStr.startswith]. rewrite Ascii.eqb_refl. apply IH; assumption.
Qed.

Lemma lstrip_solid_start (s : string) :
  PyStr.startswith "SELECT" (PyStr.upper s) = true ->
  PyStr.lstrip (SQLGenerator.upto_semicolon s) = SQLGenerator.upto_semicolon s.
Proof.
  destruct s as [|c s]; [discriminate|].
  change (PyStr.upper (String c s))
    with (String (PyStr.upper_char c) (PyStr.upper s)).
  cbn [PyStr.startswith]. destruct (Ascii.eqb "S" (PyStr.upper_char c)) eqn:Hc; [|discriminate].
  intros _. apply Ascii.eqb_eq in Hc.
  pose proof select_letters_solid as Hsolid. inversion Hsolid as [|? ? Ha _]; subst.
  destruct (Ha c (eq_sym Hc)) as [Hspace Hsemi].
  cbn [SQLGenerator.upto_semicolon]. rewrite Hsemi. cbn [PyStr.lstrip]. rewrite Hspace.
  reflexivity.
Qed.

Lemma count_upto_semicolon (s : string) :
  (PyStr.count PyStr.semicolon (SQLGenerator.upto_semicolon s) <= 1)%nat.
Proof.
  induction s as [|c s IH]; simpl; [lia|].
  destruct (Ascii.eqb c PyStr.semicolon) eqn:Hc; simpl; rewrite Hc; simpl; lia.
Qed.

Lemma count_lstrip (a : ascii) (s : string) :
  (PyStr.count a (PyStr.lstrip s) <= PyStr.count a s)%nat.
Proof.
  induction s as [|c s IH]; simpl; [lia|].
  destruct (PyStr.isspace c); simpl; lia.
Qed.

Lemma count_rstrip (a : ascii) (s : string) :
  (PyStr.count a (PyStr.rstrip s) <= PyStr.count a s)%nat.
Proof.
  induction s as [|c s IH]; simpl; [lia|].
  destruct (PyStr.rstrip s); [destruct (PyStr.isspace c)|]; simpl in *; lia.
Qed.

(** X6.  The fallback of the relational [_parse_response], on an ASCII
    response.  When the cleaned response does not decode as JSON, the
    parser looks for the word SELECT in any case.  If it is there, the
    answer is a success whose statement starts at the first SELECT (no
    SELECT starts before it) and ends with the first semicolon after it
    (or the end of the text), white space stripped: what precedes and
    what follows is dropped, so the statement holds at most one semicolon
    and the safety validation that follows can reject it for a blocked
    keyword only, whatever [str.upper] does to the denylist.  If it is
    not there, the answer is the parse failure. *)
Theorem sql_fallback_extracts_select (E : env) (response : string) (e : exn) :
  let cleaned := Generator.clean_response response in
  PyStr.isascii cleaned = true ->
  json_loads E cleaned = Raise e ->
  exn_cls e = JSONDecodeError ->
  if PyStr.contains "SELECT" (PyStr.upper cleaned) then
    exists pre rest sql,
      cleaned = pre +:+ rest
      /\ PyStr.startswith "SELECT" (PyStr.upper rest) = true
      /\ (forall a b, pre = a +:+ b -> b <> "" ->
                      PyStr.startswith "SELECT" (PyStr.upper (b +:+ rest)) = false)
      /\ sql = PyStr.strip (SQLGenerator.upto_semicolon rest)
      /\ SQLGenerator._parse_response E response
         = Ok [ ("success", JBool true);
                ("sql", JStr sql);
                ("explanation", JStr "Extracted from response");
                ("tables_used", JList []) ]
      /\ PyStr.startswith "SELECT" (PyStr.upper sql) = true
      /\ (PyStr.count PyStr.semicolon sql <= 1)%nat
      /\ (forall upper : string -> string,
             safe (Helpers.validate_sql_safety_with upper sql (blocked_sql_keywords E))
             = false
             <-> exists kw,
                   Helpers.first_blocked_with upper (upper sql) (blocked_sql_keywords E)
                   = Some kw)
  else
    SQLGenerator._parse_response E response = Ok (SQLGenerator.parse_failure e).
Proof.
  intros cleaned _ Hloads Hcls.
  destruct (PyStr.contains "SELECT" (PyStr.upper cleaned)) eqn:Hsel.
  - destruct (search_select_found cleaned Hsel)
      as (pre & rest & Hsplit & Hfound & Hstart & Hfirst).
    exists pre, rest, (PyStr.strip (SQLGenerator.upto_semicolon rest)).
    assert (Hcount : (PyStr.count PyStr.semicolon
                        (PyStr.strip (SQLGenerator.upto_semicolon rest)) <= 1)%nat).
    { unfold PyStr.strip.
      pose proof (count_rstrip PyStr.semicolon
                    (PyStr.lstrip (SQLGenerator.upto_semicolon rest))).
      pose proof (count_lstrip PyStr.semicolon (SQLGenerator.upto_semicolon rest)).
      pose proof (count_upto_semicolon rest). lia. }
    split; [exact Hsplit|]. split; [exact Hstart|]. split; [exact Hfirst|].
    split; [reflexivity|]. split; [|split; [|split]].
    + unfold SQLGenerator._parse_response, SQLGenerator.sql_match. cbv zeta.
      fold cleaned. rewrite Hloads, Hcls, Hfound. reflexivity.
    + unfold PyStr.strip. rewrite (lstrip_solid_start rest Hstart).
      apply prefix_survives; [exact select_letters_solid | exact Hstart].
    + exact Hcount.
    + intros upper. unfold Helpers.validate_sql_safety_with. cbv zeta.
      destruct (Helpers.first_blocked_with _ _ _) as [kw|].
      * split; [eauto | reflexivity].
      * destruct (Nat.ltb_spec 1 (PyStr.count PyStr.semicolon
                                    (PyStr.strip (SQLGenerator.upto_semicolon rest))));
          [lia|].
        split; [discriminate | intros [kw Hkw]; discriminate].
  - unfold SQLGenerator._parse_response, SQLGenerator.sql_match. cbv zeta.
    fold cleaned. rewrite Hloads, Hcls, (search_select_missing cleaned Hsel). reflexivity.
Qed.

End SqlFallback.

(** ** The dispatch-side guards *)

Section DispatchGuards.
Variable E : env.

Lemma pg_is_safe_query_verdict (sql : string) :
  PostgresMCPClient._is_safe_query E (JStr sql)
  = Ok (safe (Helpers.validate_sql_safety sql (blocked_sql_keywords E))).
Proof.
  unfold PostgresMCPClient._is_safe_query, Helpers.validate_sql_safety. cbv zeta.
  destruct (Helpers.first_blocked _ _); [reflexivity|].
  destruct (Nat.ltb _ _); reflexivity.
Qed.

Lemma connector_query_run (sql : string) (s : state) :
  Connector.execute_query E sql s
  = (Ok (driver_answer E (pg_driver E sql)),
     set_db_calls (db_calls s ++ [DbQuery sql]) s).
Proof.
  unfold Connector.execute_query, try_except, bind, Connector.log_db, modify, lift,
    Connector.frame_of, ret, driver_answer.
  destruct (pg_driver E sql) as [[|row rows]|e]; try reflexivity.
  destruct (make_dataframe E (row :: rows)) as [[]|e]; reflexivity.
Qed.


Lemma handle_query_run (sql : string) (s : state) :
  PostgresMCPClient._handle_query E (JStr sql) s
  = if negb (PyStr.nonempty sql)
    then (Ok (exec_error "No SQL query provided"), s)
    else if safe (Helpers.validate_sql_safety sql (blocked_sql_keywords E))
    then (Ok (driver_answer E (pg_driver E sql)),
          set_db_calls (db_calls s ++ [DbQuery sql]) s)
    else (Ok (exec_error "Query contains blocked keywords or operations"), s).
Proof.
  unfold PostgresMCPClient._handle_query. cbn [Py.truthy].
  destruct (PyStr.nonempty sql); cbn [negb]; [|reflexivity].
  unfold bind, lift. rewrite pg_is_safe_query_verdict.
  destruct (safe _); cbn [negb]; [apply connector_query_run | reflexivity].
Qed.


(** X7.  The relational handler of the tool dispatch.  Its own check
    answers exactly as [validate_sql_safety] does with the configured
    denylist, so for a text argument: an empty statement and a statement
    the validator rejects are refused with the state untouched, and every
    other statement is handed to the driver once, as it is; the answer is
    the driver's rows with their count, or the driver's failure.  A
    truthy argument that is not a text raises [AttributeError] before any
    driver call. *)
Theorem handle_query_guard (sql : json) (s : state) :
  match sql with
  | JStr text =>
      PostgresMCPClient._is_safe_query E sql
      = Ok (safe (Helpers.validate_sql_safety text (blocked_sql_keywords E)))
      /\ PostgresMCPClient._handle_query E sql s
         = if negb (PyStr.nonempty text)
           then (Ok (exec_error "No SQL query provided"), s)
           else if safe (Helpers.validate_sql_safety text (blocked_sql_keywords E))
           then (Ok (driver_answer E (pg_driver E text)),
                 set_db_calls (db_calls s ++ [DbQuery text]) s)
           else (Ok (exec_error "Query contains blocked keywords or operations"), s)
  | v =>
      PostgresMCPClient._handle_query E sql s
      = if Py.truthy v then (Raise (Py.no_attribute v "upper"), s)
        else (Ok (exec_error "No SQL query provided"), s)
  end.
Proof.
  destruct sql as [|b|n|f|text|xs|d];
    try (unfold PostgresMCPClient._handle_query;
         match goal with |- context [Py.truthy ?v] => destruct (Py.truthy v) end;
         reflexivity).
  split; [apply pg_is_safe_query_verdict | apply handle_query_run].
Qed.


End DispatchGuards.

(** ** What a successful generation guarantees *)

Section GeneratedFacts.
Variable E : env.
Variables (db user_query : string) (history : list message) (gen : dict).

Hypothesis generated_gen : Answer.generated E db user_query history = Ok gen.
Hypothesis gen_success : Py.truthy (Py.get gen "success") = true.

(** The store of a successful generation is configured. *)
Lemma generated_success_client : Answer.store_client E db = true.
Proof.
  revert generated_gen. unfold Answer.generated.
  destruct (Answer.store_client E db); [reflexivity|].
  intros [= <-]. revert gen_success. unfold Answer.unavailable. cbn. discriminate.
Qed.

(** A successful generation went through the safety step unchanged. *)
Lemma generated_success_checked :
  exists parsed, Answer.safety_step E db parsed = Ok gen.
Proof.
  revert generated_gen. unfold Answer.generated.
  destruct (Answer.store_client E db).
  2:{ intros [= <-]. revert gen_success. unfold Answer.unavailable. cbn. discriminate. }
  destruct (Answer.store_context E db) as [schema|e]; [|discriminate].
  intros [= <-]. revert gen_success.
  unfold Answer.answer, Answer.attempt.
  destruct (Answer.model_reply E db schema user_query history) as [text|e].
  - destruct (Answer.parsed_reply E db text) as [parsed|e].
    + destruct (Answer.safety_step E db parsed) as [result|e] eqn:Hs; [eauto|].
      unfold Answer.generator_failure. destruct (Answer.relational db); cbn; discriminate.
    + unfold Answer.generator_failure. destruct (Answer.relational db); cbn; discriminate.
  - unfold Answer.generator_failure. destruct (Answer.relational db); cbn; discriminate.
Qed.

(** The statement of a successful relational generation has passed
    [validate_sql_safety]. *)
Lemma generated_sql_validated (sql : string) :
  Answer.relational db = true ->
  Py.get gen "sql" = JStr sql -> sql <> "" ->
  safe (Helpers.validate_sql_safety sql (blocked_sql_keywords E)) = true.
Proof.
  intros Hdb Hsql Hne. destruct generated_success_checked as [parsed Hs].
  unfold Answer.safety_step in Hs. rewrite Hdb in Hs.
  unfold SQLGenerator.check_safety in Hs.
  destruct (Py.truthy (Py.get parsed "success") && Py.truthy (Py.get parsed "sql"))%bool
    eqn:Hcond.
  - destruct (Py.get parsed "sql") as [| | | |text| |] eqn:Hp; try discriminate.
    destruct (safe (Helpers.validate_sql_safety text (blocked_sql_keywords E))) eqn:Hsafe;
      cbn [negb] in Hs.
    + injection Hs as <-. rewrite Hp in Hsql. injection Hsql as <-. exact Hsafe.
    + injection Hs as <-. revert gen_success. cbn. discriminate.
  - injection Hs as <-. rewrite gen_success, Hsql in Hcond. cbn in Hcond.
    destruct sql; [contradiction | discriminate].
Qed.


End GeneratedFacts.

(** ** From the execution result to the answer *)

Section Conclusions.
Variable E : env.
Variables (user_query : string) (s : state) (gen : dict).

Lemma driver_answer_sound (rows : outcome (list json)) :
  sound_result E (driver_answer E rows).
Proof.
  unfold sound_result, driver_answer.
  destruct rows as [[|row rows]|e]; cbn; try discriminate.
  - intros _. exists []. repeat split. intros H. contradiction.
  - destruct (make_dataframe E (row :: rows)) as [[]|e] eqn:Hf; cbn; [|discriminate].
    intros _. exists (row :: rows). repeat split. intros _. exact Hf.
Qed.

Lemma exec_error_sound (msg : string) : sound_result E (exec_error msg).
Proof. unfold sound_result. cbn. discriminate. Qed.

Lemma connector_failure_sound (e : exn) : sound_result E (connector_failure e).
Proof. unfold sound_result. cbn. discriminate. Qed.

(** The answer built from a sound execution result. *)
Lemma concluded_sound (x : exec_result) (r : query_result) (history' : list message) :
  sound_result E x ->
  concluded E user_query s gen (Ok x) r history' ->
  query r = user_query
  /\ generated_query r = Some (gen_loc s)
  /\ if x_success x then
       exists rows,
         x_data x = Some rows
         /\ success r = true
         /\ error r = JNull
         /\ data r = rows
         /\ row_count r = Some (length rows)
         /\ dataframe r = (match rows with [] => false | _ => true end)
         /\ history' = conversation_history s ++ acknowledgement user_query (length rows)
     else
       success r = false
       /\ error r = JStr (DatabaseAgent.from_option (x_error x) "Query execution failed")
       /\ data r = []
       /\ row_count r = None
       /\ dataframe r = false
       /\ history' = conversation_history s.
Proof.
  intros Hsound. unfold concluded, recorded.
  destruct (x_success x) eqn:Hx.
  - destruct (Hsound Hx) as (rows & Hdata & Hcount & Hframe). rewrite Hdata, Hcount.
    cbn [DatabaseAgent.from_option].
    destruct rows as [|row rows].
    + intros [-> ->]. repeat split. exists []. repeat split.
    + rewrite (Hframe ltac:(discriminate)).
      intros [-> ->]. repeat split. exists (row :: rows). repeat split.
  - intros [-> ->]. repeat split.
Qed.

End Conclusions.

(** ** Requests that reach a store *)

Section RelationalRequests.
Variable E : env.

Lemma relational_dispatch (gen : dict) (g : loc) (sql : string) (s : state) :
  objects s !! g = Some (JDict gen) ->
  Py.get gen "sql" = JStr sql -> sql <> "" ->
  postgres_client E = true ->
  safe (Helpers.validate_sql_safety sql (blocked_sql_keywords E)) = true ->
  DatabaseAgent._execute_query E "postgresql" g s
  = (Ok (driver_answer E (pg_driver E sql)),
     set_db_calls (db_calls s ++ [DbQuery sql])
       (set_tool_calls (tool_calls s ++ [PostgresQuery (JStr sql)]) s)).
Proof.
  intros Hg Hsql Hne Hclient Hsafe.
  unfold DatabaseAgent._execute_query, bind, Store.deref_dict. rewrite Hg.
  change (String.eqb "postgresql" "postgresql") with true. cbv iota zeta.
  rewrite Hsql. cbn [Py.truthy].
  assert (Hn : PyStr.nonempty sql = true) by (destruct sql; [contradiction | reflexivity]).
  rewrite Hn. cbn [negb].
  unfold MCPManager.execute_tool, bind, modify. rewrite Hclient. cbn [negb].
  rewrite handle_query_run, Hn, Hsafe. reflexivity.
Qed.

(** X9.  A relational request whose generation succeeded with a
    statement.  The statement has passed [validate_sql_safety], the
    relational client is configured, and the request makes exactly one
    tool call and one driver call, both carrying the generated statement
    as it is: the dispatch-side check never refuses what the generator
    let through.  The answer is built from the driver's rows: success
    with the rows, their count and two more history entries, or failure
    with the driver's error and the history as it was. *)
Theorem relational_request_forwarded (user_query : string) (s : state) (gen : dict)
        (sql : string) :
  routed_database E user_query = "postgresql" ->
  Answer.generated E "postgresql" user_query (conversation_history s) = Ok gen ->
  Py.truthy (Py.get gen "success") = true ->
  Py.get gen "sql" = JStr sql ->
  sql <> "" ->
  exists r s',
    DatabaseAgent.process_query E user_query s = (Ok r, s')
    /\ safe (Helpers.validate_sql_safety sql (blocked_sql_keywords E)) = true
    /\ tool_calls s' = tool_calls s ++ [PostgresQuery (JStr sql)]
    /\ db_calls s' = db_calls s ++ [DbQuery sql]
    /\ let x := driver_answer E (pg_driver E sql) in
       if x_success x then
         success r = true
         /\ x_data x = Some (data r)
         /\ row_count r = Some (length (data r))
         /\ conversation_history s'
            = conversation_history s ++ acknowledgement user_query (length (data r))
       else
         success r = false
         /\ error r = JStr (DatabaseAgent.from_option (x_error x) "Query execution failed")
         /\ conversation_history s' = conversation_history s.
Proof.
  intros Hrouted Hgen Hsuccess Hsql Hne.
  pose proof (generated_sql_validated E _ _ _ _ Hgen Hsuccess sql eq_refl Hsql Hne) as Hsafe.
  pose proof (generated_success_client E _ _ _ _ Hgen Hsuccess) as Hclient.
  unfold Answer.store_client in Hclient. cbn in Hclient.
  destruct (process_query_run E user_query s) as (r & s' & Hrun & Hp).
  exists r, s'. split; [exact Hrun|]. split; [exact Hsafe|].
  unfold processed in Hp. rewrite Hrouted, Hgen, Hsuccess in Hp.
  destruct Hp as (s0 & xo & sx & Hh0 & Ho0 & Ht0 & Hd0 & Hexec & Ho & Ht & Hd & Hc).
  assert (Hg0 : objects s0 !! gen_loc s = Some (JDict gen)).
  { rewrite Ho0. apply lookup_insert_eq. }
  rewrite (relational_dispatch gen _ sql s0 Hg0 Hsql Hne Hclient Hsafe) in Hexec.
  injection Hexec as <- <-. cbn in Ht, Hd.
  split; [congruence|]. split; [congruence|].
  pose proof (concluded_sound E user_query s gen _ r _
                (driver_answer_sound E (pg_driver E sql)) Hc) as (_ & _ & Hcase).
  cbv zeta. destruct (x_success (driver_answer E (pg_driver E sql))).
  - destruct Hcase as (rows & Hdat & Hs & _ & <- & Hcount & _ & Hhist).
    repeat split; assumption.
  - destruct Hcase as (Hs & Herr & _ & _ & _ & Hhist). repeat split; assumption.
Qed.

End RelationalRequests.

Section FindRequests.
Variable E : env.



End FindRequests.

(** ** Every execution result is sound *)

Section SoundExecution.
Variable E : env.

Lemma ensures_ret {A} (P : A -> Prop) (a : A) : P a -> ensures P (ret a).
Proof. intros H s a' s' [= <- _]. exact H. Qed.

Lemma ensures_raise {A} (P : A -> Prop) (e : exn) : ensures P (@raise A e).
Proof. intros s a s' [=]. Qed.

Lemma ensures_bind {A B} (P : B -> Prop) (m : M A) (k : A -> M B) :
  (forall a, ensures P (k a)) -> ensures P (bind m k).
Proof.
  intros Hk s b s'. unfold bind. destruct (m s) as [[a|e] s1]; [|discriminate].
  apply Hk.
Qed.

Lemma ensures_try_except {A} (P : A -> Prop) (m : M A) (h : exn -> M A) :
  ensures P m -> (forall e, ensures P (h e)) -> ensures P (try_except m h).
Proof.
  intros Hm Hh s a s'. unfold try_except. destruct (m s) as [[a'|e] s1] eqn:Hrun.
  - intros [= <- <-]. eapply Hm. exact Hrun.
  - apply Hh.
Qed.

(** The tail of every connector: build the frame, answer with the rows. *)
Lemma ensures_framed (rows : list json) :
  ensures (sound_result E) (Connector.frame_of E rows ;;; ret (connector_success rows)).
Proof.
  intros s x s'. unfold bind, Connector.frame_of, lift, ret.
  destruct rows as [|row rows].
  - intros [= <- _]. intros _. exists []. repeat split. intros H. contradiction.
  - destruct (make_dataframe E (row :: rows)) as [[]|e] eqn:Hf; [|discriminate].
    intros [= <- _]. intros _. exists (row :: rows). repeat split. intros _. exact Hf.
Qed.

Ltac ensures_step :=
  first
    [ apply ensures_framed
    | apply ensures_ret; first [apply exec_error_sound | apply connector_failure_sound]
    | apply ensures_raise
    | apply ensures_try_except; [|intros ?]
    | apply ensures_bind; intros ?
    | match goal with
      | |- ensures _ (match ?x with _ => _ end) => destruct x
      end ].

Lemma ensures_execute_tool (call : tool_call) :
  ensures (sound_result E) (MCPManager.execute_tool E call).
Proof.
  unfold MCPManager.execute_tool, PostgresMCPClient._handle_query,
    MongoDBMCPClient._handle_find, MongoDBMCPClient._handle_aggregate,
    Connector.execute_query, Connector.execute_find, Connector.execute_aggregate.
  destruct call; repeat ensures_step.
Qed.

Lemma ensures__execute_query (db : string) (g : loc) :
  ensures (sound_result E) (DatabaseAgent._execute_query E db g).
Proof.
  pose proof ensures_execute_tool.
  unfold DatabaseAgent._execute_query.
  repeat first [solve [auto] | ensures_step].
Qed.

(** X11.  The answer of [process_query] is consistent, whatever the
    model, the decoder, the drivers and the tracing SDK do.  It carries
    the question asked.  If [success] is [True], there is no error, the
    row count is the number of rows in [data], a frame is attached
    exactly when there are rows, and the history has grown by the
    question and the acknowledgement of that many rows.  If [success] is
    [False], there are no rows, no row count and no frame, and the
    history is as it was. *)
Theorem process_query_result_consistent (user_query : string) (s : state) :
  exists r s',
    DatabaseAgent.process_query E user_query s = (Ok r, s')
    /\ query r = user_query
    /\ if success r then
         error r = JNull
         /\ row_count r = Some (length (data r))
         /\ dataframe r = (match data r with [] => false | _ => true end)
         /\ conversation_history s'
            = conversation_history s ++ acknowledgement user_query (length (data r))
       else
         data r = []
         /\ row_count r = None
         /\ dataframe r = false
         /\ conversation_history s' = conversation_history s.
Proof.
  destruct (process_query_run E user_query s) as (r & s' & Hrun & Hp).
  exists r, s'. split; [exact Hrun|].
  unfold processed in Hp.
  destruct (Answer.generated E _ user_query (conversation_history s)) as [gen|e].
  2:{ destruct Hp as (-> & Hh & _). cbn. repeat split. exact Hh. }
  destruct (Py.truthy (Py.get gen "success")).
  2:{ destruct Hp as (-> & Hh & _). cbn. repeat split. exact Hh. }
  destruct Hp as (s0 & xo & sx & _ & _ & _ & _ & Hexec & _ & _ & _ & Hc).
  destruct xo as [x|e].
  - pose proof (ensures__execute_query _ _ _ _ _ Hexec) as Hsound.
    destruct (concluded_sound E user_query s gen x r _ Hsound Hc) as (Hq & _ & Hcase).
    split; [exact Hq|].
    destruct (x_success x).
    + destruct Hcase as (rows & _ & -> & Herr & <- & Hcount & Hframe & Hhist).
      repeat split; assumption.
    + destruct Hcase as (-> & _ & Hdata & Hcount & Hframe & Hhist).
      repeat split; assumption.
  - cbn in Hc. destruct Hc as [-> Hh]. cbn. repeat split. exact Hh.
Qed.

End SoundExecution.

(** ** One request, at most one operation *)

Section OneOperation.
Variable E : env.

Lemma guarded_failure (call : tool_call) (x : exec_result) :
  x_success x = false -> guarded call (ret x).
Proof. intros Hx s o s' [= <- <-]. left. split; [reflexivity|]. intros x' [= <-]. exact Hx. Qed.

Lemma guarded_raise (call : tool_call) (e : exn) : guarded call (raise e).
Proof. intros s o s' [= <- <-]. left. split; [reflexivity | discriminate]. Qed.

Lemma guarded_bind {A} (call : tool_call) (m : M A) (k : A -> M exec_result) :
  keeps db_calls m -> (forall a, guarded call (k a)) -> guarded call (bind m k).
Proof.
  intros Hm Hk s o s'. unfold bind. destruct (m s) as [[a|e] s1] eqn:Hrun.
  - intros Hrest. rewrite <- (Hm _ _ _ Hrun). eapply Hk. exact Hrest.
  - intros [= <- <-]. left. split; [eapply Hm; exact Hrun | discriminate].
Qed.

Lemma guarded_logged {A} (call : tool_call) (c : db_call) (k : unit -> M A)
      (after : A -> M exec_result) :
  same_target call c -> (forall u, keeps db_calls (bind (k u) after)) ->
  guarded call (bind (Connector.log_db c) (fun u => bind (k u) after)).
Proof.
  intros Hc Hk s o s'. unfold bind at 1. unfold Connector.log_db, modify.
  intros Hrest. right. exists c. split; [|exact Hc].
  rewrite (Hk tt _ _ _ Hrest). reflexivity.
Qed.

Lemma guarded_try_except (call : tool_call) (m : M exec_result) (hx : exn -> exec_result) :
  guarded call m -> (forall e, x_success (hx e) = false) ->
  guarded call (try_except m (fun e => ret (hx e))).
Proof.
  intros Hm Hh s o s'. unfold try_except, ret. destruct (m s) as [[x|e] s1] eqn:Hrun.
  - intros [= <- <-]. eapply Hm. exact Hrun.
  - intros [= <- <-]. destruct (Hm _ _ _ Hrun) as [[Hd _]|Hlogged].
    + left. split; [exact Hd|]. intros x [= <-]. apply Hh.
    + right. exact Hlogged.
Qed.

Ltac keeps_db :=
  repeat first
    [ apply keeps_ret | apply keeps_raise | apply keeps_lift
    | apply keeps_deref | apply keeps_deref_dict | apply keeps_frame_of
    | apply keeps_append; intros; reflexivity
    | apply keeps_bind; [|intros ?]
    | match goal with
      | |- keeps _ (match ?x with _ => _ end) => destruct x
      end ].

Ltac guarded_step :=
  first
    [ apply guarded_failure; reflexivity
    | apply guarded_raise
    | apply guarded_try_except; [|intros ?; reflexivity]
    | apply guarded_logged; [cbn; auto | intros ?; solve [keeps_db]]
    | apply guarded_bind; [solve [keeps_db] | intros ?]
    | match goal with
      | |- guarded _ (match ?x with _ => _ end) => destruct x
      end ].

Lemma guarded_handle_query (sql : json) :
  guarded (PostgresQuery sql) (PostgresMCPClient._handle_query E sql).
Proof.
  unfold PostgresMCPClient._handle_query, Connector.execute_query.
  destruct sql; repeat guarded_step.
Qed.

Lemma guarded_handle_find (collection filter_query projection sort limit : json) :
  guarded (MongoFind collection filter_query projection sort limit)
    (MongoDBMCPClient._handle_find E collection filter_query projection sort limit).
Proof.
  unfold MongoDBMCPClient._handle_find, Connector.execute_find. cbv zeta.
  destruct filter_query as [| | | | | |f].
  1-6: (destruct (negb (Py.truthy collection)); [apply guarded_failure; reflexivity|];
        intros st o st'; unfold bind, lift; cbn; intros [= <- <-];
        left; split; [reflexivity | discriminate]).
  replace (py_or (JDict f) (JDict [])) with (JDict f)
    by (unfold py_or; destruct f; reflexivity).
  repeat guarded_step.
Qed.

Lemma guarded_handle_aggregate (collection : json) (pipeline : arg_ref) (limit : json) :
  guarded (MongoAggregate collection pipeline limit)
    (MongoDBMCPClient._handle_aggregate E collection pipeline limit).
Proof.
  unfold MongoDBMCPClient._handle_aggregate, Connector.execute_aggregate. cbv zeta.
  repeat guarded_step.
Qed.

Lemma keeps_tool_calls_handlers (call : tool_call) :
  keeps tool_calls
    (match call with
     | PostgresQuery sql => PostgresMCPClient._handle_query E sql
     | MongoFind collection filter_query projection sort limit =>
         MongoDBMCPClient._handle_find E collection filter_query projection sort limit
     | MongoAggregate collection pipeline limit =>
         MongoDBMCPClient._handle_aggregate E collection pipeline limit
     end).
Proof.
  pose proof (keeps_execute_query E tool_calls ltac:(reflexivity)).
  pose proof (keeps_execute_find E tool_calls ltac:(reflexivity)).
  pose proof (keeps_execute_aggregate E tool_calls ltac:(reflexivity) ltac:(reflexivity)).
  unfold PostgresMCPClient._handle_query, MongoDBMCPClient._handle_find,
    MongoDBMCPClient._handle_aggregate.
  destruct call; repeat first [solve [auto] | progress keeps_db].
Qed.

Lemma execute_tool_effect (call : tool_call) (s : state) o s' :
  MCPManager.execute_tool E call s = (o, s') ->
  tool_calls s' = tool_calls s ++ [call]
  /\ ((db_calls s' = db_calls s /\ forall x, o = Ok x -> x_success x = false)
      \/ exists d, db_calls s' = db_calls s ++ [d] /\ same_target call d).
Proof.
  unfold MCPManager.execute_tool. unfold bind at 1. unfold modify.
  set (s1 := set_tool_calls (tool_calls s ++ [call]) s).
  intros Hrun.
  assert (Hguard : guarded call
            (match call with
             | PostgresQuery sql =>
                 if negb (postgres_client E) then ret (exec_error "PostgreSQL not configured")
                 else PostgresMCPClient._handle_query E sql
             | MongoFind collection filter_query projection sort limit =>
                 if negb (mongodb_client E) then ret (exec_error "MongoDB not configured")
                 else MongoDBMCPClient._handle_find E collection filter_query projection
                        sort limit
             | MongoAggregate collection pipeline limit =>
                 if negb (mongodb_client E) then ret (exec_error "MongoDB not configured")
                 else MongoDBMCPClient._handle_aggregate E collection pipeline limit
             end)).
  { destruct call.
    - destruct (negb (postgres_client E));
        [apply guarded_failure; reflexivity | apply guarded_handle_query].
    - destruct (negb (mongodb_client E));
        [apply guarded_failure; reflexivity | apply guarded_handle_find].
    - destruct (negb (mongodb_client E));
        [apply guarded_failure; reflexivity | apply guarded_handle_aggregate]. }
  assert (Hkeep : tool_calls s' = tool_calls s1).
  { pose proof (keeps_tool_calls_handlers call) as Hk.
    destruct call.
    - destruct (negb (postgres_client E)); [injection Hrun as _ <-; reflexivity|].
      eapply Hk. exact Hrun.
    - destruct (negb (mongodb_client E)); [injection Hrun as _ <-; reflexivity|].
      eapply Hk. exact Hrun.
    - destruct (negb (mongodb_client E)); [injection Hrun as _ <-; reflexivity|].
      eapply Hk. exact Hrun. }
  split; [exact Hkeep|]. exact (Hguard _ _ _ Hrun).
Qed.

Lemma _execute_query_effect (db : string) (g : loc) (s : state) o s' :
  DatabaseAgent._execute_query E db g s = (o, s') ->
  (forall x, o = Ok x -> x_success x = false)
  /\ tool_calls s' = tool_calls s /\ db_calls s' = db_calls s
  \/ exists call,
       tool_calls s' = tool_calls s ++ [call]
       /\ ((db_calls s' = db_calls s /\ forall x, o = Ok x -> x_success x = false)
           \/ exists d, db_calls s' = db_calls s ++ [d] /\ same_target call d).
Proof.
  unfold DatabaseAgent._execute_query. unfold bind at 1. unfold Store.deref_dict.
  assert (Hnone : forall msg, (Ok (exec_error msg), s) = (o, s') ->
            (forall x, o = Ok x -> x_success x = false)
            /\ tool_calls s' = tool_calls s /\ db_calls s' = db_calls s).
  { intros msg [= <- <-]. split; [intros x [= <-]; reflexivity | split; reflexivity]. }
  destruct (objects s !! g) as [[| | | | | |d]|];
    try (intros [= <- <-]; left; split; [discriminate | split; reflexivity]).
  cbv zeta.
  repeat match goal with
         | |- (if ?b then _ else _) s = _ -> _ => destruct b
         end;
    first [ intros Hrun; left; exact (Hnone _ Hrun)
          | intros Hrun; right; eexists; exact (execute_tool_effect _ _ _ _ Hrun) ].
Qed.

(** X12.  One request hands at most one operation to a store for
    execution.  Whatever the model, the decoder and the drivers do,
    [process_query] either makes no tool call and executes nothing, or
    makes exactly one tool call and then has at most one statement, find
    or aggregation executed by a driver; what is executed is of the kind
    of the tool call and on its statement or collection.  A request that
    had nothing executed does not report success.  The schema reads that
    [get_context] makes when a generator is first built are not counted:
    their outcome is taken from the environment. *)
Theorem one_operation_per_request (user_query : string) (s : state) :
  exists r s',
    DatabaseAgent.process_query E user_query s = (Ok r, s')
    /\ ((success r = false /\ tool_calls s' = tool_calls s /\ db_calls s' = db_calls s)
        \/ exists call,
             tool_calls s' = tool_calls s ++ [call]
             /\ ((success r = false /\ db_calls s' = db_calls s)
                 \/ exists d, db_calls s' = db_calls s ++ [d] /\ same_target call d)).
Proof.
  destruct (process_query_run E user_query s) as (r & s' & Hrun & Hp).
  exists r, s'. split; [exact Hrun|].
  unfold processed in Hp.
  destruct (Answer.generated E _ user_query (conversation_history s)) as [gen|e].
  2:{ destruct Hp as (-> & _ & _ & Ht & Hd). left. cbn. auto. }
  destruct (Py.truthy (Py.get gen "success")).
  2:{ destruct Hp as (-> & _ & _ & Ht & Hd). left. cbn. auto. }
  destruct Hp as (s0 & xo & sx & _ & _ & Ht0 & Hd0 & Hexec & _ & Ht & Hd & Hc).
  assert (Hfail : (forall x, xo = Ok x -> x_success x = false) -> success r = false).
  { intros Hx. unfold concluded in Hc. destruct xo as [x|e].
    - rewrite (Hx x eq_refl) in Hc. destruct Hc as [-> _]. reflexivity.
    - destruct Hc as [-> _]. reflexivity. }
  rewrite Ht, Hd, <- Ht0, <- Hd0.
  destruct (_execute_query_effect _ _ _ _ _ Hexec)
    as [(Hx & Ht1 & Hd1)|(call & Ht1 & [[Hd1 Hx]|Hlogged])].
  - left. auto.
  - right. exists call. split; [exact Ht1|]. left. auto.
  - right. exists call. split; [exact Ht1|]. right. exact Hlogged.
Qed.

End OneOperation.

(** ** Tracing does not interfere *)

Section TracingTransparent.
Variable E : env.

Lemma agree_refl (s : state) : agree s s.
Proof. repeat split. Qed.

Lemma respects_ret {A} (a : A) : respects (ret a).
Proof. intros s1 s2 H. split; [reflexivity | exact H]. Qed.

Lemma respects_raise {A} (e : exn) : respects (@raise A e).
Proof. intros s1 s2 H. split; [reflexivity | exact H]. Qed.

Lemma respects_lift {A} (o : outcome A) : respects (lift o).
Proof. intros s1 s2 H. split; [reflexivity | exact H]. Qed.

Lemma respects_modify (g : state -> state) :
  (forall s1 s2, agree s1 s2 -> agree (g s1) (g s2)) -> respects (modify g).
Proof. intros Hg s1 s2 H. split; [reflexivity | apply Hg, H]. Qed.

Lemma respects_bind {A B} (m : M A) (k : A -> M B) :
  respects m -> (forall a, respects (k a)) -> respects (bind m k).
Proof.
  intros Hm Hk s1 s2 H. unfold bind. destruct (Hm s1 s2 H) as [Ho Hs].
  destruct (m s1) as [o1 s1'], (m s2) as [o2 s2']. cbn in Ho, Hs. subst o2.
  destruct o1 as [a|e]; [apply Hk, Hs | split; [reflexivity | exact Hs]].
Qed.

Lemma respects_try_except {A} (m : M A) (h : exn -> M A) :
  respects m -> (forall e, respects (h e)) -> respects (try_except m h).
Proof.
  intros Hm Hh s1 s2 H. unfold try_except. destruct (Hm s1 s2 H) as [Ho Hs].
  destruct (m s1) as [o1 s1'], (m s2) as [o2 s2']. cbn in Ho, Hs. subst o2.
  destruct o1 as [a|e]; [split; [reflexivity | exact Hs] | apply Hh, Hs].
Qed.

Lemma respects_deref_dict (g : loc) : respects (Store.deref_dict g).
Proof.
  intros s1 s2 H. unfold Store.deref_dict.
  destruct H as (Hh & Ho & Ht & Hd). rewrite Ho.
  destruct (objects s2 !! g) as [[]|]; (split; [reflexivity | repeat split; assumption]).
Qed.

Ltac agree_modify :=
  intros ? ? (? & ? & ? & ?); repeat split; cbn; congruence.

Ltac respects_step :=
  first
    [ apply respects_ret | apply respects_raise | apply respects_lift
    | apply respects_deref_dict
    | apply respects_modify; agree_modify
    | apply respects_bind; [|intros ?]
    | apply respects_try_except; [|intros ?]
    | match goal with
      | |- respects (match ?x with _ => _ end) => destruct x
      end ].

Lemma respects__execute_query (db : string) (g : loc) :
  respects (DatabaseAgent._execute_query E db g).
Proof.
  unfold DatabaseAgent._execute_query, MCPManager.execute_tool,
    PostgresMCPClient._handle_query, MongoDBMCPClient._handle_find,
    MongoDBMCPClient._handle_aggregate,
    Connector.execute_query, Connector.execute_find, Connector.execute_aggregate,
    Connector.log_db, Connector.frame_of, Store.deref, Store.append.
  repeat respects_step.
Qed.

(** The answer and the state a request leaves are functions of the
    environment's functional part and of what [agree] compares. *)
Lemma processed_functional (enabled : bool) (fault : nat -> option exn)
      (user_query : string) (s1 s2 : state) r1 s1' r2 s2' :
  agree s1 s2 ->
  processed E user_query s1 r1 s1' ->
  processed (with_tracing E enabled fault) user_query s2 r2 s2' ->
  r1 = r2 /\ agree s1' s2'.
Proof.
  intros (Hh & Ho & Ht & Hd) H1 H2. unfold processed in H1, H2.
  change (routed_database (with_tracing E enabled fault) user_query)
    with (routed_database E user_query) in H2.
  change (Answer.generated (with_tracing E enabled fault))
    with (Answer.generated E) in H2.
  change (DatabaseAgent._execute_query (with_tracing E enabled fault))
    with (DatabaseAgent._execute_query E) in H2.
  unfold gen_loc in H1, H2. rewrite <- Hh, <- Ho, <- Ht, <- Hd in H2.
  destruct (Answer.generated E _ user_query (conversation_history s1)) as [gen|e].
  2:{ destruct H1 as (-> & ? & ? & ? & ?), H2 as (-> & ? & ? & ? & ?).
      split; [reflexivity | repeat split; congruence]. }
  destruct (Py.truthy (Py.get gen "success")).
  2:{ destruct H1 as (-> & ? & ? & ? & ?), H2 as (-> & ? & ? & ? & ?).
      split; [reflexivity | repeat split; congruence]. }
  destruct H1 as (a0 & xo & ax & Ah & Ao & At & Ad & Aexec & Ao' & At' & Ad' & Ac).
  destruct H2 as (b0 & yo & bx & Bh & Bo & Bt & Bd & Bexec & Bo' & Bt' & Bd' & Bc).
  assert (Hagree : agree a0 b0) by (repeat split; congruence).
  destruct (respects__execute_query (routed_database E user_query)
              (fresh (dom (objects s1))) a0 b0 Hagree) as [Hout (_ & Hxo & Hxt & Hxd)].
  rewrite Aexec, Bexec in Hout, Hxo, Hxt, Hxd. cbn in Hout, Hxo, Hxt, Hxd. subst yo.
  assert (Hr : r1 = r2 /\ conversation_history s1' = conversation_history s2').
  { revert Ac Bc. unfold concluded, recorded.
    change (make_dataframe (with_tracing E enabled fault)) with (make_dataframe E).
    unfold generated_result, gen_loc, routed_result.
    change (routed_database (with_tracing E enabled fault) user_query)
      with (routed_database E user_query).
    rewrite <- Hh, <- Ho.
    destruct xo as [x|e].
    - destruct (x_success x).
      + destruct (DatabaseAgent.from_option (x_data x) []) as [|row rows].
        * intros [-> ->] [-> ->]. split; reflexivity.
        * destruct (make_dataframe E (row :: rows));
            intros [-> ->] [-> ->]; split; reflexivity.
      + intros [-> ->] [-> ->]. split; reflexivity.
    - intros [-> ->] [-> ->]. split; reflexivity. }
  destruct Hr as [-> Hhist]. split; [reflexivity|]. repeat split; congruence.
Qed.

(** X13.  Tracing is transparent.  Run the same request with tracing
    configured in any two ways (enabled or not, the SDK failing at any of
    its calls or at none), from two states that differ at most in the
    count of SDK calls and in the stale local result: both runs return
    the same answer and leave the same history, the same decoded objects,
    the same tool calls and the same driver calls. *)
Theorem tracing_is_transparent (enabled : bool) (fault : nat -> option exn)
        (user_query : string) (s1 s2 : state) :
  agree s1 s2 ->
  exists r s1' s2',
    DatabaseAgent.process_query E user_query s1 = (Ok r, s1')
    /\ DatabaseAgent.process_query (with_tracing E enabled fault) user_query s2 = (Ok r, s2')
    /\ agree s1' s2'.
Proof.
  intros Hagree.
  destruct (process_query_run E user_query s1) as (r1 & s1' & Hrun1 & Hp1).
  destruct (process_query_run (with_tracing E enabled fault) user_query s2)
    as (r2 & s2' & Hrun2 & Hp2).
  destruct (processed_functional enabled fault user_query s1 s2 r1 s1' r2 s2'
              Hagree Hp1 Hp2) as [-> Hfinal].
  exists r2, s1', s2'. auto.
Qed.

End TracingTransparent.

(** ** Tracing switched off *)

Section TracingOff.
Variable E : env.
Hypothesis tracing_off : langfuse_enabled E = false.

Lemma calm_ret {A} (P : A -> Prop) (a : A) : P a -> calm P (ret a).
Proof. intros H s o s' [= <- <-]. split; [reflexivity|]. intros a' [= <-]. exact H. Qed.

Lemma calm_keeps {A} (m : M A) : keeps sdk_calls m -> calm (fun _ => True) m.
Proof. intros H s o s' Hrun. split; [eapply H; exact Hrun | auto]. Qed.

Lemma calm_bind {A B} (P : A -> Prop) (Q : B -> Prop) (m : M A) (k : A -> M B) :
  calm P m -> (forall a, P a -> calm Q (k a)) -> calm Q (bind m k).
Proof.
  intros Hm Hk s o s'. unfold bind. destruct (m s) as [[a|e] s1] eqn:Hrun.
  - destruct (Hm _ _ _ Hrun) as [Hn Ha]. intros Hrest.
    destruct (Hk a (Ha a eq_refl) _ _ _ Hrest) as [Hn' Hb].
    split; [congruence | exact Hb].
  - intros [= <- <-]. destruct (Hm _ _ _ Hrun) as [Hn _].
    split; [exact Hn | discriminate].
Qed.

Lemma calm_try_except {A} (P : A -> Prop) (m : M A) (h : exn -> M A) :
  calm P m -> (forall e, calm P (h e)) -> calm P (try_except m h).
Proof.
  intros Hm Hh s o s'. unfold try_except. destruct (m s) as [[a|e] s1] eqn:Hrun.
  - intros [= <- <-]. eapply Hm. exact Hrun.
  - intros Hrest. destruct (Hm _ _ _ Hrun) as [Hn _].
    destruct (Hh e _ _ _ Hrest) as [Hn' Ha]. split; [congruence | exact Ha].
Qed.

Lemma calm_try_finally {A} (P : A -> Prop) (Q : unit -> Prop) (m : M A) (f : M unit) :
  calm P m -> calm Q f -> calm P (try_finally m f).
Proof.
  intros Hm Hf s o s'. unfold try_finally. destruct (m s) as [o1 s1] eqn:Hrun.
  destruct (Hm _ _ _ Hrun) as [Hn Ha].
  destruct (f s1) as [[u|e] s2] eqn:Hfin; destruct (Hf _ _ _ Hfin) as [Hn' _];
    intros [= <- <-]; (split; [congruence|]); [exact Ha | discriminate].
Qed.

Lemma idle_new : idle QueryTracer.new.
Proof. split; reflexivity. Qed.

Lemma calm_start_trace t : idle t -> calm idle (QueryTracer.start_trace E t).
Proof. intros H. unfold QueryTracer.start_trace. rewrite tracing_off. apply calm_ret, H. Qed.

Lemma calm_start_span t : idle t -> calm idle (QueryTracer.start_span E t).
Proof. intros H. unfold QueryTracer.start_span. rewrite tracing_off. apply calm_ret, H. Qed.

Lemma calm_end_span t b : idle t -> calm idle (QueryTracer.end_span E t b).
Proof.
  intros H. unfold QueryTracer.end_span. destruct H as [Hr Hc]. rewrite Hc.
  apply calm_ret. split; assumption.
Qed.

Lemma calm_log_generation t : idle t -> calm idle (QueryTracer.log_generation E t).
Proof.
  intros H. unfold QueryTracer.log_generation. rewrite tracing_off. apply calm_ret, H.
Qed.

Lemma calm_log_score t : idle t -> calm idle (QueryTracer.log_score E t).
Proof.
  intros H. unfold QueryTracer.log_score. destruct H as [Hr Hc]. rewrite Hr.
  apply calm_ret. split; assumption.
Qed.

Lemma calm_finish t : idle t -> calm (fun _ => True) (QueryTracer.finish E t).
Proof.
  intros [Hr Hc]. unfold QueryTracer.finish, Langfuse.flush. rewrite Hr, tracing_off.
  apply (calm_bind (fun _ => True)); [apply calm_ret; exact I|].
  intros _ _. apply calm_ret. exact I.
Qed.

Lemma keeps_alloc {B} (f : state -> B) (v : json) :
  (forall o s, f (set_objects o s) = f s) -> keeps f (Store.alloc v).
Proof. intros Hf s o s' [= <- <-]. apply Hf. Qed.

Ltac keeps_sdk :=
  repeat first
    [ apply keeps_ret | apply keeps_raise | apply keeps_lift | apply keeps_gets
    | apply keeps_modify; intros; reflexivity
    | apply keeps_alloc; intros; reflexivity
    | apply keeps__execute_query; intros; reflexivity
    | apply keeps_bind; [|intros ?]
    | match goal with
      | |- keeps _ (match ?x with _ => _ end) => destruct x
      | |- keeps _ (DatabaseAgent.update_result _) => unfold DatabaseAgent.update_result
      | |- keeps _ (DatabaseAgent.history_append _) => unfold DatabaseAgent.history_append
      end ].

Ltac calm_step :=
  lazymatch goal with
  | |- calm _ (bind (QueryTracer.start_trace _ _) _) =>
      eapply calm_bind; [apply calm_start_trace; assumption | intros ? ?]
  | |- calm _ (bind (QueryTracer.start_span _ _) _) =>
      eapply calm_bind; [apply calm_start_span; assumption | intros ? ?]
  | |- calm _ (bind (QueryTracer.end_span _ _ _) _) =>
      eapply calm_bind; [apply calm_end_span; assumption | intros ? ?]
  | |- calm _ (bind (QueryTracer.log_generation _ _) _) =>
      eapply calm_bind; [apply calm_log_generation; assumption | intros ? ?]
  | |- calm _ (bind (QueryTracer.log_score _ _) _) =>
      eapply calm_bind; [apply calm_log_score; assumption | intros ? ?]
  | |- calm _ (bind (QueryTracer.finish _ _) _) =>
      eapply calm_bind; [apply calm_finish; assumption | intros ? _]
  | |- calm _ (QueryTracer.finish _ _) => apply calm_finish; assumption
  | |- calm _ (bind (try_finally _ _) _) =>
      eapply calm_bind; [apply (calm_try_finally (fun _ => True) (fun _ => True)) | intros ? _]
  | |- calm _ (try_except _ _) => apply calm_try_except; [|intros ?]
  | |- calm _ (ret _) => apply calm_ret; exact I
  | |- calm _ (if ?b then _ else _) => destruct b
  | |- calm _ (bind _ _) =>
      eapply calm_bind; [apply calm_keeps; solve [keeps_sdk] | intros ? _]
  | |- calm _ _ => apply calm_keeps; solve [keeps_sdk]
  end.

Lemma calm_sql_generate schema user_query history :
  calm (fun _ => True) (SQLGenerator.generate E schema user_query history).
Proof.
  pose proof idle_new. unfold SQLGenerator.generate. cbv zeta. repeat calm_step.
Qed.

Lemma calm_mongo_generate schema user_query history :
  calm (fun _ => True) (MongoQueryGenerator.generate E schema user_query history).
Proof.
  pose proof idle_new. unfold MongoQueryGenerator.generate. cbv zeta. repeat calm_step.
Qed.

Lemma calm_generation user_query :
  calm (fun _ => True)
    (if String.eqb (database (DatabaseAgent._fast_route E user_query)) "postgresql"
     then DatabaseAgent._generate_postgres_query E user_query
     else DatabaseAgent._generate_mongodb_query E user_query).
Proof.
  destruct (String.eqb _ _).
  - unfold DatabaseAgent._generate_postgres_query, DatabaseAgent.sql_generator.
    destruct (postgres_client E).
    + eapply calm_bind; [apply calm_keeps; keeps_sdk | intros [schema|] _].
      * eapply calm_bind; [apply calm_keeps; keeps_sdk | intros history _].
        apply calm_sql_generate.
      * apply calm_ret. exact I.
    + apply (calm_bind (fun _ => True)); [apply calm_ret; exact I | intros [schema|] _].
      * eapply calm_bind; [apply calm_keeps; keeps_sdk | intros history _].
        apply calm_sql_generate.
      * apply calm_ret. exact I.
  - unfold DatabaseAgent._generate_mongodb_query, DatabaseAgent.mongo_generator.
    destruct (mongodb_client E).
    + eapply calm_bind; [apply calm_keeps; keeps_sdk | intros [schema|] _].
      * eapply calm_bind; [apply calm_keeps; keeps_sdk | intros history _].
        apply calm_mongo_generate.
      * apply calm_ret. exact I.
    + apply (calm_bind (fun _ => True)); [apply calm_ret; exact I | intros [schema|] _].
      * eapply calm_bind; [apply calm_keeps; keeps_sdk | intros history _].
        apply calm_mongo_generate.
      * apply calm_ret. exact I.
Qed.

Lemma calm_process_query user_query :
  calm (fun _ => True) (DatabaseAgent.process_query E user_query).
Proof.
  pose proof idle_new.
  unfold DatabaseAgent.process_query, DatabaseAgent.process_query_try,
    DatabaseAgent.process_query_except.
  do 3 calm_step.
  { cbv zeta. do 5 calm_step.
    eapply calm_bind; [apply calm_generation | intros gen _].
    repeat calm_step. }
  all: repeat calm_step.
Qed.

End TracingOff.

(** X14.  With Langfuse not enabled the request makes no call into the
    tracing SDK: from the start of [process_query] to its return,
    through both generators, the count of SDK calls stays as it was. *)
Theorem tracing_off_makes_no_sdk_call (E : env) (user_query : string) (s : state) :
  langfuse_enabled E = false ->
  exists r s',
    DatabaseAgent.process_query E user_query s = (Ok r, s')
    /\ sdk_calls s' = sdk_calls s.
Proof.
  intros Hoff. destruct (process_query_run E user_query s) as (r & s' & Hrun & _).
  exists r, s'. split; [exact Hrun|].
  apply (calm_process_query E Hoff user_query _ _ _ Hrun).
Qed.

(** ** The model-backed router *)

Section ModelRouter.
Variable E : env.
Variable llm_route : routing_prompt -> outcome string.

Lemma first_available_in (db : string) :
  QueryRouter.first_available E = Ok db -> In db (available_databases E).
Proof.
  unfold QueryRouter.first_available.
  destruct (available_databases E) as [|db' rest]; [discriminate|].
  intros [= <-]. left. reflexivity.
Qed.

Lemma parse_routing_database (response : string) (d : dict) :
  QueryRouter._parse_routing_response E response = Ok d ->
  exists db, Py.lookup d "database" = Some (JStr db) /\ In db (available_databases E).
Proof.
  unfold QueryRouter._parse_routing_response.
  destruct (QueryRouter.clean_response response) as [cleaned|e]; [|discriminate].
  destruct (json_loads E cleaned) as [[| | | | | |result]|e]; try discriminate.
  - destruct (QueryRouter.is_available E (Py.get result "database")) eqn:Hav; cbn [negb].
    + intros [= <-]. unfold Py.get, Py.get_default in Hav.
      destruct (Py.lookup result "database") as [[| | | |db| |]|]; try discriminate.
      exists db. split; [reflexivity|]. apply mem_In. exact Hav.
    + destruct (QueryRouter.first_available E) as [db|e] eqn:Hfirst; [|discriminate].
      intros [= <-]. exists db. split; [|apply first_available_in; exact Hfirst].
      rewrite lookup_set_other by discriminate. apply lookup_set_same.
  - destruct (exn_cls e); try discriminate.
    destruct (QueryRouter.first_available E) as [db|e'] eqn:Hfirst; [|discriminate].
    intros [= <-]. exists db. split; [reflexivity | apply first_available_in; exact Hfirst].
Qed.

(** X15.  [QueryRouter.route_query] never leaves the configured stores.
    With exactly one store it answers that store with confidence 1.0,
    whatever the model would say.  With two or more it answers a mapping
    whose ["database"] is one of the configured stores, whatever the
    model answers and however the call or the decoding fails: a store
    the model names that is not configured is replaced by the first
    configured one.  With no store at all every path ends in
    [available_databases[0]], so the call raises [IndexError]. *)
Theorem route_query_stays_available (user_query schema_context : string) :
  let answer := QueryRouter.route_query E llm_route user_query schema_context in
  match available_databases E with
  | [] => answer = Raise index_error
  | [db] =>
      answer = Ok [ ("database", JStr db);
                    ("confidence", QueryRouter.one);
                    ("reasoning", JStr "Only one database available") ]
  | _ =>
      exists d db,
        answer = Ok d
        /\ Py.lookup d "database" = Some (JStr db)
        /\ In db (available_databases E)
  end.
Proof.
  cbv zeta. unfold QueryRouter.route_query.
  destruct (available_databases E) as [|db1 [|db2 rest]] eqn:Havail.
  - assert (Hfirst : QueryRouter.first_available E = Raise index_error)
      by (unfold QueryRouter.first_available; rewrite Havail; reflexivity).
    cbv zeta.
    destruct (llm_route _) as [text|e]; [|rewrite Hfirst; reflexivity].
    destruct (QueryRouter._parse_routing_response E text) as [d|e] eqn:Hparse;
      [|rewrite Hfirst; reflexivity].
    destruct (parse_routing_database text d Hparse) as (db & _ & Hin).
    rewrite Havail in Hin. contradiction.
  - reflexivity.
  - assert (Hfirst : QueryRouter.first_available E = Ok db1)
      by (unfold QueryRouter.first_available; rewrite Havail; reflexivity).
    cbv zeta. rewrite <- Havail.
    assert (Hdefault : forall msg,
               exists d db,
                 Ok [ ("database", JStr db1); ("confidence", QueryRouter.half);
                      ("reasoning", JStr msg) ] = Ok d
                 /\ Py.lookup d "database" = Some (JStr db)
                 /\ In db (available_databases E)).
    { intros msg. eexists _, db1. split; [reflexivity|]. split; [reflexivity|].
      rewrite Havail. left. reflexivity. }
    destruct (llm_route _) as [text|e]; [|rewrite Hfirst; apply Hdefault].
    destruct (QueryRouter._parse_routing_response E text) as [d|e] eqn:Hparse;
      [|rewrite Hfirst; apply Hdefault].
    destruct (parse_routing_database text d Hparse) as (db & Hlook & Hin).
    exists d, db. auto.
Qed.

End ModelRouter.

(** ** Suggested questions *)

Section SuggestedQueries.
Variable E : env.
Variables llm_suggest_sql llm_suggest_mongo : string -> outcome string.

(** X16.  [get_suggested_queries] returns at most ten suggestions and
    changes nothing.  A failing model call never escapes (each generator
    falls back to its two stock questions); the only exception that can
    come out is the one raised while reading the schema of a configured
    store. *)
Theorem get_suggested_queries_capped (s : state) :
  exists o,
    Suggestions.get_suggested_queries E llm_suggest_sql llm_suggest_mongo s = (o, s)
    /\ match o with
       | Ok suggestions => (length suggestions <= 10)%nat
       | Raise e =>
           (postgres_client E = true /\ postgres_context E = Raise e)
           \/ (mongodb_client E = true /\ mongodb_context E = Raise e)
       end.
Proof.
  unfold Suggestions.get_suggested_queries, DatabaseAgent.sql_generator,
    DatabaseAgent.mongo_generator, bind, lift, ret.
  destruct (postgres_client E), (postgres_context E) as [a|ea],
    (mongodb_client E), (mongodb_context E) as [b|eb];
    eexists; (split; [reflexivity|]); cbn;
    first [ rewrite List.length_firstn; lia | left; split; reflexivity
          | right; split; reflexivity | lia ].
Qed.

End SuggestedQueries.

(** ** Chart selection *)

Section Charts.
Import AutoChartGenerator.

Lemma empty_false_columns (df : frame) :
  empty df = false -> columns df <> [] /\ n_rows df <> 0%nat.
Proof.
  unfold empty. intros H. apply orb_false_iff in H as [Hr Hc].
  split.
  - destruct (columns df); [discriminate | discriminate].
  - apply Nat.eqb_neq. exact Hr.
Qed.

(** The analysis of a frame that is not empty. *)
Lemma analyze_data_nonempty (df : frame) :
  empty df = false ->
  exists analysis chart_type,
    analyze_data df = Ok analysis
    /\ Py.lookup analysis "suggested_chart_type" = Some (JStr chart_type)
    /\ Py.lookup analysis "row_count" = Some (JInt (Z.of_nat (n_rows df)))
    /\ In chart_type supported_chart_types
    /\ (chart_type = "table" <-> numeric_columns df = [])
    /\ (chart_type = "pie" -> (n_rows df <= 10)%nat).
Proof.
  intros Hne. unfold analyze_data. rewrite Hne. cbv zeta.
  unfold _suggest_chart_type, item, and_then, len, labels, at_most_ten.
  cbn [Py.lookup String.eqb Ascii.eqb Bool.eqb].
  rewrite !length_map.
  destruct (numeric_columns df) as [|n1 [|n2 ns]],
           (categorical_columns df) as [|c1 cs],
           (datetime_columns df) as [|d1 ds];
    cbn [length Nat.leb Nat.eqb andb];
    try destruct (Z.leb_spec (Z.of_nat (n_rows df)) 10);
    eexists _, _; (split; [reflexivity|]); cbn;
    (split; [reflexivity|]); (split; [reflexivity|]);
    (split; [tauto|]);
    (split; [split; intros; discriminate || reflexivity | intros; discriminate || lia]).
Qed.

Lemma column_in (df : frame) (i : nat) (c : string) :
  column df i = Ok c -> In c (columns df).
Proof.
  unfold column. destruct (nth_error (columns df) i) eqn:Hn; [|discriminate].
  intros [= <-]. eapply nth_error_In. exact Hn.
Qed.

Lemma column_0 (df : frame) : columns df <> [] -> exists c, column df 0 = Ok c.
Proof.
  unfold column. destruct (columns df) as [|c cs]; [contradiction|].
  intros _. exists c. reflexivity.
Qed.

Lemma second_column_in (df : frame) :
  columns df <> [] -> exists c, second_column df = Ok c /\ In c (columns df).
Proof.
  intros Hne. unfold second_column, column.
  destruct (columns df) as [|c [|c' cs]]; [contradiction| |]; cbn.
  - exists c. split; [reflexivity | left; reflexivity].
  - exists c'. split; [reflexivity | right; left; reflexivity].
Qed.

Lemma first_or_in (df : frame) (xs : list string) (alt : outcome string) :
  incl xs (columns df) ->
  (exists c, alt = Ok c /\ In c (columns df)) ->
  exists c, first_or xs alt = Ok c /\ In c (columns df).
Proof.
  intros Hxs Halt. destruct xs as [|x xs]; [exact Halt|].
  exists x. split; [reflexivity | apply Hxs; left; reflexivity].
Qed.

Lemma auto_select_in_columns (df : frame) (chart_type : string) :
  columns df <> [] ->
  incl (numeric_columns df) (columns df) ->
  incl (categorical_columns df) (columns df) ->
  incl (datetime_columns df) (columns df) ->
  exists x y,
    _auto_select_columns df chart_type = Ok (x, y) /\ within_frame df x /\ within_frame df y.
Proof.
  intros Hne Hnum Hcat Hdate.
  assert (Hc0 : exists c, column df 0 = Ok c /\ In c (columns df)).
  { destruct (column_0 df Hne) as [c Hc]. exists c. split; [exact Hc|].
    eapply column_in. exact Hc. }
  pose proof (second_column_in df Hne) as Hc1.
  assert (Hsome : forall c, In c (columns df) -> within_frame df (Some c))
    by (intros c Hc x [= <-]; exact Hc).
  assert (Hnone : within_frame df None) by (intros x [=]).
  unfold _auto_select_columns, and_then.
  destruct (Py.mem chart_type ["bar"; "pie"]).
  { destruct (first_or_in df _ _ Hcat Hc0) as (x & -> & Hx).
    destruct (first_or_in df _ _ Hnum Hc1) as (y & -> & Hy).
    eexists _, _. split; [reflexivity|]. auto. }
  destruct (String.eqb chart_type "line").
  { destruct (first_or_in df _ _ Hdate (first_or_in df _ _ Hcat Hc0)) as (x & -> & Hx).
    destruct (first_or_in df _ _ Hnum Hc1) as (y & -> & Hy).
    eexists _, _. split; [reflexivity|]. auto. }
  destruct (String.eqb chart_type "scatter").
  { destruct (numeric_columns df) as [|n1 [|n2 ns]].
    1-2: destruct Hc0 as (x & -> & Hx); destruct Hc1 as (y & -> & Hy);
         eexists _, _; (split; [reflexivity|]); auto.
    eexists _, _. split; [reflexivity|]. split; apply Hsome, Hnum; cbn; auto. }
  destruct (String.eqb chart_type "histogram").
  { destruct (first_or_in df _ _ Hnum Hc0) as (x & -> & Hx).
    eexists _, _. split; [reflexivity|]. auto. }
  eexists _, _. split; [reflexivity|]. auto.
Qed.

(** X17.  What [analyze_data] suggests.  An empty frame gets the
    two-key answer [chart_type: table] without a suggestion.  Every
    other frame gets an analysis whose [suggested_chart_type] is one of
    the six supported types; it is [table] exactly when the frame has no
    numeric column, and [pie] only for frames of at most ten rows. *)
Theorem analyze_data_suggestion (df : frame) :
  if empty df then
    analyze_data df = Ok [ ("chart_type", JStr "table"); ("reason", JStr "Empty dataset") ]
  else
    exists analysis chart_type,
      analyze_data df = Ok analysis
      /\ Py.lookup analysis "suggested_chart_type" = Some (JStr chart_type)
      /\ In chart_type supported_chart_types
      /\ (chart_type = "table" <-> numeric_columns df = [])
      /\ (chart_type = "pie" -> (n_rows df <= 10)%nat).
Proof.
  destruct (empty df) eqn:Hempty.
  - unfold analyze_data. rewrite Hempty. reflexivity.
  - destruct (analyze_data_nonempty df Hempty)
      as (analysis & chart_type & Ha & Hs & _ & Hin & Htable & Hpie).
    exists analysis, chart_type. auto.
Qed.

(** X18.  [_auto_select_columns] on a frame that has a column, with
    [select_dtypes] answering labels of the frame: for every chart type,
    supported or not, it returns without an [IndexError], and each
    column it selects is a column of the frame. *)
Theorem auto_select_columns_total (df : frame) (chart_type : string) :
  columns df <> [] ->
  incl (numeric_columns df) (columns df) ->
  incl (categorical_columns df) (columns df) ->
  incl (datetime_columns df) (columns df) ->
  exists x y,
    _auto_select_columns df chart_type = Ok (x, y)
    /\ (forall c, x = Some c -> In c (columns df))
    /\ (forall c, y = Some c -> In c (columns df)).
Proof. apply auto_select_in_columns. Qed.

Section WithPlotly.
Variable plotly_available : bool.
Variable figure : Type.
Variable draw : string -> option string -> option string -> outcome figure.

(** X19.  [generate_chart] with the chart type and the columns left to
    be detected, [select_dtypes] answering labels of the frame.  Without
    plotly or on an empty frame it returns [None] and draws nothing.
    Otherwise it asks plotly for exactly one figure: of the type
    [analyze_data] suggests, which is a supported one, over columns of
    the frame; the result is that figure, or the exception plotly
    raised. *)
Theorem generate_chart_request (df : frame) :
  incl (numeric_columns df) (columns df) ->
  incl (categorical_columns df) (columns df) ->
  incl (datetime_columns df) (columns df) ->
  if (negb plotly_available || empty df)%bool then
    generate_chart plotly_available figure draw df = Ok None
  else
    exists analysis chart_type x y,
      analyze_data df = Ok analysis
      /\ Py.lookup analysis "suggested_chart_type" = Some (JStr chart_type)
      /\ In chart_type supported_chart_types
      /\ (forall c, x = Some c -> In c (columns df))
      /\ (forall c, y = Some c -> In c (columns df))
      /\ generate_chart plotly_available figure draw df
         = match draw chart_type x y with
           | Ok fig => Ok (Some fig)
           | Raise e => Raise e
           end.
Proof.
  intros Hnum Hcat Hdate. unfold generate_chart.
  destruct plotly_available; cbn [negb orb]; [|reflexivity].
  destruct (empty df) eqn:Hempty; [reflexivity|].
  destruct (analyze_data_nonempty df Hempty)
    as (analysis & chart_type & Ha & Hs & _ & Hin & _).
  destruct (empty_false_columns df Hempty) as [Hcols _].
  destruct (auto_select_in_columns df chart_type Hcols Hnum Hcat Hdate)
    as (x & y & Hsel & Hx & Hy).
  exists analysis, chart_type, x, y.
  repeat (split; [assumption|]).
  rewrite Ha. unfold and_then, item. rewrite Hs, Hsel. cbn [fst snd].
  unfold generator_for. apply mem_In in Hin. rewrite Hin. reflexivity.
Qed.

End WithPlotly.

Lemma explanation_nonempty (chart_type : string) :
  In chart_type supported_chart_types -> explanation_of chart_type <> "".
Proof.
  intros Hin. cbn in Hin.
  destruct Hin as [<-|[<-|[<-|[<-|[<-|[<-|[]]]]]]]; discriminate.
Qed.

(** X20.  [get_chart_recommendation] needs a frame that is not empty.
    On an empty frame the analysis has no [suggested_chart_type], so the
    call raises [KeyError].  On any other frame it returns the suggested
    type, which is a supported one, with the explanation of that type,
    which is not empty. *)
Theorem chart_recommendation_needs_rows (df : frame) :
  if empty df then
    get_chart_recommendation df = Raise (key_error "suggested_chart_type")
  else
    exists recommendation chart_type text,
      get_chart_recommendation df = Ok recommendation
      /\ Py.lookup recommendation "recommended_chart" = Some (JStr chart_type)
      /\ In chart_type supported_chart_types
      /\ Py.lookup recommendation "explanation" = Some (JStr text)
      /\ text = explanation_of chart_type
      /\ text <> "".
Proof.
  unfold get_chart_recommendation.
  destruct (empty df) eqn:Hempty.
  - unfold analyze_data. rewrite Hempty. reflexivity.
  - destruct (analyze_data_nonempty df Hempty)
      as (analysis & chart_type & Ha & Hs & _ & Hin & _).
    rewrite Ha. unfold and_then, item. rewrite Hs.
    eexists _, chart_type, _. split; [reflexivity|].
    repeat split; try reflexivity; [exact Hin | apply explanation_nonempty, Hin].
Qed.

End Charts.

(** ** The aggregate handler *)

Section AggregateGuard.
Variable E : env.




End AggregateGuard.

(** ** The shape of the history *)

Section HistoryShape.
Variable E : env.



End HistoryShape.

(** ** The stores of a constructed agent *)

Section ConstructedAgent.

Lemma url_default_truthy (arg : option string) (dflt : string) :
  PyStr.nonempty dflt = true -> Config.truthy (or_default arg dflt) = true.
Proof.
  intros H. unfold or_default. destruct (Config.truthy arg) eqn:Harg; [exact Harg | exact H].
Qed.

Lemma postgres_url_nonempty (c : Config.settings) :
  PyStr.nonempty (Config.postgres_url c) = true.
Proof. reflexivity. Qed.

Lemma mongodb_url_nonempty (c : Config.settings) :
  PyStr.nonempty (Config.mongodb_url c) = true.
Proof. unfold Config.mongodb_url. destruct (_ && _)%bool; reflexivity. Qed.

Lemma fast_route_within (available : list string) (user_query : string) :
  let d := database (Router._fast_route available user_query) in
  (d = "postgresql" \/ d = "mongodb")
  /\ ((Py.mem "postgresql" available || Py.mem "mongodb" available)%bool = true ->
      Py.mem d available = true).
Proof.
  cbv zeta. unfold Router._fast_route. cbv zeta.
  destruct (Py.mem "postgresql" available) eqn:Hp, (Py.mem "mongodb" available) eqn:Hm;
    rewrite ?andb_true_r, ?andb_false_r;
    repeat match goal with
           | |- context [if ?b then _ else _] => destruct b
           end;
    cbn [database]; split; auto; intros; try assumption; discriminate.
Qed.

(** X23.  The stores of an agent constructed by [DatabaseAgent(...)],
    whatever the settings and the optional URL arguments.  The URLs the
    settings build are never empty, so both store clients always exist:
    which stores are available is decided by the two connection tests
    alone, the relational store listed first, and [test_connections]
    reports on both stores.  Every question is routed
    to one of the two store names, and to an available store whenever
    some store is available. *)
Theorem constructed_agent_stores (c : Config.settings)
        (postgres_url mongodb_url : option string)
        (postgres_ping mongodb_ping : outcome unit) (E : env) :
  constructed c postgres_url mongodb_url postgres_ping mongodb_ping E ->
  postgres_client E = true
  /\ mongodb_client E = true
  /\ available_databases E
     = (if Manager.test_connection postgres_ping then ["postgresql"] else [])
       ++ (if Manager.test_connection mongodb_ping then ["mongodb"] else [])
  /\ Manager.test_connections
       (or_default postgres_url (Config.postgres_url c))
       (or_default mongodb_url (Config.mongodb_url c)) postgres_ping mongodb_ping
     = [ ("postgresql", Manager.test_connection postgres_ping);
         ("mongodb", Manager.test_connection mongodb_ping) ]
  /\ forall user_query,
       (routed_database E user_query = "postgresql"
        \/ routed_database E user_query = "mongodb")
       /\ (available_databases E <> [] ->
           In (routed_database E user_query) (available_databases E)).
Proof.
  intros (Hpg & Hmongo & Havail).
  assert (Hp : postgres_client E = true).
  { rewrite Hpg. apply url_default_truthy, postgres_url_nonempty. }
  assert (Hm : mongodb_client E = true).
  { rewrite Hmongo. apply url_default_truthy, mongodb_url_nonempty. }
  assert (Hlist : available_databases E
                  = (if Manager.test_connection postgres_ping then ["postgresql"] else [])
                    ++ (if Manager.test_connection mongodb_ping then ["mongodb"] else [])).
  { rewrite Havail. unfold Manager.get_available_databases.
    rewrite Hpg in Hp. rewrite Hmongo in Hm. rewrite Hp, Hm. reflexivity. }
  split; [exact Hp|]. split; [exact Hm|]. split; [exact Hlist|].
  split.
  { unfold Manager.test_connections. rewrite Hpg in Hp. rewrite Hmongo in Hm.
    rewrite Hp, Hm. reflexivity. }
  intros user_query. unfold routed_database, DatabaseAgent._fast_route.
  destruct (fast_route_within (available_databases E) user_query) as [Hname Hin].
  split; [exact Hname|]. intros Hne. apply mem_In, Hin.
  rewrite Hlist in Hne |- *.
  destruct (Manager.test_connection postgres_ping), (Manager.test_connection mongodb_ping);
    try reflexivity. contradiction.
Qed.

End ConstructedAgent.

(** ** The tracing decorators *)

Section TracingDecorators.
Variable E : env.

Lemma agree_sdk (n : nat) (s : state) : agree (set_sdk_calls n s) s.
Proof. repeat split. Qed.

Lemma agree_trans (s1 s2 s3 : state) : agree s1 s2 -> agree s2 s3 -> agree s1 s3.
Proof.
  intros (? & ? & ? & ?) (? & ? & ? & ?). repeat split; congruence.
Qed.

Lemma bind_run {A B} (m : M A) (k : A -> M B) (s s1 : state) (a : A) :
  m s = (Ok a, s1) -> bind m k s = k a s1.
Proof. intros H. unfold bind. rewrite H. reflexivity. Qed.

(** A closing sequence of tracer calls that hands the result on, and one
    that raises the exception again. *)
Lemma closing_returns {A} (closing : M unit) (result : A) (s : state) :
  quiet closing -> exists n, (closing ;;; ret result) s = (Ok result, set_sdk_calls n s).
Proof. intros Hq. unfold bind, ret. destruct (Hq s) as (u & n & ->). eauto. Qed.

Lemma closing_raises {A} (closing : M unit) (e : exn) (s : state) :
  quiet closing -> exists n, (closing ;;; @raise A e) s = (Raise e, set_sdk_calls n s).
Proof. intros Hq. unfold bind, raise. destruct (Hq s) as (u & n & ->). eauto. Qed.

Lemma state_sdk_same (s : state) : s = set_sdk_calls (sdk_calls s) s.
Proof. destruct s. reflexivity. Qed.

(** The decorated call, from the state the opening tracer calls left:
    [expected] is what the closing steps make of a result. *)
Lemma wrapped_call_transparent {A} (func : M A) (after : A -> M A) (handler : exn -> M A)
      (expected : A -> outcome A) (n : nat) (s : state) :
  respects func ->
  (forall result s1, exists n1, after result s1 = (expected result, set_sdk_calls n1 s1)) ->
  (forall e s1, exists n1, handler e s1 = (Raise e, set_sdk_calls n1 s1)) ->
  let run :=
    try_finally (try_except (result <- func ;; after result) handler)
                (Langfuse.flush E) (set_sdk_calls n s) in
  fst run = match fst (func s) with
            | Ok result => expected result
            | Raise e => Raise e
            end
  /\ agree (snd run) (snd (func s)).
Proof.
  intros Hfunc Hafter Hhandler. cbv zeta.
  destruct (Hfunc (set_sdk_calls n s) s (agree_sdk n s)) as [Hout Hstate].
  unfold try_finally, try_except, bind.
  destruct (func (set_sdk_calls n s)) as [[result|e] s1]; cbn [fst snd] in Hout, Hstate;
    rewrite <- Hout.
  - destruct (Hafter result s1) as (n1 & ->).
    destruct (expected result) as [result'|e] eqn:Hexp.
    + destruct (langfuse_flush_quiet E (set_sdk_calls n1 s1)) as (u & n2 & ->).
      split; [reflexivity|]. eapply agree_trans; [|exact Hstate]. repeat split.
    + destruct (Hhandler e (set_sdk_calls n1 s1)) as (n2 & ->).
      destruct (langfuse_flush_quiet E (set_sdk_calls n2 (set_sdk_calls n1 s1)))
        as (u & n3 & ->).
      split; [reflexivity|]. eapply agree_trans; [|exact Hstate]. repeat split.
  - destruct (Hhandler e s1) as (n1 & ->).
    destruct (langfuse_flush_quiet E (set_sdk_calls n1 s1)) as (u & n2 & ->).
    split; [reflexivity|]. eapply agree_trans; [|exact Hstate]. repeat split.
Qed.

Lemma closing_generation_quiet g sp :
  quiet (Langfuse.end_generation E g ;;; Langfuse.end_span E sp true).
Proof.
  apply quiet_bind; [apply langfuse_end_generation_quiet|].
  intros _. apply langfuse_end_span_quiet.
Qed.

(** X24.  The two tracing decorators, for a function that does not look
    at the count of SDK calls.  With Langfuse disabled the decorated call
    is the call.  With Langfuse enabled, [trace_query] first reads
    [func.__name__]: when that raises, the decorated call raises the same
    without calling the function or the SDK; otherwise it returns what
    the function returns and raises what it raises.  [trace_generation]
    raises what the function raises; when the function returns, it
    computes [str(result)[:1000] if result else None], returns the result
    when that goes through and raises its exception when it does not.
    Either way the history, the decoded objects, the tool calls and the
    driver calls are left as the function alone leaves them, whichever of
    the SDK calls fail. *)
Theorem trace_decorators_transparent {A} (name_of : outcome string)
        (truth : A -> outcome bool) (text : A -> outcome string)
        (func : M A) (s : state) :
  respects func ->
  let traced := Decorators.trace_query E name_of func s in
  let generated := Decorators.trace_generation E truth text func s in
  (if langfuse_enabled E then
     match name_of with
     | Raise e => traced = (Raise e, s)
     | Ok _ => fst traced = fst (func s) /\ agree (snd traced) (snd (func s))
     end
   else traced = func s)
  /\ (if langfuse_enabled E then
        agree (snd generated) (snd (func s))
        /\ fst generated
           = match fst (func s) with
             | Raise e => Raise e
             | Ok result =>
                 match Decorators.output_of truth text result with
                 | Ok _ => Ok result
                 | Raise e => Raise e
                 end
             end
      else generated = func s).
Proof.
  intros Hfunc. cbv zeta. split.
  - unfold Decorators.trace_query.
    destruct (langfuse_enabled E); cbn [negb]; [|reflexivity].
    destruct name_of as [name|e]; [|reflexivity].
    rewrite (bind_run (lift (Ok name)) _ s s name eq_refl).
    destruct (langfuse_start_span_quiet E s) as (sp & n & Hstart).
    rewrite (bind_run _ _ _ _ _ Hstart).
    destruct (wrapped_call_transparent func
                (fun result => Langfuse.end_span E sp true ;;; ret result)
                (fun e => Langfuse.end_span E sp true ;;; raise e)
                (fun result => Ok result) n s Hfunc) as [Hout Hstate].
    + intros result s1. apply closing_returns, langfuse_end_span_quiet.
    + intros e s1. apply closing_raises, langfuse_end_span_quiet.
    + split; [|exact Hstate]. rewrite Hout. destruct (fst (func s)); reflexivity.
  - unfold Decorators.trace_generation.
    destruct (langfuse_enabled E); cbn [negb]; [|reflexivity].
    destruct (langfuse_start_span_quiet E s) as (sp & n & Hstart).
    rewrite (bind_run _ _ _ _ _ Hstart).
    destruct (langfuse_start_generation_quiet E sp (set_sdk_calls n s)) as (g & n' & Hgen).
    rewrite (bind_run _ _ _ _ _ Hgen).
    change (set_sdk_calls n' (set_sdk_calls n s)) with (set_sdk_calls n' s).
    destruct (wrapped_call_transparent func
                (fun result =>
                   lift (Decorators.output_of truth text result) ;;;
                   Langfuse.end_generation E g ;;;
                   Langfuse.end_span E sp true ;;;
                   ret result)
                (fun e =>
                   Langfuse.end_generation E g ;;;
                   Langfuse.end_span E sp true ;;;
                   raise e)
                (fun result => match Decorators.output_of truth text result with
                               | Ok _ => Ok result
                               | Raise e => Raise e
                               end)
                n' s Hfunc) as [Hout Hstate].
    + intros result s1. unfold bind at 1. unfold lift.
      destruct (Decorators.output_of truth text result) as [out|e].
      * destruct (closing_returns
                    (Langfuse.end_generation E g ;;; Langfuse.end_span E sp true)
                    result s1 (closing_generation_quiet g sp)) as (n1 & Hn1).
        exists n1. rewrite <- Hn1. unfold bind.
        destruct (Langfuse.end_generation E g s1) as [[u|e] s2]; reflexivity.
      * exists (sdk_calls s1). rewrite <- state_sdk_same. reflexivity.
    + intros e s1.
      destruct (closing_raises (A := A)
                  (Langfuse.end_generation E g ;;; Langfuse.end_span E sp true)
                  e s1 (closing_generation_quiet g sp)) as (n1 & Hn1).
      exists n1. rewrite <- Hn1. unfold bind.
      destruct (Langfuse.end_generation E g s1) as [[u|e'] s2]; reflexivity.
    + split; [exact Hstate | exact Hout].
Qed.

End TracingDecorators.

(** ** Aggregate requests, from the generator's check to the driver *)

Section AggregateRequestsChecked.
Variable E : env.







End AggregateRequestsChecked.

(** ** Requests that end before any tool is called *)

Section StoppedRequests.
Variable E : env.

Lemma unlike_literal (v : json) (lit : string) :
  v <> JStr lit -> DatabaseAgent.json_is_str v lit = false.
Proof.
  intros Hne. destruct v as [| | | |text| |]; try reflexivity.
  cbn. destruct (String.eqb_spec text lit) as [->|]; [contradiction | reflexivity].
Qed.

(** X26.  A request whose generation succeeded but names nothing to run.
    A relational request whose statement is missing or falsy (a statement
    of blanks is stripped to the empty string) fails with ["No SQL query
    generated"]; a document request whose collection is missing or falsy
    fails with ["No collection specified"]; a document request whose
    query type is neither ["find"] nor ["aggregate"] fails with
    ["Unknown query type: "] followed by the type.  In all three cases no
    tool is called, no driver is called and the history stays as it
    was. *)
Theorem request_without_target_stopped (user_query : string) (s : state) (gen : dict) :
  Answer.generated E (routed_database E user_query) user_query (conversation_history s)
  = Ok gen ->
  Py.truthy (Py.get gen "success") = true ->
  exists r s',
    DatabaseAgent.process_query E user_query s = (Ok r, s')
    /\ (routed_database E user_query = "postgresql" ->
        Py.truthy (Py.get gen "sql") = false ->
        stopped "No SQL query generated" s r s')
    /\ (routed_database E user_query = "mongodb" ->
        Py.truthy (Py.get gen "collection") = false ->
        stopped "No collection specified" s r s')
    /\ (routed_database E user_query = "mongodb" ->
        Py.truthy (Py.get gen "collection") = true ->
        Py.get gen "query_type" <> JStr "find" ->
        Py.get gen "query_type" <> JStr "aggregate" ->
        stopped ("Unknown query type: " +:+ DatabaseAgent.fstr E (Py.get gen "query_type"))
                s r s').
Proof.
  intros Hgen Hsuccess.
  destruct (process_query_run E user_query s) as (r & s' & Hrun & Hp).
  exists r, s'. split; [exact Hrun|].
  unfold processed in Hp. rewrite Hgen, Hsuccess in Hp.
  destruct Hp as (s0 & xo & sx & Hh0 & Ho0 & Ht0 & Hd0 & Hexec & Ho & Ht & Hd & Hc).
  assert (Hg0 : objects s0 !! gen_loc s = Some (JDict gen)).
  { rewrite Ho0. apply lookup_insert_eq. }
  revert Hexec. unfold DatabaseAgent._execute_query, bind, Store.deref_dict. rewrite Hg0.
  cbv iota zeta. intros Hexec.
  split; [|split].
  - intros Hdb Hsql. rewrite Hdb in Hexec.
    change (String.eqb "postgresql" "postgresql") with true in Hexec. cbv iota in Hexec.
    rewrite Hsql in Hexec. cbn [negb] in Hexec. injection Hexec as <- <-.
    cbn in Hc. destruct Hc as [-> Hh]. repeat split; congruence.
  - intros Hdb Hcoll. rewrite Hdb in Hexec.
    change (String.eqb "mongodb" "postgresql") with false in Hexec.
    change (String.eqb "mongodb" "mongodb") with true in Hexec. cbv iota in Hexec.
    rewrite Hcoll in Hexec. cbn [negb] in Hexec. injection Hexec as <- <-.
    cbn in Hc. destruct Hc as [-> Hh]. repeat split; congruence.
  - intros Hdb Hcoll Hfind Hagg. rewrite Hdb in Hexec.
    change (String.eqb "mongodb" "postgresql") with false in Hexec.
    change (String.eqb "mongodb" "mongodb") with true in Hexec. cbv iota in Hexec.
    rewrite Hcoll, (unlike_literal _ _ Hfind), (unlike_literal _ _ Hagg) in Hexec.
    cbn [negb] in Hexec. injection Hexec as <- <-.
    cbn in Hc. destruct Hc as [-> Hh]. repeat split; congruence.
Qed.

End StoppedRequests.


(** ** The further theorems at concrete inputs *)

Section FurtherInstances.





Lemma sql_fallback_extracts_select_witness :
  exists sql,
    SQLGenerator._parse_response (Scenario.env Scenario.both) Doubles.prose
    = Ok [ ("success", JBool true);
           ("sql", JStr sql);
           ("explanation", JStr "Extracted from response");
           ("tables_used", JList []) ]
    /\ PyStr.startswith "SELECT" (PyStr.upper sql) = true
    /\ (PyStr.count PyStr.semicolon sql <= 1)%nat.
Proof.
  pose proof (sql_fallback_extracts_select (Scenario.env Scenario.both) Doubles.prose
                (Exn JSONDecodeError "Expecting value: line 1 column 1 (char 0)")
                eq_refl eq_refl eq_refl) as H.
  replace (PyStr.contains "SELECT" (PyStr.upper (Generator.clean_response Doubles.prose)))
    with true in H by reflexivity.
  destruct H as (pre & rest & sql & _ & _ & _ & _ & Hparse & Hstart & Hcount & _).
  exists sql. split; [exact Hparse|]. split; [exact Hstart | exact Hcount].
Defined.

Lemma relational_request_forwarded_witness :
  exists r s',
    Scenario.run ["postgresql"] "show me all customers from New York" = (Ok r, s')
    /\ tool_calls s' = [PostgresQuery (JStr Scenario.customers_sql)]
    /\ db_calls s' = [DbQuery Scenario.customers_sql].
Proof.
  destruct (relational_request_forwarded (Scenario.env ["postgresql"])
              "show me all customers from New York" Scenario.fresh_state
              [ ("sql", JStr Scenario.customers_sql);
                ("explanation", JStr "...");
                ("tables_used", JList [JStr "customers"]);
                ("success", JBool true) ]
              Scenario.customers_sql)
    as (r & s' & Hrun & _ & Ht & Hd & _).
  - reflexivity.
  - reflexivity.
  - reflexivity.
  - reflexivity.
  - discriminate.
  - exists r, s'. split; [exact Hrun|]. split; [exact Ht | exact Hd].
Defined.


Lemma tracing_is_transparent_witness :
  exists r s1' s2',
    Scenario.run Scenario.both "clicks per page" = (Ok r, s1')
    /\ DatabaseAgent.process_query
         (with_tracing (Scenario.env Scenario.both) false (fun _ => None))
         "clicks per page" (set_sdk_calls 7 Scenario.fresh_state) = (Ok r, s2')
    /\ db_calls s1' = db_calls s2'.
Proof.
  destruct (tracing_is_transparent (Scenario.env Scenario.both) false (fun _ => None)
              "clicks per page" Scenario.fresh_state
              (set_sdk_calls 7 Scenario.fresh_state))
    as (r & s1' & s2' & H1 & H2 & _ & _ & _ & Hd).
  - repeat split.
  - exists r, s1', s2'. auto.
Defined.

Lemma tracing_off_makes_no_sdk_call_witness :
  exists r s',
    DatabaseAgent.process_query
      (with_tracing (Scenario.env Scenario.both) false (fun _ => None))
      "show me all events from today" Scenario.fresh_state = (Ok r, s')
    /\ sdk_calls s' = 0%nat.
Proof.
  apply (tracing_off_makes_no_sdk_call
           (with_tracing (Scenario.env Scenario.both) false (fun _ => None))
           "show me all events from today" Scenario.fresh_state).
  reflexivity.
Defined.

Lemma auto_select_columns_total_witness :
  exists x y,
    AutoChartGenerator._auto_select_columns Doubles.sales "scatter" = Ok (x, y)
    /\ (forall c, x = Some c -> In c ["city"; "total"])
    /\ (forall c, y = Some c -> In c ["city"; "total"]).
Proof.
  apply (auto_select_columns_total Doubles.sales "scatter").
  - discriminate.
  - intros c [<-|[]]. right. left. reflexivity.
  - intros c [<-|[]]. left. reflexivity.
  - intros c [].
Defined.

Lemma generate_chart_request_witness :
  exists analysis chart_type x y,
    AutoChartGenerator.analyze_data Doubles.sales = Ok analysis
    /\ Py.lookup analysis "suggested_chart_type" = Some (JStr chart_type)
    /\ In chart_type AutoChartGenerator.supported_chart_types
    /\ (forall c, x = Some c -> In c ["city"; "total"])
    /\ (forall c, y = Some c -> In c ["city"; "total"])
    /\ AutoChartGenerator.generate_chart true string (fun kind _ _ => Ok kind)
         Doubles.sales
       = Ok (Some chart_type).
Proof.
  apply (generate_chart_request true string (fun kind _ _ => Ok kind) Doubles.sales).
  - intros c [<-|[]]. right. left. reflexivity.
  - intros c [<-|[]]. left. reflexivity.
  - intros c [].
Defined.

Lemma constructed_agent_stores_witness :
  available_databases Doubles.document_only = ["mongodb"]
  /\ routed_database Doubles.document_only "list the customers" = "mongodb".
Proof.
  destruct (constructed_agent_stores Doubles.defaults None None
              (Raise (Exn OtherException "connection refused")) (Ok tt)
              Doubles.document_only)
    as (_ & _ & Havail & _ & Hroute).
  - repeat split.
  - split; [exact Havail|].
    destruct (Hroute "list the customers") as [_ Hin].
    destruct Hin as [Hin|[]]; [discriminate | symmetry; exact Hin].
Defined.

Lemma trace_decorators_transparent_witness :
  Decorators.trace_query (Scenario.env Scenario.both)
    (Raise Doubles.partial_without_name) (ret Doubles.sales) Scenario.fresh_state
  = (Raise Doubles.partial_without_name, Scenario.fresh_state)
  /\ fst (Decorators.trace_generation (Scenario.env Scenario.both)
            (fun _ : AutoChartGenerator.frame => Raise Doubles.ambiguous_truth)
            (fun _ => Ok "city total")
            (ret Doubles.sales) Scenario.fresh_state)
     = Raise Doubles.ambiguous_truth.
Proof.
  destruct (trace_decorators_transparent (Scenario.env Scenario.both)
              (Raise Doubles.partial_without_name)
              (fun _ : AutoChartGenerator.frame => Raise Doubles.ambiguous_truth)
              (fun _ => Ok "city total")
              (ret Doubles.sales) Scenario.fresh_state)
    as [Hquery [_ Hout]].
  - apply respects_ret.
  - split; [exact Hquery | exact Hout].
Defined.


Lemma request_without_target_stopped_witness :
  exists r s',
    DatabaseAgent.process_query Doubles.blank_env "list the customers"
      Scenario.fresh_state = (Ok r, s')
    /\ stopped "No SQL query generated" Scenario.fresh_state r s'.
Proof.
  destruct (request_without_target_stopped Doubles.blank_env "list the customers"
              Scenario.fresh_state
              [ ("sql", JStr ""); ("success", JBool true) ])
    as (r & s' & Hrun & Hsql & _).
  - reflexivity.
  - reflexivity.
  - exists r, s'. split; [exact Hrun|]. apply Hsql; reflexivity.
Defined.

End FurtherInstances.
